(** * Langchain-Chatchat: chat endpoint and dialogue page

    A shallow embedding of [server/chat/chat.py] and of the command parser
    and event loop of [webui_pages/dialogue/dialogue.py].

    Conventions.
    - A Python [str] is the list of its Unicode code points ([pystr]).
    - A Python [dict] whose iteration order is irrelevant is a [gmap]; the
      nested [model_config] mapping, which the code iterates, is an
      association list in iteration order.
    - A Python exception is a value of [exn]; fallible code lives in the
      [result] monad.
    - Objects of the wrapped framework and of modules of the repository
      that are outside the two files are fields of the interface classes
      [ServerEnv] and [ChatBoxApi]. *)

From Stdlib Require Import String Ascii QArith.
From stdpp Require Import base option list gmap numbers pretty.

Set Warnings "-register-all".
Local Open Scope Z_scope.

(** ** Python values *)

Abbreviation pystr := (list N).

(** An ASCII literal as a [pystr]. *)
Fixpoint py (s : string) : pystr :=
  match s with
  | EmptyString => []
  | String a s' => N_of_ascii a :: py s'
  end.

(** Values of [json.loads]. *)
Inductive json : Type :=
| JNull
| JBool (b : bool)
| JInt (z : Z)
| JFloat (q : Q)
| JStr (s : pystr)
| JArr (l : list json)
| JObj (o : gmap pystr json).

(** Python truth value of a JSON value. *)
Definition truthy (v : json) : bool :=
  match v with
  | JNull => false
  | JBool b => b
  | JInt z => negb (z =? 0)
  | JFloat q => negb (Qeq_bool q 0)
  | JStr s => negb (bool_decide (s = []))
  | JArr l => match l with [] => false | _ => true end
  | JObj o => negb (bool_decide (o = ∅))
  end.

(** Truth value of a [str] and of a [list]. *)
Definition str_truthy (s : pystr) : bool := negb (bool_decide (s = [])).

Definition list_truthy {A} (l : list A) : bool :=
  match l with [] => false | _ :: _ => true end.

(** [d.get(k, default)] *)
Definition dict_get {V} (d : gmap pystr V) (k : pystr) (default : V) : V :=
  match d !! k with
  | Some v => v
  | None => default
  end.

(** [k in d] *)
Definition dict_mem {V} (k : pystr) (d : gmap pystr V) : bool :=
  bool_decide (is_Some (d !! k)).

(** ** Exceptions *)

Inductive exn : Type :=
| KeyError (k : pystr)
| TypeError_not_iterable       (* iterating over an int *)
| TypeError_item_assignment    (* [v[k] = x] on a value that is no dict *)
| TypeError_concatenate        (* [s += v] on a str [s] and a non-str [v] *)
| JSONDecodeError              (* [json.loads] on a text that is no JSON *)
| ValidationError.             (* a pydantic model built without a required field *)

Inductive result (A : Type) : Type :=
| Ok (a : A)
| Raise (e : exn).
Arguments Ok {A} a.
Arguments Raise {A} e.

#[global] Instance result_ret : MRet result := fun A a => Ok a.
#[global] Instance result_bind : MBind result := fun A B k r =>
  match r with
  | Ok a => k a
  | Raise e => Raise e
  end.

(** [d[k]] *)
Definition dict_item {V} (d : gmap pystr V) (k : pystr) : result V :=
  match d !! k with
  | Some v => Ok v
  | None => Raise (KeyError k)
  end.

(** ** server/chat/chat.py *)

Module Chat.

(** Keyword arguments of one [get_ChatOpenAI] call (lines 34-40). *)
Record ChatOpenAI_kwargs (Handler : Type) : Type := {
  kw_model_name : pystr;
  kw_temperature : json;
  kw_max_tokens : json;
  kw_callbacks : option (list Handler);
  kw_streaming : bool;
}.
Arguments kw_model_name {Handler} _.
Arguments kw_temperature {Handler} _.
Arguments kw_max_tokens {Handler} _.
Arguments kw_callbacks {Handler} _.
Arguments kw_streaming {Handler} _.

(** [server.chat.utils.History]: a role and a content. *)
Record History : Type := { role : pystr; content : pystr }.

(** The request's [history]: an integer or a list (line 124). *)
Inductive HistoryArg : Type :=
| HInt (n : Z)
| HList (l : list History).

(** The objects [create_models_chains] builds.  A constructor of the
    wrapped framework is a constructor here, with the arguments the code
    passes. *)
Section Objects.
Context (Model Tool MsgTemplate Handler : Type).

Record ConversationBufferDBMemory : Type := {
  mem_conversation_id : pystr;
  mem_llm : Model;
  mem_message_limit : Z;
}.

Record LLMChain : Type := {
  chain_prompt : option (list MsgTemplate);
  chain_llm : Model;
  chain_memory : option ConversationBufferDBMemory;
}.

Record ClassifierChain : Type := {
  classifier_template : pystr;
  classifier_model : Model;
}.

Inductive AgentExecutor : Type :=
| initialize_glm3_agent (llm : Model) (tools : list Tool) (prompt : pystr)
    (memory : option ConversationBufferDBMemory) (callbacks : list Handler)
| initialize_qwen_agent (llm : Model) (tools : list Tool) (prompt : pystr)
    (memory : option ConversationBufferDBMemory) (callbacks : list Handler)
| initialize_agent (llm : Model) (tools : list Tool)
    (callbacks : list Handler)
    (memory : option ConversationBufferDBMemory).

(** [{"input": lambda x: x["input"]} | agent_executor] and
    [{"input": lambda x: x["input"]} | chain]. *)
Inductive FullChain : Type :=
| input_to_agent (agent_executor : AgentExecutor)
| input_to_chain (chain : LLMChain).

End Objects.
Arguments mem_conversation_id {Model} _.
Arguments mem_llm {Model} _.
Arguments mem_message_limit {Model} _.
Arguments chain_prompt {Model MsgTemplate} _.
Arguments chain_llm {Model MsgTemplate} _.
Arguments chain_memory {Model MsgTemplate} _.
Arguments initialize_glm3_agent {Model Tool Handler}.
Arguments initialize_qwen_agent {Model Tool Handler}.
Arguments initialize_agent {Model Tool Handler}.
Arguments input_to_agent {Model Tool MsgTemplate Handler}.
Arguments input_to_chain {Model Tool MsgTemplate Handler}.

(** [server.agent.container.container]: a module-level object. *)
Record Container : Type := { container_metadata : json }.

(** What the two files import and call without defining. *)
Class ServerEnv : Type := {
  Handler : Type;      (* callback handler objects *)
  Model : Type;        (* ChatOpenAI instances *)
  Tool : Type;         (* entries of the tool registry *)
  MsgTemplate : Type;  (* message templates of a chat prompt *)
  DB : Type;           (* the message database *)
  get_ChatOpenAI : ChatOpenAI_kwargs Handler → Model;
  model_name : Model → pystr;
  get_prompt_template : pystr → json → pystr;
  str_lower : pystr → pystr;
  History_from_data : History → History;
  to_msg_template : History → bool → MsgTemplate;
  all_tools : list Tool;
  tool_name : Tool → pystr;
  add_message_to_db : pystr → pystr → pystr → DB → pystr * DB;
  AgentExecutorAsyncIteratorCallbackHandler : Handler;
  (* the chunks [callback.aiter()] delivers while the task that invokes
     the chain on the query runs *)
  aiter_chunks : FullChain Model Tool MsgTemplate Handler → pystr → list pystr;
  json_loads : pystr → result json;
  json_dumps : json → pystr;   (* with [ensure_ascii=False] *)
}.

Section Definitions.
Context {env : ServerEnv}.

(** *** create_models_from_config (lines 26-45) *)

(** [model_config]: model role -> model name -> params, in iteration
    order. *)
Definition Params : Type := gmap pystr json.
Definition Configs : Type := list (pystr * list (pystr * Params)).

(** The variables the loop of lines 31-44 reads and writes, with a ghost
    log of the [get_ChatOpenAI] calls made so far, oldest first. *)
Record LoopState : Type := {
  ls_callbacks : option (list Handler);
  ls_models : gmap pystr Model;
  ls_prompts : gmap pystr pystr;
  ls_calls : list (ChatOpenAI_kwargs Handler);
}.

(** Lines 33-44: one iteration of the inner loop. *)
Definition loop_body (stream : bool) (model_type : pystr)
    (st : LoopState) (item : pystr * Params) : LoopState :=
  let '(name, params) := item in
  let callbacks :=
    if truthy (dict_get params (py "callbacks") (JBool false))
    then ls_callbacks st else None in
  let kwargs := {|
    kw_model_name := name;
    kw_temperature := dict_get params (py "temperature") (JFloat (1 # 2));
    kw_max_tokens := dict_get params (py "max_tokens") (JInt 1000);
    kw_callbacks := callbacks;
    kw_streaming := stream |} in
  let model_instance := get_ChatOpenAI kwargs in
  let prompt_name := dict_get params (py "prompt_name") (JStr (py "default")) in
  let prompt_template := get_prompt_template model_type prompt_name in
  {| ls_callbacks := callbacks;
     ls_models := <[model_type := model_instance]> (ls_models st);
     ls_prompts := <[model_type := prompt_template]> (ls_prompts st);
     ls_calls := ls_calls st ++ [kwargs] |}.

(** Lines 31-44: the two nested loops. *)
Definition outer_body (stream : bool) (st : LoopState)
    (entry : pystr * list (pystr * Params)) : LoopState :=
  foldl (loop_body stream (fst entry)) st (snd entry).

Definition run_loops (configs : option Configs)
    (callbacks : option (list Handler)) (stream : bool) : LoopState :=
  let configs := match configs with None => [] | Some c => c end in
  foldl (outer_body stream)
    {| ls_callbacks := callbacks; ls_models := ∅; ls_prompts := ∅;
       ls_calls := [] |}
    configs.

Definition create_models_from_config (configs : option Configs)
    (callbacks : option (list Handler)) (stream : bool)
    : gmap pystr Model * gmap pystr pystr :=
  let st := run_loops configs callbacks stream in
  (ls_models st, ls_prompts st).

(** The (role, name, params) triples in the order the loops visit them. *)
Definition visit_order (configs : Configs) : list (pystr * (pystr * Params)) :=
  configs ≫= (fun entry => (fun item => (fst entry, item)) <$> snd entry).

(** The loop body at one visited triple. *)
Definition visit_body (stream : bool) (st : LoopState)
    (e : pystr * (pystr * Params)) : LoopState :=
  loop_body stream (fst e) st (snd e).

(** *** create_models_chains (lines 49-117) *)

(** [needle in s] on strings. *)
Fixpoint starts_with (needle s : pystr) : bool :=
  match needle, s with
  | [], _ => true
  | _ :: _, [] => false
  | a :: needle', b :: s' => bool_decide (a = b) && starts_with needle' s'
  end.

Fixpoint str_contains (needle s : pystr) : bool :=
  starts_with needle s ||
  match s with
  | [] => false
  | _ :: s' => str_contains needle s'
  end.

Definition history_truthy (history : HistoryArg) : bool :=
  match history with
  | HInt n => negb (n =? 0)
  | HList l => list_truthy l
  end.

(** [for h in history]: an integer is not iterable. *)
Definition history_iter (history : HistoryArg) : result (list History) :=
  match history with
  | HInt _ => Raise TypeError_not_iterable
  | HList l => Ok l
  end.

Abbreviation Memory := (ConversationBufferDBMemory Model).
Abbreviation ChatPrompt := (list MsgTemplate).
Abbreviation Chain := (FullChain Model Tool MsgTemplate Handler).

(** [History(role="user", content=...).to_msg_template(False)] *)
Definition input_msg_of (template : pystr) : MsgTemplate :=
  to_msg_template {| role := py "user"; content := template |} false.

(** Lines 50-67: the values of [chat_prompt] and [memory]. *)
Definition prompt_and_memory (history : HistoryArg) (history_len : Z)
    (prompts : gmap pystr pystr) (models : gmap pystr Model)
    (conversation_id : pystr) : result (option ChatPrompt * option Memory) :=
  if history_truthy history then
    hs ← history_iter history;
    let history := History_from_data <$> hs in
    template ← dict_item prompts (py "llm_model");
    let input_msg := input_msg_of template in
    Ok (Some (((fun i => to_msg_template i true) <$> history) ++ [input_msg]),
        None)
  else if str_truthy conversation_id && (0 <? history_len) then
    llm ← dict_item models (py "llm_model");
    Ok (None, Some {| mem_conversation_id := conversation_id;
                      mem_llm := llm;
                      mem_message_limit := history_len |})
  else
    template ← dict_item prompts (py "llm_model");
    let input_msg := input_msg_of template in
    Ok (Some [input_msg], None).

(** [LLMChain(prompt=..., llm=..., memory=...)].  [prompt] is a required
    field of the model: built with [None] for it, the constructor raises
    instead of returning a chain. *)
Definition new_LLMChain (prompt : option ChatPrompt) (llm : Model)
    (memory : option Memory) : result (LLMChain Model MsgTemplate) :=
  match prompt with
  | Some _ => Ok {| chain_prompt := prompt; chain_llm := llm;
                    chain_memory := memory |}
  | None => Raise ValidationError
  end.

(** Lines 69-117.  The arguments of line 69-73 are evaluated before the
    constructor runs, so a missing ["llm_model"] is reported first. *)
Definition chains_of (chat_prompt : option ChatPrompt) (memory : option Memory)
    (prompts : gmap pystr pystr) (models : gmap pystr Model)
    (tools : list Tool) (callbacks : list Handler) : result Chain :=
  llm ← dict_item models (py "llm_model");
  chain ← new_LLMChain chat_prompt llm memory;
  classifier_prompt ← dict_item prompts (py "preprocess_model");
  classifier_llm ← dict_item models (py "preprocess_model");
  let classifier_chain := {| classifier_template := classifier_prompt;
                             classifier_model := classifier_llm |} in
  if dict_mem (py "action_model") models && list_truthy tools then
    action_model ← dict_item models (py "action_model");
    if str_contains (py "chatglm3") (str_lower (model_name action_model)) then
      llm ← dict_item models (py "action_model");
      prompt ← dict_item prompts (py "action_model");
      Ok (input_to_agent
            (initialize_glm3_agent llm tools prompt memory callbacks))
    else if str_contains (py "qwen") (str_lower (model_name action_model)) then
      llm ← dict_item models (py "action_model");
      prompt ← dict_item prompts (py "action_model");
      Ok (input_to_agent
            (initialize_qwen_agent llm tools prompt memory callbacks))
    else
      llm ← dict_item models (py "action_model");
      Ok (input_to_agent (initialize_agent llm tools callbacks memory))
  else
    Ok (input_to_chain chain).

Definition create_models_chains (history : HistoryArg) (history_len : Z)
    (prompts : gmap pystr pystr) (models : gmap pystr Model)
    (tools : list Tool) (callbacks : list Handler) (conversation_id : pystr)
    (metadata : json) (container : Container) : Container * result Chain :=
  let container := {| container_metadata := metadata |} in
  (container,
   '(chat_prompt, memory) ←
     prompt_and_memory history history_len prompts models conversation_id;
   chains_of chat_prompt memory prompts models tools callbacks).

(** The memory object a chain was built with. *)
Definition memory_of (full_chain : Chain) : option Memory :=
  match full_chain with
  | input_to_agent (initialize_glm3_agent _ _ _ memory _) => memory
  | input_to_agent (initialize_qwen_agent _ _ _ memory _) => memory
  | input_to_agent (initialize_agent _ _ _ memory) => memory
  | input_to_chain chain => chain_memory chain
  end.

(** [needle in s], as a proposition. *)
Definition substring_of (needle s : pystr) : Prop :=
  ∃ before after, s = before ++ needle ++ after.

(** *** chat (lines 120-177) *)

(** [data["message_id"] = message_id] on the value [json.loads] gave. *)
Definition json_setitem (data : json) (k : pystr) (v : json) : result json :=
  match data with
  | JObj o => Ok (JObj (<[k := v]> o))
  | _ => Raise TypeError_item_assignment
  end.

(** What a generator did: the strings it yielded, oldest first, and the
    exception that ended it, if one did. *)
Record Outcome : Type := { yielded : list pystr; raised : option exn }.

(** Lines 170-173. *)
Fixpoint forward (message_id : json) (chunks : list pystr) : Outcome :=
  match chunks with
  | [] => {| yielded := []; raised := None |}
  | chunk :: rest =>
      match data ← json_loads chunk;
            json_setitem data (py "message_id") message_id with
      | Ok data =>
          let out := forward message_id rest in
          {| yielded := json_dumps data :: yielded out;
             raised := raised out |}
      | Raise e => {| yielded := []; raised := Some e |}
      end
  end.

(** The text of a streamed body: the yielded strings, one after the
    other. *)
Definition body_text (out : Outcome) : pystr := concat (yielded out).

(** Newline-delimited texts: each one ends with a line feed. *)
Definition newline_delimited (texts : list pystr) : Prop :=
  ∀ t, t ∈ texts → last t = Some 10%N.

(** Line 153. *)
Definition select_tools (tool_config : gmap pystr json) : list Tool :=
  List.filter (fun tool => dict_mem (tool_name tool) tool_config) all_tools.

(** Lines 140-144. *)
Definition record_message (query conversation_id : pystr) (db : DB)
    : json * DB :=
  if str_truthy conversation_id then
    let '(id, db') := add_message_to_db (py "llm_chat") query conversation_id db in
    (JStr id, db')
  else (JNull, db).

(** Lines 146-163. *)
Definition build_full_chain (metadata : json)
    (conversation_id : pystr) (history_len : Z) (history : HistoryArg)
    (stream : bool) (model_config : Configs) (tool_config : gmap pystr json)
    (container : Container) : Container * result Chain :=
  let callback := AgentExecutorAsyncIteratorCallbackHandler in
  let callbacks := [callback] in
  let '(models, prompts) :=
    create_models_from_config (Some model_config) (Some []) stream in
  let tools := select_tools tool_config in
  create_models_chains history history_len prompts models tools callbacks
    conversation_id metadata container.

(** Lines 139-175: the generator, run from a database and a container. *)
Definition chat_iterator (query : pystr) (metadata : json)
    (conversation_id : pystr) (history_len : Z) (history : HistoryArg)
    (stream : bool) (model_config : Configs) (tool_config : gmap pystr json)
    (db : DB) (container : Container) : DB * Container * Outcome :=
  let '(message_id, db) := record_message query conversation_id db in
  let '(container, full_chain) :=
    build_full_chain metadata conversation_id history_len history stream
      model_config tool_config container in
  match full_chain with
  | Raise e => (db, container, {| yielded := []; raised := Some e |})
  | Ok full_chain =>
      (db, container, forward message_id (aiter_chunks full_chain query))
  end.

Record StreamingResponse : Type := {
  body : DB → Container → DB * Container * Outcome;
  media_type : pystr;
}.

Definition chat (query : pystr) (metadata : json)
    (conversation_id : pystr) (history_len : Z) (history : HistoryArg)
    (stream : bool) (model_config : Configs) (tool_config : gmap pystr json)
    : StreamingResponse :=
  {| body := chat_iterator query metadata conversation_id history_len history
               stream model_config tool_config;
     media_type := py "text/event-stream" |}.

End Definitions.
End Chat.

(** ** webui_pages/dialogue/dialogue.py *)

Module Dialogue.

(** The part of [streamlit_chatbox.ChatBox] that [parse_command] uses.
    Chat names are the keys of a dict, so they are distinct.
    [del_chat_name] gives the chat box without the chat of that name, and
    [None] where the call raises: at a name that is no chat name.
    Deleting one chat name removes no other. *)
Class ChatBoxApi : Type := {
  ChatBox : Type;
  get_chat_names : ChatBox → list pystr;
  del_chat_name : pystr → ChatBox → option ChatBox;
  reset_history : option pystr → ChatBox → ChatBox;
  chat_names_NoDup : ∀ cb, NoDup (get_chat_names cb);
  del_chat_name_raises : ∀ name cb,
    del_chat_name name cb = None ↔ name ∉ get_chat_names cb;
  del_chat_name_others : ∀ name other cb cb',
    del_chat_name name cb = Some cb' →
    other ≠ name → other ∈ get_chat_names cb →
    other ∈ get_chat_names cb';
}.

(** The exceptions that leave [parse_command]. *)
Inductive Exception : Type :=
| RerunException                     (* [modal.open()] reruns the script *)
| del_chat_name_error (name : pystr). (* [del_chat_name] at no chat name *)

(** How a call of [parse_command] ends. *)
Inductive Ending : Type :=
| Returned (value : bool)
| Raised (e : Exception).

(** The constants of [AgentStatus] the event loop compares with. *)
Record AgentStatus : Type := {
  error : Z;
  agent_action : Z;
  llm_new_token : Z;
  llm_end : Z;
  agent_finish : Z;
}.

(** Calls into Streamlit, the chat box and the API client that the model
    records instead of interpreting. *)
Inductive Action : Type :=
| st_error (body : json)
| time_sleep (seconds : Z)
| modal_open
| api_chat_chat (query : pystr)
  (* update_msg(Markdown(...tool_name, tool_input...), element_index=1) *)
| update_msg_tool_call (tool_name tool_input : json)
  (* update_msg(text, streaming=, element_index=, metadata={"message_id": }) *)
| update_msg_text (text : pystr) (streaming : bool) (element_index : Z)
    (message_id : json)
  (* update_msg(element_index=1, state="complete", expanded=False) *)
| update_msg_complete
  (* update_msg(Markdown(d["text"]), streaming=False, element_index=-1) *)
| update_msg_answer (text : json).

Section Definitions.
Context {cbapi : ChatBoxApi}.

(** What [parse_command] reads and writes: the chat box, two keys of
    [st.session_state], and the calls made so far, oldest first. *)
Record UI : Type := {
  chat_box : ChatBox;
  conversation_ids : gmap pystr pystr;
  cur_conv_name : option pystr;   (* [None]: the key is not set *)
  trace : list Action;
}.

Definition emit (a : Action) (ui : UI) : UI :=
  {| chat_box := chat_box ui; conversation_ids := conversation_ids ui;
     cur_conv_name := cur_conv_name ui; trace := trace ui ++ [a] |}.

(** *** The regular expression of line 65 *)

(** [\s] on [str], which is also what [str.strip()] removes. *)
Definition is_space (c : N) : bool :=
  (((9 <=? c) && (c <=? 13)) || ((28 <=? c) && (c <=? 32)) ||
   (c =? 133) || (c =? 160) || (c =? 5760) ||
   ((8192 <=? c) && (c <=? 8202)) || (c =? 8232) || (c =? 8233) ||
   (c =? 8239) || (c =? 8287) || (c =? 12288))%N.

(** The longest prefix whose characters satisfy [p], and the rest. *)
Fixpoint span (p : N → bool) (s : pystr) : pystr * pystr :=
  match s with
  | [] => ([], [])
  | c :: s' =>
      if p c then let '(taken, rest) := span p s' in (c :: taken, rest)
      else ([], s)
  end.

Definition lstrip (s : pystr) : pystr := snd (span is_space s).
Definition rstrip (s : pystr) : pystr := reverse (lstrip (reverse s)).
Definition strip (s : pystr) : pystr := rstrip (lstrip s).

(** [re.match] of line 65 on [text]: a slash, one or more characters that
    are not spaces (group 1), any number of spaces, then any number of
    characters that are not a newline (group 2).  Every quantifier is
    greedy and what follows it can match the empty string, so each takes
    its longest run.  The result is the two groups. *)
Definition re_match (text : pystr) : option (pystr * pystr) :=
  match text with
  | 47%N :: rest =>
      let '(cmd, rest) := span (fun c => negb (is_space c)) rest in
      match cmd with
      | [] => None
      | _ :: _ =>
          let rest := lstrip rest in
          let '(name, _) := span (fun c => negb (c =? 10)%N) rest in
          Some (cmd, name)
      end
  | _ => None
  end.

(** *** parse_command (lines 55-100) *)

(** [f"会话{i}"] *)
Definition default_name (i : N) : pystr :=
  [20250; 35805]%N ++ py (pretty i).

(** Lines 73-78, [fuel] iterations of the loop at most. *)
Fixpoint first_free_name (fuel : nat) (i : N) (conv_names : list pystr)
    : option pystr :=
  match fuel with
  | O => None
  | S fuel' =>
      let name := default_name i in
      if bool_decide (name ∈ conv_names) then
        first_free_name fuel' (i + 1)%N conv_names
      else Some name
  end.

(** [f"该会话名称 “{name}” 已存在"] *)
Definition msg_name_exists (name : pystr) : pystr :=
  [35813; 20250; 35805; 21517; 31216; 32; 8220]%N ++ name ++
  [8221; 32; 24050; 23384; 22312]%N.

(** ["这是最后一个会话，无法删除"] *)
Definition msg_last_conversation : pystr :=
  [36825; 26159; 26368; 21518; 19968; 20010; 20250; 35805; 65292; 26080;
   27861; 21024; 38500]%N.

(** [f"无效的会话名称：“{name}”"]; [None] prints as [None]. *)
Definition msg_invalid_name (name : option pystr) : pystr :=
  [26080; 25928; 30340; 20250; 35805; 21517; 31216; 65306; 8220]%N ++
  match name with Some s => s | None => py "None" end ++ [8221]%N.

(** Lines 71-84. *)
Definition cmd_new (name : pystr) (conv_names : list pystr)
    (uuid4_hex : pystr) (ui : UI) : option UI :=
  name ←
    (if str_truthy name then Some name
     else first_free_name (S (length conv_names)) 1%N conv_names);
  if dict_mem name (conversation_ids ui) then
    Some (emit (time_sleep 1) (emit (st_error (JStr (msg_name_exists name))) ui))
  else
    Some {| chat_box := chat_box ui;
            conversation_ids := <[name := uuid4_hex]> (conversation_ids ui);
            cur_conv_name := Some name;
            trace := trace ui |}.

(** Line 86: [name or st.session_state.get("cur_conv_name")]. *)
Definition del_target (name : pystr) (ui : UI) : option pystr :=
  if str_truthy name then Some name else cur_conv_name ui.

(** Line 90: [not name or name not in st.session_state["conversation_ids"]]. *)
Definition invalid_target (name : option pystr) (ui : UI) : bool :=
  match name with
  | Some n => negb (str_truthy n) || negb (dict_mem n (conversation_ids ui))
  | None => true
  end.

(** Lines 85-96: the exception that leaves the branch, if one does, and
    the state then.  Line 94 pops the key before line 95 calls
    [del_chat_name]; where that call raises, line 96 is not reached. *)
Definition cmd_del (name : pystr) (conv_names : list pystr) (ui : UI)
    : option Exception * UI :=
  let name := del_target name ui in
  if bool_decide (length conv_names = 1%nat) then
    (None, emit (time_sleep 1) (emit (st_error (JStr msg_last_conversation)) ui))
  else
    if invalid_target name ui then
      (None,
       emit (time_sleep 1) (emit (st_error (JStr (msg_invalid_name name))) ui))
    else
      match name with
      | Some n =>
          match del_chat_name n (chat_box ui) with
          | Some cb =>
              (None,
               {| chat_box := cb;
                  conversation_ids := delete n (conversation_ids ui);
                  cur_conv_name := Some [];
                  trace := trace ui |})
          | None =>
              (Some (del_chat_name_error n),
               {| chat_box := chat_box ui;
                  conversation_ids := delete n (conversation_ids ui);
                  cur_conv_name := cur_conv_name ui;
                  trace := trace ui |})
          end
      | None => (None, ui)   (* excluded by [invalid_target] *)
      end.

(** Lines 97-98. *)
Definition cmd_clear (name : pystr) (ui : UI) : UI :=
  {| chat_box :=
       reset_history (if str_truthy name then Some name else None)
         (chat_box ui);
     conversation_ids := conversation_ids ui;
     cur_conv_name := cur_conv_name ui;
     trace := trace ui |}.

(** Lines 65-100: how a call of [parse_command] ends, and the state then.
    [uuid4_hex] is what [uuid.uuid4().hex] returns if line 83 is reached.
    [modal.open()] opens the modal and reruns the script: the exception
    that does so leaves [parse_command], and line 99 is not reached.  The
    result is [None] only if the loop of lines 74-78 runs out of fuel. *)
Definition parse_command_call (text : pystr) (uuid4_hex : pystr) (ui : UI)
    : option (Ending * UI) :=
  match re_match text with
  | Some (cmd, name) =>
      let name := strip name in
      let conv_names := get_chat_names (chat_box ui) in
      if bool_decide (cmd = py "help") then
        Some (Raised RerunException, emit modal_open ui)
      else if bool_decide (cmd = py "new") then
        ui' ← cmd_new name conv_names uuid4_hex ui; Some (Returned true, ui')
      else if bool_decide (cmd = py "del") then
        match cmd_del name conv_names ui with
        | (None, ui') => Some (Returned true, ui')
        | (Some e, ui') => Some (Raised e, ui')
        end
      else if bool_decide (cmd = py "clear") then
        Some (Returned true, cmd_clear name ui)
      else Some (Returned true, ui)
  | None => Some (Returned false, ui)
  end.

(** What [parse_command] returns, and the state then; [None] where the
    call returns nothing because an exception leaves it. *)
Definition parse_command (text : pystr) (uuid4_hex : pystr) (ui : UI)
    : option (bool * UI) :=
  match parse_command_call text uuid4_hex ui with
  | Some (Returned value, ui') => Some (value, ui')
  | _ => None
  end.

End Definitions.

(** *** The event loop of dialogue_page (lines 278-315) *)

Section EventLoop.
Context (status_of : AgentStatus).

(** The local variables of lines 278-280 and 289. *)
Record Locals : Type := {
  text : pystr;
  message_id : json;
  tool_called : bool;
}.

(** [v == n] for a JSON value and a Python int. *)
Definition py_eq_int (v : json) (n : Z) : bool :=
  match v with
  | JInt z => z =? n
  | JBool b => (if b then 1 else 0) =? n
  | JFloat q => Qeq_bool q (inject_Z n)
  | _ => false
  end.

(** What one step did: the locals after it, the calls it made, oldest
    first, and the exception that ended it, if one did. *)
Definition Step : Type := Locals * list Action * option exn.

(** Lines 289-315: the body of the loop for the event [d]. *)
Definition handle_event (d : gmap pystr json) (l : Locals) : Step :=
  let message_id := dict_get d (py "message_id") (JStr []) in
  let element_index := if negb (tool_called l) then 0 else -1 in
  let l := {| text := text l; message_id := message_id;
              tool_called := tool_called l |} in
  match d !! py "status" with
  | None => (l, [], Some (KeyError (py "status")))
  | Some status =>
      if py_eq_int status (error status_of) then
        match d !! py "text" with
        | None => (l, [], Some (KeyError (py "text")))
        | Some t => (l, [st_error t], None)
        end
      else if py_eq_int status (agent_action status_of) then
        match d !! py "tool_name" with
        | None => (l, [], Some (KeyError (py "tool_name")))
        | Some name =>
            match d !! py "tool_input" with
            | None => (l, [], Some (KeyError (py "tool_input")))
            | Some input =>
                ({| text := []; message_id := message_id;
                    tool_called := true |},
                 [update_msg_tool_call name input], None)
            end
        end
      else if py_eq_int status (llm_new_token status_of) then
        match d !! py "text" with
        | None => (l, [], Some (KeyError (py "text")))
        | Some (JStr t) =>
            let text := text l ++ t in
            ({| text := text; message_id := message_id;
                tool_called := tool_called l |},
             [update_msg_text text true element_index message_id], None)
        | Some _ => (l, [], Some TypeError_concatenate)
        end
      else if py_eq_int status (llm_end status_of) then
        (l, [update_msg_text (text l) false element_index message_id], None)
      else if py_eq_int status (agent_finish status_of) then
        match d !! py "text" with
        | None => (l, [update_msg_complete], Some (KeyError (py "text")))
        | Some t => (l, [update_msg_complete; update_msg_answer t], None)
        end
      else (l, [], None)
  end.

(** Lines 282-315: the loop over the events of one response. *)
Fixpoint handle_events (events : list (gmap pystr json)) (l : Locals)
    : Step :=
  match events with
  | [] => (l, [], None)
  | d :: rest =>
      let '(l1, calls1, e) := handle_event d l in
      match e with
      | Some _ => (l1, calls1, e)
      | None =>
          let '(l2, calls2, e2) := handle_events rest l1 in
          (l2, calls1 ++ calls2, e2)
      end
  end.

(** Lines 278-315: [events] is what iterating [api.chat_chat(...)]
    gives. *)
Definition stream_response (query : pystr)
    (events : list (gmap pystr json)) : Step :=
  let l := {| text := []; message_id := JStr []; tool_called := false |} in
  let '(l', calls, e) := handle_events events l in
  (l', api_chat_chat query :: calls, e).

Definition is_api_chat_chat (a : Action) : bool :=
  match a with api_chat_chat _ => true | _ => false end.

End EventLoop.
End Dialogue.

(** ** Further parts of dialogue_page, and auxiliary notions *)

Module ChatAux.
Import Chat.

(** Line 33: [params.get('callbacks', False)] as a truth value. *)
Definition wants_callbacks (params : Params) : bool :=
  truthy (dict_get params (py "callbacks") (JBool false)).

(** The keyword arguments lines 34-40 build from a model name and its
    params. *)
Definition kwargs_of {Handler} (name : pystr) (params : Params)
    (callbacks : option (list Handler)) (stream : bool)
    : ChatOpenAI_kwargs Handler :=
  {| kw_model_name := name;
     kw_temperature := dict_get params (py "temperature") (JFloat (1 # 2));
     kw_max_tokens := dict_get params (py "max_tokens") (JInt 1000);
     kw_callbacks := callbacks;
     kw_streaming := stream |}.

Definition is_Ok {A} (r : result A) : Prop := ∃ a, r = Ok a.

End ChatAux.

(** ** webui_pages/dialogue/dialogue.py: the rest of the page *)

Module DialoguePage.
Import Chat.

(** *** get_messages_history (lines 26-43) *)

(** An element of a chat-box message, with the three attributes the
    filter reads. *)
Record OutputElement : Type := {
  output_method : pystr;
  in_expander : bool;
  element_content : pystr;
}.

Record ChatMessage : Type := {
  msg_role : pystr;
  msg_elements : list OutputElement;
}.

(** [sep.join(parts)] *)
Fixpoint str_join (sep : pystr) (parts : list pystr) : pystr :=
  match parts with
  | [] => []
  | [part] => part
  | part :: parts' => part ++ sep ++ str_join sep parts'
  end.

(** Line 33: [x._output_method in ["markdown", "text"]]. *)
Definition is_text_output (x : OutputElement) : bool :=
  bool_decide (output_method x ∈ [py "markdown"; py "text"]).

(** Lines 32-41: the inner [filter]; the dict it returns has the shape
    of a [History]. *)
Definition history_filter (content_in_expander : bool) (msg : ChatMessage)
    : History :=
  let content := List.filter is_text_output (msg_elements msg) in
  let content :=
    if negb content_in_expander
    then List.filter (fun x => negb (in_expander x)) content
    else content in
  let content := element_content <$> content in
  {| role := msg_role msg; content := str_join [10; 10]%N content |}.

(** *** The model list and the preselected entries (lines 124-131,
    155-183) *)

(** [api.list_config_models()]: the models under [local] and under
    [online], each with its settings, in iteration order; a missing key
    is an empty mapping. *)
Record ConfigModels : Type := {
  local_models : list (pystr * gmap pystr json);
  online_models : list (pystr * gmap pystr json);
}.

(** Lines 164-167: the body of the first loop. *)
Definition add_local (running : list pystr) (available : list pystr)
    (item : pystr * gmap pystr json) : list pystr :=
  let '(k, v) := item in
  if truthy (dict_get v (py "model_path_exists") JNull)
     && negb (bool_decide (k ∈ running))
  then available ++ [k] else available.

(** Lines 168-170: the body of the second loop. *)
Definition add_online (running : list pystr) (available : list pystr)
    (item : pystr * gmap pystr json) : list pystr :=
  let '(k, v) := item in
  if negb (truthy (dict_get v (py "provider") JNull))
     && negb (bool_decide (k ∈ running))
  then available ++ [k] else available.

(** Lines 161-170. *)
Definition available_models (is_lite : bool) (running : list pystr)
    (config_models : ConfigModels) : list pystr :=
  let available := [] in
  let available :=
    if negb is_lite
    then foldl (add_local running) available (local_models config_models)
    else available in
  foldl (add_online running) available (online_models config_models).

(** Line 171. *)
Definition llm_models (is_lite : bool) (running : list pystr)
    (config_models : ConfigModels) : list pystr :=
  running ++ available_models is_lite running config_models.

(** [l.index(x)]; [None] stands for [ValueError]. *)
Fixpoint list_index (x : pystr) (l : list pystr) : option nat :=
  match l with
  | [] => None
  | y :: l' => if bool_decide (y = x) then Some 0%nat
               else S <$> list_index x l'
  end.

(** Lines 173-176 and 125-128: [l.index(x)] if [x in l], else 0.  The
    call is guarded by the membership test, so it does not raise. *)
Definition index_or_zero (x : pystr) (l : list pystr) : nat :=
  if bool_decide (x ∈ l) then default 0%nat (list_index x l) else 0%nat.

(** Lines 172-176: [cur_llm_model] is the session's value, if set. *)
Definition llm_index (cur_llm_model : option pystr) (default_model : pystr)
    (models : list pystr) : nat :=
  index_or_zero (default default_model cur_llm_model) models.

(** Lines 125-128: [None] is in no list of names. *)
Definition conversation_index (cur_conv_name : option pystr)
    (conv_names : list pystr) : nat :=
  match cur_conv_name with
  | Some name => index_or_zero name conv_names
  | None => 0%nat
  end.

(** Lines 155-158. *)
Definition llm_model_format_func (running : list pystr) (x : pystr) : pystr :=
  if bool_decide (x ∈ running) then x ++ py " (Running)" else x.

(** *** What is sent to the endpoint (lines 185-216) *)

Inductive page_exn : Type :=
| StopIteration              (* [next(iter(d))] on an empty [d] *)
| PageKeyError (k : pystr).

Inductive page_result (A : Type) : Type :=
| Done (a : A)
| Failed (e : page_exn).
Arguments Done {A} a.
Arguments Failed {A} e.

#[global] Instance page_ret : MRet page_result := fun A a => Done a.
#[global] Instance page_bind : MBind page_result := fun A B k r =>
  match r with
  | Done a => k a
  | Failed e => Failed e
  end.

(** [d[k]] on a mapping kept in iteration order. *)
Fixpoint assoc_item {V} (d : list (pystr * V)) (k : pystr) : page_result V :=
  match d with
  | [] => Failed (PageKeyError k)
  | (k', v) :: d' => if bool_decide (k' = k) then Done v else assoc_item d' k
  end.

(** Lines 188-199: what the loop leaves under one role of
    [LLM_MODEL_CONFIG], and whether tools may still be used.  The roles
    are the keys of a dict, so each is visited once and writes its own
    entry only. *)
Definition role_entry (SUPPORT_AGENT_MODELS : list pystr) (key : pystr)
    (models : list (pystr * Params))
    : page_result (list (pystr * Params) * bool) :=
  if bool_decide (key = py "llm_model") then Done ([], true)
  else
    let copy_first :=
      match models with
      | [] => Done ([], true)
      | first :: _ => Done ([first], true)
      end in
    if bool_decide (key = py "action_model") then
      match models with
      | [] => Failed StopIteration
      | (first_key, _) :: _ =>
          if bool_decide (first_key ∈ SUPPORT_AGENT_MODELS) then copy_first
          else Done ([], false)
      end
    else copy_first.

(** Lines 186-199. *)
Fixpoint copy_first_models (SUPPORT_AGENT_MODELS : list pystr)
    (LLM_MODEL_CONFIG : Configs) : page_result (Configs * bool) :=
  match LLM_MODEL_CONFIG with
  | [] => Done ([], true)
  | (key, models) :: rest =>
      '(entry, ok) ← role_entry SUPPORT_AGENT_MODELS key models;
      '(entries, tool_use) ← copy_first_models SUPPORT_AGENT_MODELS rest;
      Done ((key, entry) :: entries, ok && tool_use)
  end.

(** Lines 210-213: one tool; [checked] is what [st.checkbox] returns. *)
Definition add_tool (checked : pystr → bool)
    (selected : page_result (gmap pystr json))
    (item : pystr * gmap pystr json) : page_result (gmap pystr json) :=
  let '(tool, config) := item in
  selected ← selected;
  _ ← match config !! py "use" with
      | Some use => Done use
      | None => Failed (PageKeyError (py "use"))
      end;
  if checked tool then Done (<[tool := JObj config]> selected)
  else Done selected.

(** Lines 202-213. *)
Definition selected_tool_configs (tool_use : bool)
    (TOOL_CONFIG : list (pystr * gmap pystr json)) (checked : pystr → bool)
    : page_result (gmap pystr json) :=
  if tool_use then foldl (add_tool checked) (Done ∅) TOOL_CONFIG
  else Done ∅.

(** Lines 215-216. *)
Definition set_llm_model (llm_model : option pystr)
    (LLM_MODEL_CONFIG : Configs) (model_config : Configs)
    : page_result Configs :=
  match llm_model with
  | None => Done model_config
  | Some name =>
      models ← assoc_item LLM_MODEL_CONFIG (py "llm_model");
      params ← assoc_item models name;
      Done ((fun entry : pystr * list (pystr * Params) =>
               if bool_decide (fst entry = py "llm_model")
               then (fst entry, [(name, params)])
               else entry) <$> model_config)
  end.

(** What [api.chat_chat] is given for [model_config] and [tool_config],
    and whether the warning of line 194 was shown. *)
Record Request : Type := {
  req_model_config : Configs;
  req_tool_config : gmap pystr json;
  req_warned : bool;
}.

(** Lines 186-216. *)
Definition build_request (SUPPORT_AGENT_MODELS : list pystr)
    (LLM_MODEL_CONFIG : Configs)
    (TOOL_CONFIG : list (pystr * gmap pystr json)) (checked : pystr → bool)
    (llm_model : option pystr) : page_result Request :=
  '(model_config, tool_use) ←
    copy_first_models SUPPORT_AGENT_MODELS LLM_MODEL_CONFIG;
  tool_config ← selected_tool_configs tool_use TOOL_CONFIG checked;
  model_config ← set_llm_model llm_model LLM_MODEL_CONFIG model_config;
  Done {| req_model_config := model_config;
          req_tool_config := tool_config;
          req_warned := negb tool_use |}.

(** One entry of the request's [model_config] against the entry of
    [LLM_MODEL_CONFIG] with the same role: no model, or one model of that
    entry. *)
Definition entry_from (e c : pystr * list (pystr * Params)) : Prop :=
  fst e = fst c ∧ (snd e = [] ∨ ∃ item, item ∈ snd c ∧ snd e = [item]).

Definition is_Done {A} (r : page_result A) : Prop := ∃ a, r = Done a.

(** Line 193 never disables the tools: every first action model is a
    supported one. *)
Definition tools_usable (SUPPORT_AGENT_MODELS : list pystr)
    (LLM_MODEL_CONFIG : Configs) : Prop :=
  ∀ first_key params more,
    (py "action_model", (first_key, params) :: more) ∈ LLM_MODEL_CONFIG →
    first_key ∈ SUPPORT_AGENT_MODELS.

End DialoguePage.

(** ** A concrete environment, to run the definitions *)

Module Sample.
Import Chat Dialogue.

(** [str.lower] on ASCII letters. *)
Definition ascii_lower (s : pystr) : pystr :=
  (fun c => if (65 <=? c) && (c <=? 90) then c + 32 else c)%N <$> s.

Definition kwargs (name : pystr) : ChatOpenAI_kwargs unit :=
  {| kw_model_name := name; kw_temperature := JFloat (1 # 2);
     kw_max_tokens := JInt 1000; kw_callbacks := None;
     kw_streaming := true |}.

(** [json.dumps] on the events of this sample: objects with the keys
    [status], [text] and [message_id], in that order, whose values are
    scalars without characters to escape. *)
Definition quoted (s : pystr) : pystr := [34%N] ++ s ++ [34%N].

Definition dumps_scalar (v : json) : pystr :=
  match v with
  | JBool true => py "true"
  | JBool false => py "false"
  | JInt z => py (pretty z)
  | JStr s => quoted s
  | _ => py "null"
  end.

Fixpoint join (sep : pystr) (parts : list pystr) : pystr :=
  match parts with
  | [] => []
  | [part] => part
  | part :: parts' => part ++ sep ++ join sep parts'
  end.

Definition dumps (v : json) : pystr :=
  match v with
  | JObj o =>
      py "{" ++
      join (py ", ")
        (omap (fun k => (fun x => quoted k ++ py ": " ++ dumps_scalar x)
                          <$> o !! k)
           [py "status"; py "text"; py "message_id"]) ++
      py "}"
  | _ => dumps_scalar v
  end.

Definition token_event : json :=
  JObj {[ py "status" := JInt 2; py "text" := JStr (py "Hello") ]}.

Definition end_event : json :=
  JObj {[ py "status" := JInt 3; py "message_id" := JStr (py "stale") ]}.

(** [json.loads] on the two chunks of this sample. *)
Definition loads (t : pystr) : result json :=
  if bool_decide (t = dumps token_event) then Ok token_event
  else if bool_decide (t = dumps end_event) then Ok end_event
  else Raise JSONDecodeError.

Definition chunks : list pystr := [dumps token_event; dumps end_event].

Definition env : ServerEnv := {|
  Handler := unit;
  Model := ChatOpenAI_kwargs unit;
  Tool := pystr;
  MsgTemplate := History * bool;
  DB := list pystr;
  get_ChatOpenAI := fun kw => kw;
  model_name := kw_model_name;
  get_prompt_template := fun model_type _ => py "template of " ++ model_type;
  str_lower := ascii_lower;
  History_from_data := fun h => h;
  to_msg_template := pair;
  all_tools := [py "calculate"; py "arxiv"; py "shell"];
  tool_name := fun tool => tool;
  add_message_to_db := fun _ query _ db =>
    (py "m" ++ py (pretty (length db)), db ++ [query]);
  AgentExecutorAsyncIteratorCallbackHandler := tt;
  aiter_chunks := fun _ _ => chunks;
  json_loads := loads;
  json_dumps := dumps;
|}.

Definition container0 : Container := {| container_metadata := JNull |}.

Definition prompts : gmap pystr pystr :=
  {[ py "llm_model" := py "{{ input }}";
     py "preprocess_model" := py "classify {{ input }}";
     py "action_model" := py "use the tools" ]}.

Definition models : gmap pystr (ChatOpenAI_kwargs unit) :=
  {[ py "llm_model" := kwargs (py "chatglm3-6b");
     py "preprocess_model" := kwargs (py "chatglm3-6b");
     py "action_model" := kwargs (py "Qwen-14B-Chat") ]}.

(** A [model_config] whose second model asks for callbacks after the
    first did not. *)
Definition model_config : Configs :=
  [(py "preprocess_model", [(py "chatglm3-6b", (∅ : Params))]);
   (py "llm_model",
    [(py "chatglm3-6b", ({[ py "callbacks" := JBool true ]} : Params))]);
   (py "action_model",
    [(py "Qwen-14B-Chat", ({[ py "callbacks" := JBool true ]} : Params))])].

(** What the generator does for the query [hi] in the conversation [c1],
    with no history asked for and an empty database. *)
Definition outcome : Outcome :=
  snd (body (@chat env (py "hi") JNull (py "c1") (-1) (HList []) true
               model_config ∅)
         ([] : @DB env) container0).

(** A chat box: the current chat name and the messages of each chat. *)
Definition chat_names (cb : pystr * gmap pystr (list pystr)) : list pystr :=
  elements (dom (snd cb) : gset pystr).

Definition remove_chat (name : pystr) (cb : pystr * gmap pystr (list pystr))
    : pystr * gmap pystr (list pystr) :=
  (fst cb, delete name (snd cb)).

Lemma chat_names_NoDup cb : NoDup (chat_names cb).
Proof. unfold chat_names. apply NoDup_elements. Qed.

Definition remove_chat_checked (name : pystr)
    (cb : pystr * gmap pystr (list pystr))
    : option (pystr * gmap pystr (list pystr)) :=
  if dict_mem name (snd cb) then Some (remove_chat name cb) else None.

Lemma remove_chat_raises name cb :
  remove_chat_checked name cb = None ↔ name ∉ chat_names cb.
Proof.
  unfold remove_chat_checked, chat_names, dict_mem.
  rewrite elem_of_elements, elem_of_dom.
  case_bool_decide; split; done.
Qed.

Lemma remove_chat_others name other cb cb' :
  remove_chat_checked name cb = Some cb' →
  other ≠ name → other ∈ chat_names cb →
  other ∈ chat_names cb'.
Proof.
  unfold remove_chat_checked. destruct (dict_mem name (snd cb)); [|done].
  intros [= <-] Hne. unfold chat_names, remove_chat. cbn [snd].
  rewrite !elem_of_elements, dom_delete. set_solver.
Qed.

Definition cbapi : ChatBoxApi := {|
  ChatBox := pystr * gmap pystr (list pystr);
  get_chat_names := chat_names;
  del_chat_name := remove_chat_checked;
  reset_history := fun name cb =>
    (fst cb, alter (fun _ => []) (default (fst cb) name) (snd cb));
  Dialogue.chat_names_NoDup := chat_names_NoDup;
  del_chat_name_raises := remove_chat_raises;
  del_chat_name_others := remove_chat_others;
|}.

Definition two_chats : pystr * gmap pystr (list pystr) :=
  (py "default", {[ py "default" := []; py "b" := [] ]}).

Definition ui : @UI cbapi :=
  {| chat_box := two_chats : @ChatBox cbapi;
     conversation_ids := {[ py "default" := py "id0"; py "b" := py "id1" ]};
     cur_conv_name := Some (py "b");
     trace := [] |}.


Definition agent_status : AgentStatus :=
  {| error := 8; agent_action := 4; llm_new_token := 2; llm_end := 3;
     agent_finish := 5 |}.

Definition error_event : gmap pystr json :=
  {[ py "status" := JInt 8; py "text" := JStr (py "model not found") ]}.

End Sample.

(** ** Concrete configurations of the page *)

Module SamplePage.
Import Chat DialoguePage.

Definition SUPPORT_AGENT_MODELS : list pystr :=
  [py "chatglm3-6b"; py "Qwen-14B-Chat"].

Definition params (temperature : Q) : Params :=
  {[ py "temperature" := JFloat temperature;
     py "prompt_name" := JStr (py "default");
     py "callbacks" := JBool true ]}.

(** An [LLM_MODEL_CONFIG] whose action model supports agents. *)
Definition LLM_MODEL_CONFIG : Configs :=
  [(py "preprocess_model", [(py "chatglm3-6b", params (1 # 20))]);
   (py "llm_model",
    [(py "chatglm3-6b", params (9 # 10));
     (py "Qwen-14B-Chat", params (9 # 10))]);
   (py "action_model",
    [(py "Qwen-14B-Chat", params (1 # 100));
     (py "chatglm3-6b", params (1 # 100))])].

(** One whose action model does not. *)
Definition LLM_MODEL_CONFIG_no_agent : Configs :=
  [(py "preprocess_model", [(py "chatglm3-6b", params (1 # 20))]);
   (py "llm_model", [(py "chatglm3-6b", params (9 # 10))]);
   (py "action_model", [(py "Llama-2-7b", params (1 # 100))])].

Definition TOOL_CONFIG : list (pystr * gmap pystr json) :=
  [(py "calculate", {[ py "use" := JBool false ]});
   (py "arxiv", {[ py "use" := JBool true ]})].

(** The boxes as the user left them: [arxiv] only. *)
Definition checked (tool : pystr) : bool := bool_decide (tool = py "arxiv").

Definition request : Request :=
  {| req_model_config :=
       [(py "preprocess_model", [(py "chatglm3-6b", params (1 # 20))]);
        (py "llm_model", [(py "Qwen-14B-Chat", params (9 # 10))]);
        (py "action_model", [(py "Qwen-14B-Chat", params (1 # 100))])];
     req_tool_config := {[ py "arxiv" := JObj {[ py "use" := JBool true ]} ]};
     req_warned := false |}.

Definition request_no_agent : Request :=
  {| req_model_config :=
       [(py "preprocess_model", [(py "chatglm3-6b", params (1 # 20))]);
        (py "llm_model", [(py "chatglm3-6b", params (9 # 10))]);
        (py "action_model", [])];
     req_tool_config := ∅;
     req_warned := true |}.

(** A token event and an event without a status. *)
Definition token (t : pystr) : gmap pystr json :=
  {[ py "status" := JInt 2; py "text" := JStr t;
     py "message_id" := JStr (py "m0") ]}.

Definition no_status : gmap pystr json := {[ py "text" := JStr (py "?") ]}.

Definition locals0 : Dialogue.Locals :=
  {| Dialogue.text := []; Dialogue.message_id := JStr [];
     Dialogue.tool_called := false |}.

End SamplePage.

(** * Properties of the chat endpoint *)

Section ChatFacts.
Import Chat.
Context {env : ServerEnv}.

Lemma dict_item_Some {V} (d : gmap pystr V) k v :
  d !! k = Some v → dict_item d k = Ok v.
Proof. unfold dict_item. by intros ->. Qed.

Lemma dict_item_None {V} (d : gmap pystr V) k :
  d !! k = None → dict_item d k = Raise (KeyError k).
Proof. unfold dict_item. by intros ->. Qed.

Lemma dict_mem_true {V} (d : gmap pystr V) k :
  dict_mem k d = true ↔ is_Some (d !! k).
Proof. unfold dict_mem. by rewrite bool_decide_eq_true. Qed.

Lemma dict_mem_false {V} (d : gmap pystr V) k :
  dict_mem k d = false ↔ d !! k = None.
Proof.
  unfold dict_mem. rewrite bool_decide_eq_false.
  by rewrite eq_None_not_Some.
Qed.

Lemma str_truthy_true s : str_truthy s = true ↔ s ≠ [].
Proof.
  unfold str_truthy. rewrite negb_true_iff, bool_decide_eq_false. done.
Qed.

Lemma list_truthy_true {A} (l : list A) : list_truthy l = true ↔ l ≠ [].
Proof. destruct l; simpl; split; done. Qed.

(** [starts_with] and [str_contains] decide prefix and substring. *)
Lemma starts_with_spec needle s :
  starts_with needle s = true ↔ ∃ after, s = needle ++ after.
Proof.
  revert s. induction needle as [|a needle IH]; intros s; simpl.
  - split; [intros _; by exists s | done].
  - destruct s as [|b s].
    + split; [done | by intros [after ?]].
    + rewrite andb_true_iff, bool_decide_eq_true, IH. split.
      * intros [-> [after ->]]. by exists after.
      * intros [after [= -> ->]]. split; [done | by exists after].
Qed.

Lemma str_contains_spec needle s :
  str_contains needle s = true ↔ substring_of needle s.
Proof.
  unfold substring_of. induction s as [|b s IH].
  - simpl. rewrite orb_false_r, starts_with_spec. split.
    + intros [after ->]. by exists [], after.
    + intros [before [after Heq]]. symmetry in Heq.
      apply app_eq_nil in Heq as [-> Heq]. apply app_eq_nil in Heq as [-> ->].
      by exists [].
  - cbn [str_contains]. rewrite orb_true_iff, IH, starts_with_spec. split.
    + intros [[after ->] | [before [after ->]]].
      * by exists [], after.
      * by exists (b :: before), after.
    + intros [[|c before] [after Heq]].
      * left. by exists after.
      * right. injection Heq as -> ->. by exists before, after.
Qed.

Lemma str_contains_false needle s :
  str_contains needle s = false ↔ ¬ substring_of needle s.
Proof. rewrite <- str_contains_spec. by destruct (str_contains needle s). Qed.

(** C1.  For the calls that reach line 80, which are those where lines
    50-67 built a chat prompt, so that the chain of line 69 is built, and
    where the entries of lines 71-76 are present in [models] and
    [prompts]: when [models] has an [action_model] and [tools] is not
    empty, the result is the GLM3 agent if the lower-cased model name
    contains [chatglm3], else the Qwen agent if it contains [qwen], else
    the structured-chat zero-shot agent; when [action_model] is absent or
    [tools] is empty, it is the plain LLM chain. *)
Theorem agent_selected_by_model_name
    history history_len prompts models tools callbacks conversation_id
    metadata container chat_prompt memory llm classifier_prompt
    classifier_llm :
  prompt_and_memory history history_len prompts models conversation_id
    = Ok (Some chat_prompt, memory) →
  models !! py "llm_model" = Some llm →
  prompts !! py "preprocess_model" = Some classifier_prompt →
  models !! py "preprocess_model" = Some classifier_llm →
  let built :=
    snd (create_models_chains history history_len prompts models tools
           callbacks conversation_id metadata container) in
  (∀ action_model prompt,
     models !! py "action_model" = Some action_model → tools ≠ [] →
     prompts !! py "action_model" = Some prompt →
     substring_of (py "chatglm3") (str_lower (model_name action_model)) →
     built = Ok (input_to_agent
               (initialize_glm3_agent action_model tools prompt memory
                  callbacks))) ∧
  (∀ action_model prompt,
     models !! py "action_model" = Some action_model → tools ≠ [] →
     prompts !! py "action_model" = Some prompt →
     ¬ substring_of (py "chatglm3") (str_lower (model_name action_model)) →
     substring_of (py "qwen") (str_lower (model_name action_model)) →
     built = Ok (input_to_agent
               (initialize_qwen_agent action_model tools prompt memory
                  callbacks))) ∧
  (∀ action_model,
     models !! py "action_model" = Some action_model → tools ≠ [] →
     ¬ substring_of (py "chatglm3") (str_lower (model_name action_model)) →
     ¬ substring_of (py "qwen") (str_lower (model_name action_model)) →
     built = Ok (input_to_agent
               (initialize_agent action_model tools callbacks memory))) ∧
  (models !! py "action_model" = None ∨ tools = [] →
     built = Ok (input_to_chain
               {| chain_prompt := Some chat_prompt; chain_llm := llm;
                  chain_memory := memory |})).
Proof.
  intros Hpm Hllm Hcp Hcl built. subst built.
  unfold create_models_chains. cbn [snd]. rewrite Hpm. cbn [mbind result_bind].
  unfold chains_of.
  rewrite (dict_item_Some _ _ _ Hllm). cbn [mbind result_bind new_LLMChain].
  rewrite (dict_item_Some _ _ _ Hcp), (dict_item_Some _ _ _ Hcl).
  cbn [mbind result_bind].
  repeat split.
  - intros am p Ham Htools Hp Hglm.
    assert (dict_mem (py "action_model") models = true) as ->
      by (apply dict_mem_true; eauto).
    apply list_truthy_true in Htools as ->. cbn [andb].
    rewrite (dict_item_Some _ _ _ Ham). cbn [mbind result_bind].
    apply str_contains_spec in Hglm as ->.
    by rewrite (dict_item_Some _ _ _ Hp).
  - intros am p Ham Htools Hp Hglm Hqwen.
    assert (dict_mem (py "action_model") models = true) as ->
      by (apply dict_mem_true; eauto).
    apply list_truthy_true in Htools as ->. cbn [andb].
    rewrite (dict_item_Some _ _ _ Ham). cbn [mbind result_bind].
    apply str_contains_false in Hglm as ->.
    apply str_contains_spec in Hqwen as ->.
    by rewrite (dict_item_Some _ _ _ Hp).
  - intros am Ham Htools Hglm Hqwen.
    assert (dict_mem (py "action_model") models = true) as ->
      by (apply dict_mem_true; eauto).
    apply list_truthy_true in Htools as ->. cbn [andb].
    rewrite (dict_item_Some _ _ _ Ham). cbn [mbind result_bind].
    apply str_contains_false in Hglm as ->.
    by apply str_contains_false in Hqwen as ->.
  - intros [Hnone | ->].
    + apply dict_mem_false in Hnone as ->. done.
    + by rewrite andb_false_r.
Qed.

Lemma str_truthy_false s : str_truthy s = false ↔ s = [].
Proof.
  unfold str_truthy. rewrite negb_false_iff, bool_decide_eq_true. done.
Qed.

(** Line 59: the condition of the memory branch. *)
Lemma memory_condition conversation_id history_len :
  str_truthy conversation_id && (0 <? history_len) = true
  ↔ conversation_id ≠ [] ∧ 0 < history_len.
Proof. rewrite andb_true_iff, str_truthy_true, Z.ltb_lt. done. Qed.

(** What [create_models_chains] returns was built from the prompt and the
    memory of lines 50-67. *)
Lemma create_models_chains_Ok
    history history_len prompts models tools callbacks conversation_id
    metadata container full_chain :
  snd (create_models_chains history history_len prompts models tools
         callbacks conversation_id metadata container) = Ok full_chain →
  ∃ chat_prompt memory,
    prompt_and_memory history history_len prompts models conversation_id
      = Ok (chat_prompt, memory) ∧
    memory_of full_chain = memory ∧
    ∀ chain, full_chain = input_to_chain chain →
      chain_prompt chain = chat_prompt ∧ chain_memory chain = memory.
Proof.
  unfold create_models_chains. cbn [snd].
  destruct (prompt_and_memory _ _ _ _ _) as [[chat_prompt memory]|e];
    [|done].
  cbn [mbind result_bind]. intros H. exists chat_prompt, memory.
  split; [done|]. revert H. unfold chains_of, new_LLMChain.
  destruct chat_prompt as [chat_prompt|];
    [|by destruct (dict_item models (py "llm_model"))].
  repeat (match goal with
          | |- context [dict_item ?d ?k] => destruct (dict_item d k); [|done]
          | |- context [if ?b then _ else _] => destruct b
          end; cbn [mbind result_bind]);
    intros [= <-]; (split; [done|]); by intros chain [= <-].
Qed.

(** C2.  For a list [hs] as [history]: if [hs] is not empty, the prompt
    is the templates of its messages followed by the input message and
    there is no memory, whatever [conversation_id] and [history_len] are;
    a [ConversationBufferDBMemory] of limit [history_len] is built exactly
    when [hs] is empty, [conversation_id] is not empty and
    [history_len > 0]; in the remaining cases the prompt is the input
    message alone and there is no memory.  Whatever chain is returned
    holds that memory, and the integer 0 as [history] is treated as the
    empty list. *)
Theorem history_takes_precedence_over_memory
    (hs : list History) history_len prompts models conversation_id
    template llm :
  prompts !! py "llm_model" = Some template →
  models !! py "llm_model" = Some llm →
  let built :=
    prompt_and_memory (HList hs) history_len prompts models
      conversation_id in
  (hs ≠ [] →
     built = Ok (Some (((fun h => to_msg_template (History_from_data h) true)
                          <$> hs) ++ [input_msg_of template]),
                 None)) ∧
  ((∃ chat_prompt memory, built = Ok (chat_prompt, Some memory))
     ↔ hs = [] ∧ conversation_id ≠ [] ∧ 0 < history_len) ∧
  (hs = [] → conversation_id ≠ [] → 0 < history_len →
     built = Ok (None,
                 Some {| mem_conversation_id := conversation_id;
                         mem_llm := llm;
                         mem_message_limit := history_len |})) ∧
  (hs = [] → ¬ (conversation_id ≠ [] ∧ 0 < history_len) →
     built = Ok (Some [input_msg_of template], None)) ∧
  (∀ tools callbacks metadata container full_chain,
     snd (create_models_chains (HList hs) history_len prompts models tools
            callbacks conversation_id metadata container) = Ok full_chain →
     ∃ chat_prompt memory,
       built = Ok (chat_prompt, memory) ∧ memory_of full_chain = memory) ∧
  prompt_and_memory (HInt 0) history_len prompts models conversation_id
    = prompt_and_memory (HList []) history_len prompts models
        conversation_id.
Proof.
  intros Hprompt Hllm built.
  assert (Hhist : hs ≠ [] →
     built = Ok (Some (((fun h => to_msg_template (History_from_data h) true)
                          <$> hs) ++ [input_msg_of template]),
                 None)).
  { intros Hne. subst built. unfold prompt_and_memory.
    cbn [history_truthy history_iter].
    apply list_truthy_true in Hne as ->. cbn [mbind result_bind].
    rewrite (dict_item_Some _ _ _ Hprompt). cbn [mbind result_bind].
    by rewrite <- list_fmap_compose. }
  assert (Hmem : hs = [] → conversation_id ≠ [] → 0 < history_len →
     built = Ok (None,
                 Some {| mem_conversation_id := conversation_id;
                         mem_llm := llm;
                         mem_message_limit := history_len |})).
  { intros -> Hc Hl. subst built. unfold prompt_and_memory.
    cbn [history_truthy list_truthy].
    assert (str_truthy conversation_id && (0 <? history_len) = true) as ->
      by by apply memory_condition.
    by rewrite (dict_item_Some _ _ _ Hllm). }
  assert (Hrest : hs = [] → ¬ (conversation_id ≠ [] ∧ 0 < history_len) →
     built = Ok (Some [input_msg_of template], None)).
  { intros -> Hn. subst built. unfold prompt_and_memory.
    cbn [history_truthy list_truthy].
    destruct (str_truthy conversation_id && (0 <? history_len)) eqn:Hc.
    - by apply memory_condition in Hc.
    - by rewrite (dict_item_Some _ _ _ Hprompt). }
  split_and!; [done| |done|done| |done].
  - split.
    + intros (chat_prompt & memory & Hb).
      destruct (decide (hs = [])) as [Hnil|Hne].
      * split; [done|].
        destruct (decide (conversation_id ≠ [] ∧ 0 < history_len)) as [|Hn];
          [done|].
        rewrite (Hrest Hnil Hn) in Hb. done.
      * rewrite (Hhist Hne) in Hb. done.
    + intros (Hnil & Hc & Hl). rewrite (Hmem Hnil Hc Hl). eauto.
  - intros tools callbacks metadata container full_chain Hok.
    apply create_models_chains_Ok in Hok
      as (chat_prompt & memory & Hpm & Hmemory & _).
    by exists chat_prompt, memory.
Qed.

(** C4.  An integer other than zero as [history] makes line 55 iterate
    over an [int]: chain construction raises [TypeError], and the response
    generator ends with it before it yields anything. *)
Theorem integer_history_raises_TypeError
    (n : positive) history_len prompts models tools callbacks
    conversation_id metadata container query stream model_config
    tool_config db :
  snd (create_models_chains (HInt (Z.pos n)) history_len prompts models
         tools callbacks conversation_id metadata container)
    = Raise TypeError_not_iterable ∧
  snd (body (chat query metadata conversation_id history_len
               (HInt (Z.pos n)) stream model_config tool_config)
         db container)
    = {| yielded := []; raised := Some TypeError_not_iterable |}.
Proof.
  split; [done|].
  cbn [body chat]. unfold chat_iterator, build_full_chain.
  destruct (record_message _ _ _) as [message_id db'].
  destruct (create_models_from_config _ _ _) as [models' prompts'].
  done.
Qed.

(** C7.  The tools given to chain construction are the registry entries
    whose name is a key of [tool_config], in registry order. *)
Theorem tools_are_the_configured_registry_entries
    (tool_config : gmap pystr json) :
  select_tools tool_config
    = filter (fun tool => is_Some (tool_config !! tool_name tool)) all_tools ∧
  (∀ tool, tool ∈ select_tools tool_config
           ↔ tool ∈ all_tools ∧ is_Some (tool_config !! tool_name tool)) ∧
  sublist (select_tools tool_config) all_tools ∧
  (∀ metadata conversation_id history_len history stream model_config
     container,
     build_full_chain metadata conversation_id history_len history stream
       model_config tool_config container
     = create_models_chains history history_len
         (snd (create_models_from_config (Some model_config) (Some []) stream))
         (fst (create_models_from_config (Some model_config) (Some []) stream))
         (select_tools tool_config)
         [AgentExecutorAsyncIteratorCallbackHandler]
         conversation_id metadata container).
Proof.
  assert (Heq : select_tools tool_config
    = filter (fun tool => is_Some (tool_config !! tool_name tool)) all_tools).
  { unfold select_tools. induction all_tools as [|t ts IH]; [done|].
    cbn [List.filter]. rewrite filter_cons, IH. unfold dict_mem.
    destruct (decide (is_Some (tool_config !! tool_name t))) as [H|H].
    - by rewrite bool_decide_eq_true_2.
    - by rewrite bool_decide_eq_false_2. }
  split_and!; [done| | |done].
  - intros tool. rewrite Heq, list_elem_of_filter. tauto.
  - rewrite Heq. apply sublist_filter.
Qed.

(** [forward] yields, for each chunk up to the first that is no JSON
    object, the text of that object with [message_id] set. *)
Lemma forward_lookup message_id (chunks : list pystr) i chunk d :
  (∀ j c, (j < i)%nat → chunks !! j = Some c →
          ∃ o, json_loads c = Ok (JObj o)) →
  chunks !! i = Some chunk →
  json_loads chunk = Ok (JObj d) →
  yielded (forward message_id chunks) !! i
    = Some (json_dumps (JObj (<[py "message_id" := message_id]> d))).
Proof.
  revert i. induction chunks as [|c chunks IH]; intros i Hbefore Hi Hd;
    [done|].
  destruct i as [|i].
  - injection Hi as ->. cbn [forward]. by rewrite Hd.
  - destruct (Hbefore 0%nat c) as [o Ho]; [lia|done|].
    cbn [forward]. rewrite Ho. cbn [mbind result_bind json_setitem yielded].
    apply IH; [|done..].
    intros j c' Hj Hc'. apply (Hbefore (S j)); [lia|done].
Qed.

Lemma forward_all_objects message_id (chunks : list pystr) :
  (∀ c, c ∈ chunks → ∃ o, json_loads c = Ok (JObj o)) →
  raised (forward message_id chunks) = None ∧
  length (yielded (forward message_id chunks)) = length chunks.
Proof.
  induction chunks as [|c chunks IH]; intros Hall; [done|].
  destruct (Hall c) as [o Ho]; [by left|].
  cbn [forward]. rewrite Ho.
  cbn [mbind result_bind json_setitem yielded raised length].
  destruct IH as [-> ->]; [|done].
  intros c' Hc'. apply Hall. by right.
Qed.

(** C3, as amended.  With the chain built, the response has media type
    [text/event-stream], and for each chunk of the handler's iterator
    that is the text of a JSON object the generator yields the
    [json.dumps] text of that object with [message_id] set, and nothing
    more: the id [add_message_to_db] returned if [conversation_id] is not
    empty, [null] otherwise; every other field is as in the chunk. *)
Theorem events_reemitted_with_message_id
    query metadata conversation_id history_len history stream model_config
    tool_config db container full_chain :
  snd (build_full_chain metadata conversation_id history_len history stream
         model_config tool_config container) = Ok full_chain →
  let response :=
    chat query metadata conversation_id history_len history stream
      model_config tool_config in
  let out := snd (body response db container) in
  let chunks := aiter_chunks full_chain query in
  let message_id :=
    if decide (conversation_id = []) then JNull
    else JStr (fst (add_message_to_db (py "llm_chat") query
                      conversation_id db)) in
  media_type response = py "text/event-stream" ∧
  (∀ i chunk d,
     (∀ j c, (j < i)%nat → chunks !! j = Some c →
             ∃ o, json_loads c = Ok (JObj o)) →
     chunks !! i = Some chunk →
     json_loads chunk = Ok (JObj d) →
     ∃ d', yielded out !! i = Some (json_dumps (JObj d')) ∧
           d' = <[py "message_id" := message_id]> d ∧
           d' !! py "message_id" = Some message_id ∧
           ∀ k, k ≠ py "message_id" → d' !! k = d !! k) ∧
  ((∀ c, c ∈ chunks → ∃ o, json_loads c = Ok (JObj o)) →
     raised out = None ∧ length (yielded out) = length chunks).
Proof.
  intros Hbuilt response out chunks message_id.
  assert (Hout : out = forward message_id chunks).
  { subst out response. cbn [body chat]. unfold chat_iterator.
    assert (record_message query conversation_id db
            = (message_id,
               if decide (conversation_id = []) then db
               else snd (add_message_to_db (py "llm_chat") query
                           conversation_id db))) as ->.
    { unfold record_message, message_id, str_truthy.
      destruct (decide (conversation_id = [])) as [->|Hne]; [done|].
      rewrite bool_decide_eq_false_2 by done. cbn [negb].
      by destruct (add_message_to_db _ _ _ _). }
    destruct (build_full_chain _ _ _ _ _ _ _ _) as [container' r].
    cbn [snd] in Hbuilt. by rewrite Hbuilt. }
  split_and!; [done| |].
  - intros i chunk d Hbefore Hi Hd. eexists. split_and!; [|done| |].
    + rewrite Hout. by eapply forward_lookup.
    + apply lookup_insert_eq.
    + intros k Hk. by apply lookup_insert_ne.
  - intros Hall. rewrite Hout. by apply forward_all_objects.
Qed.

(** The nested loops visit [visit_order configs] from left to right. *)
Lemma run_loops_visit_order configs callbacks stream :
  run_loops (Some configs) callbacks stream
  = foldl (visit_body stream)
      {| ls_callbacks := callbacks; ls_models := ∅; ls_prompts := ∅;
         ls_calls := [] |}
      (visit_order configs).
Proof.
  unfold run_loops. generalize
    {| ls_callbacks := callbacks; ls_models := ∅; ls_prompts := ∅;
       ls_calls := [] |}.
  induction configs as [|[model_type items] configs IH]; intros st; [done|].
  cbn [foldl]. rewrite IH. unfold visit_order. rewrite bind_cons, foldl_app.
  f_equal. unfold outer_body. cbn [fst snd]. clear IH.
  revert st. induction items as [|item items IH]; intros st; [done|].
  cbn [foldl fmap list_fmap]. by rewrite IH.
Qed.

(** The calls a run of the loop adds to the log: one per visited entry,
    and all with [callbacks=None] once the variable is [None]. *)
Lemma visit_calls stream visited st :
  ∃ new,
    ls_calls (foldl (visit_body stream) st visited) = ls_calls st ++ new ∧
    kw_model_name <$> new = (fun e => fst (snd e)) <$> visited ∧
    (ls_callbacks st = None →
       Forall (fun kw => kw_callbacks kw = None) new ∧
       ls_callbacks (foldl (visit_body stream) st visited) = None).
Proof.
  revert st. induction visited as [|[model_type [name params]] visited IH];
    intros st.
  - exists []. by rewrite app_nil_r.
  - cbn [foldl].
    destruct (IH (visit_body stream st (model_type, (name, params))))
      as (new & Hcalls & Hnames & Hnone).
    eexists (_ :: new). split_and!.
    + rewrite Hcalls. unfold visit_body, loop_body. cbn.
      by rewrite <- app_assoc.
    + cbn. by rewrite Hnames.
    + intros Hst. destruct Hnone as [Hall Hlast].
      { cbn. rewrite Hst. by destruct (truthy _). }
      split; [|done]. constructor; [|done].
      cbn. rewrite Hst. by destruct (truthy _).
Qed.

(** C9.  The loop makes one [get_ChatOpenAI] call per (role, name,
    params) triple, in visiting order; once a triple whose params have no
    truthy [callbacks] entry was visited, that call and every later one
    pass [callbacks=None], whatever the later params say. *)
Theorem callbacks_stay_None_after_first_falsy
    (configs : Configs) callbacks stream visited_before entry visited_after :
  visit_order configs = visited_before ++ entry :: visited_after →
  truthy (dict_get (snd (snd entry)) (py "callbacks") (JBool false)) = false →
  let calls := ls_calls (run_loops (Some configs) callbacks stream) in
  kw_model_name <$> calls
    = (fun e => fst (snd e)) <$> visit_order configs ∧
  ∀ i kw, (length visited_before ≤ i)%nat → calls !! i = Some kw →
          kw_callbacks kw = None.
Proof.
  intros Horder Hfalsy calls. subst calls.
  rewrite run_loops_visit_order.
  set (st0 := {| ls_callbacks := callbacks; ls_models := ∅;
                 ls_prompts := ∅; ls_calls := [] |}).
  split.
  { destruct (visit_calls stream (visit_order configs) st0)
      as (new & -> & Hnames & _). done. }
  rewrite Horder, foldl_app. cbn [foldl].
  destruct (visit_calls stream visited_before st0)
    as (new1 & Hcalls1 & Hnames1 & _).
  set (st1 := foldl (visit_body stream) st0 visited_before) in *.
  destruct entry as [model_type [name params]]. cbn [snd] in Hfalsy.
  set (st2 := visit_body stream st1 (model_type, (name, params))).
  assert (Hcb2 : ls_callbacks st2 = None).
  { subst st2. unfold visit_body, loop_body. cbn [fst snd ls_callbacks].
    by rewrite Hfalsy. }
  destruct (visit_calls stream visited_after st2)
    as (new3 & Hcalls3 & _ & Hnone).
  destruct (Hnone Hcb2) as [Hall3 _].
  intros i kw Hi Hkw. rewrite Hcalls3 in Hkw.
  assert (Hlen1 : length new1 = length visited_before).
  { by rewrite <- (length_fmap kw_model_name), Hnames1, length_fmap. }
  assert (Hcalls2 : ∃ kw2, ls_calls st2 = new1 ++ [kw2] ∧
                            kw_callbacks kw2 = None) .
  { subst st2. unfold visit_body, loop_body. cbn [fst snd ls_calls].
    rewrite Hcalls1, Hfalsy. eexists. split; [done|]. done. }
  destruct Hcalls2 as (kw2 & Hcalls2 & Hkw2).
  rewrite Hcalls2, <- app_assoc in Hkw.
  rewrite lookup_app_r in Hkw by lia.
  destruct (i - length new1)%nat as [|k] eqn:Hk.
  - cbn in Hkw. by injection Hkw as <-.
  - cbn in Hkw. rewrite Forall_lookup in Hall3. by eapply Hall3.
Qed.

End ChatFacts.

(** * Properties of the dialogue page *)

Section DialogueFacts.
Import Dialogue.
Context {cbapi : ChatBoxApi}.

(** ** The loop of lines 74-78 ends *)

Lemma py_inj : Inj (=) (=) py.
Proof.
  intros s1. induction s1 as [|a s1 IH]; intros [|b s2] Heq; try done.
  injection Heq as Hab Hs. f_equal; [|by apply IH].
  by rewrite <- (ascii_N_embedding a), <- (ascii_N_embedding b), Hab.
Qed.

Lemma default_name_inj : Inj (=) (=) default_name.
Proof.
  intros i j Heq. unfold default_name in Heq.
  apply (inj (app _)) in Heq. apply py_inj in Heq. by apply (inj pretty).
Qed.

Lemma first_free_name_None fuel i conv_names :
  first_free_name fuel i conv_names = None →
  ∀ k, (k < fuel)%nat → default_name (i + N.of_nat k) ∈ conv_names.
Proof.
  revert i. induction fuel as [|fuel IH]; intros i Hnone k Hk; [lia|].
  cbn [first_free_name] in Hnone.
  destruct (bool_decide (default_name i ∈ conv_names)) eqn:Hin; [|done].
  apply bool_decide_eq_true in Hin. destruct k as [|k].
  - by rewrite N.add_0_r.
  - replace (i + N.of_nat (S k))%N with ((i + 1) + N.of_nat k)%N by lia.
    apply IH; [done|lia].
Qed.

Lemma first_free_name_is_Some fuel i conv_names :
  (length conv_names < fuel)%nat →
  is_Some (first_free_name fuel i conv_names).
Proof.
  intros Hlen. destruct (first_free_name fuel i conv_names) eqn:Hnone; [eauto|].
  exfalso.
  pose (candidates := (fun k => default_name (i + N.of_nat k)) <$> seq 0 fuel).
  assert (Hsub : candidates ⊆+ conv_names).
  { apply NoDup_submseteq.
    - apply NoDup_fmap_2; [|apply NoDup_seq].
      intros k1 k2 Heq. apply default_name_inj in Heq. lia.
    - intros x [k [-> Hk]]%list_elem_of_fmap.
      apply elem_of_seq in Hk.
      apply (first_free_name_None fuel); [done|lia]. }
  apply submseteq_length in Hsub.
  unfold candidates in Hsub. rewrite length_fmap, length_seq in Hsub. lia.
Qed.

(** A call of [parse_command] ends on every input: it returns, or an
    exception leaves it. *)
Lemma parse_command_call_ends text uuid4_hex ui :
  is_Some (parse_command_call text uuid4_hex ui).
Proof.
  unfold parse_command_call.
  destruct (re_match text) as [[cmd name]|]; [|eauto].
  repeat case_bool_decide; eauto.
  - unfold cmd_new.
    destruct (str_truthy (strip name)).
    + cbn. destruct (dict_mem (strip name) (conversation_ids ui)); eauto.
    + destruct (first_free_name_is_Some
                  (S (length (get_chat_names (chat_box ui)))) 1%N
                  (get_chat_names (chat_box ui))) as [free ->]; [lia|].
      cbn. destruct (dict_mem free (conversation_ids ui)); eauto.
  - destruct (cmd_del _ _ _) as [[e|] ui']; eauto.
Qed.

(** [parse_command] returns what the call returns. *)
Lemma parse_command_Returned text uuid4_hex ui value ui' :
  parse_command_call text uuid4_hex ui = Some (Returned value, ui')
  ↔ parse_command text uuid4_hex ui = Some (value, ui').
Proof.
  unfold parse_command.
  destruct (parse_command_call text uuid4_hex ui) as [[[b|e] ui1]|];
    split; (done || by intros [= -> ->]).
Qed.

(** ** Commands without a branch *)

Lemma parse_command_no_branch text cmd name uuid4_hex ui :
  re_match text = Some (cmd, name) →
  cmd ≠ py "help" → cmd ≠ py "new" → cmd ≠ py "del" → cmd ≠ py "clear" →
  parse_command text uuid4_hex ui = Some (true, ui).
Proof.
  intros Hm ? ? ? ?. unfold parse_command, parse_command_call. rewrite Hm.
  by rewrite !bool_decide_eq_false_2.
Qed.

Lemma span_app (p : N → bool) taken rest :
  forallb p taken = true →
  match rest with [] => True | c :: _ => p c = false end →
  span p (taken ++ rest) = (taken, rest).
Proof.
  intros Htaken Hrest. induction taken as [|c taken IH].
  - destruct rest as [|c rest]; [done|]. cbn [app span]. by rewrite Hrest.
  - cbn [forallb] in Htaken. apply andb_true_iff in Htaken as [Hc Htaken].
    cbn [app span]. by rewrite Hc, IH.
Qed.

(** A slash, a command without spaces, a space and anything match with
    that command as group 1. *)
Lemma re_match_command_space cmd rest :
  cmd ≠ [] → forallb (fun c => negb (is_space c)) cmd = true →
  ∃ name, re_match (47%N :: cmd ++ 32%N :: rest) = Some (cmd, name).
Proof.
  intros Hne Hcmd. cbn [re_match].
  rewrite span_app by done.
  destruct cmd as [|c cmd]; [done|].
  destruct (span _ (lstrip (32%N :: rest))) as [name ?]. by exists name.
Qed.

Lemma re_match_stop_name rest :
  ∃ name, re_match (py "/stop " ++ rest) = Some (py "stop", name).
Proof.
  change (py "/stop " ++ rest) with (47%N :: py "stop" ++ 32%N :: rest).
  by apply re_match_command_space.
Qed.

(** C5.  [/stop] and [/stop] followed by a name match the command pattern
    with command [stop], for which [parse_command] has no branch: it
    returns [True] and leaves the chat box, the session state and the
    calls made as they were. *)
Theorem stop_command_changes_nothing rest uuid4_hex ui :
  re_match (py "/stop") = Some (py "stop", []) ∧
  parse_command (py "/stop") uuid4_hex ui = Some (true, ui) ∧
  parse_command (py "/stop " ++ rest) uuid4_hex ui = Some (true, ui).
Proof.
  split_and!; [done| |].
  - by apply (parse_command_no_branch _ (py "stop") []).
  - destruct (re_match_stop_name rest) as [name Hm].
    by apply (parse_command_no_branch _ (py "stop") name).
Qed.

(** ** /del *)





(** ** Error events *)

Lemma handle_event_not_api status_of d l :
  Forall (fun a => is_api_chat_chat a = false)
    (snd (fst (handle_event status_of d l))).
Proof.
  unfold handle_event.
  repeat (match goal with
          | |- context [match ?x with _ => _ end] => destruct x
          end; cbn [fst snd]);
    repeat constructor.
Qed.

Lemma handle_events_not_api status_of events l :
  Forall (fun a => is_api_chat_chat a = false)
    (snd (fst (handle_events status_of events l))).
Proof.
  revert l. induction events as [|d events IH]; intros l; [constructor|].
  cbn [handle_events].
  pose proof (handle_event_not_api status_of d l) as Hd.
  destruct (handle_event status_of d l) as [[l1 calls1] [e|]]; [done|].
  specialize (IH l1).
  destruct (handle_events status_of events l1) as [[l2 calls2] e2].
  cbn [fst snd] in *. by apply Forall_app.
Qed.

Lemma handle_events_app status_of before after l l1 calls1 :
  handle_events status_of before l = (l1, calls1, None) →
  handle_events status_of (before ++ after) l
  = let '(l2, calls2, e) := handle_events status_of after l1 in
    (l2, calls1 ++ calls2, e).
Proof.
  revert l l1 calls1. induction before as [|d before IH];
    intros l l1 calls1 Hbefore.
  - injection Hbefore as <- <-. cbn [app].
    by destruct (handle_events status_of after l) as [[l2 calls2] e].
  - cbn [app handle_events] in *.
    destruct (handle_event status_of d l) as [[l' calls'] [e|]]; [done|].
    destruct (handle_events status_of before l') as [[l'' calls''] e'] eqn:Hb.
    injection Hbefore as -> <- ->.
    rewrite (IH _ _ _ Hb).
    destruct (handle_events status_of after l1) as [[l2 calls2] e].
    by rewrite app_assoc.
Qed.

(** C6.  An event whose [status] equals [AgentStatus.error] and that has
    a [text] makes one call, [st.error] of that text; it changes neither
    the accumulated text nor the tool flag and raises nothing, so the
    loop goes on with the next event.  One response makes exactly one
    [api.chat_chat] call, whatever events it carries. *)
Theorem error_event_is_shown_and_skipped
    (status_of : AgentStatus) (d : gmap pystr json) (status body : json) :
  d !! py "status" = Some status →
  py_eq_int status (error status_of) = true →
  d !! py "text" = Some body →
  let seen l :=
    {| text := text l;
       message_id := dict_get d (py "message_id") (JStr []);
       tool_called := tool_called l |} in
  (∀ l, handle_event status_of d l = (seen l, [st_error body], None)) ∧
  (∀ before after l l1 calls1,
     handle_events status_of before l = (l1, calls1, None) →
     handle_events status_of (before ++ d :: after) l
     = let '(l2, calls2, e) := handle_events status_of after (seen l1) in
       (l2, calls1 ++ st_error body :: calls2, e)) ∧
  (∀ query before after,
     length (List.filter is_api_chat_chat
               (snd (fst (stream_response status_of query
                            (before ++ d :: after))))) = 1%nat).
Proof.
  intros Hstatus Herror Htext seen.
  assert (Hstep : ∀ l,
    handle_event status_of d l = (seen l, [st_error body], None)).
  { intros l. unfold handle_event. by rewrite Hstatus, Herror, Htext. }
  split_and!; [done| |].
  - intros before after l l1 calls1 Hbefore.
    rewrite (handle_events_app _ _ _ _ _ _ Hbefore).
    cbn [handle_events]. rewrite Hstep.
    by destruct (handle_events status_of after (seen l1)) as [[l2 calls2] e].
  - intros query before after. unfold stream_response.
    pose proof (handle_events_not_api status_of (before ++ d :: after)
                  {| text := []; message_id := JStr [];
                     tool_called := false |}) as Hnot.
    destruct (handle_events _ _ _) as [[l' calls] e].
    cbn [fst snd List.filter is_api_chat_chat length] in *.
    f_equal. induction Hnot as [|a calls Ha _ IH]; [done|].
    cbn [List.filter]. by rewrite Ha.
Qed.

End DialogueFacts.

(** * The theorems at concrete inputs *)

Section Instances.
Import Chat Dialogue.

Let container0 : Container := Sample.container0.
Let hello : History := {| role := py "user"; content := py "hello" |}.

Lemma agent_selected_by_model_name_witness :
  Sample.models !! py "action_model"
    = Some (Sample.kwargs (py "Qwen-14B-Chat")) ∧
  snd (@create_models_chains Sample.env (HList []) (-1) Sample.prompts
         Sample.models [py "calculate"] [tt] [] JNull container0)
  = Ok (input_to_agent
          (initialize_qwen_agent (Sample.kwargs (py "Qwen-14B-Chat"))
             [py "calculate"] (py "use the tools") None [tt])).
Proof.
  split; [by vm_compute|].
  pose proof (@agent_selected_by_model_name Sample.env (HList []) (-1)
                Sample.prompts Sample.models [py "calculate"] [tt] [] JNull
                container0
                [({| role := py "user"; content := py "{{ input }}" |},
                  false)]
                None (Sample.kwargs (py "chatglm3-6b"))
                (py "classify {{ input }}") (Sample.kwargs (py "chatglm3-6b")))
    as H.
  destruct H as (_ & Hqwen & _); [by vm_compute..|].
  apply Hqwen.
  - by vm_compute.
  - done.
  - by vm_compute.
  - apply str_contains_false. by vm_compute.
  - apply str_contains_spec. by vm_compute.
Defined.

Lemma history_takes_precedence_over_memory_witness :
  Sample.prompts !! py "llm_model" = Some (py "{{ input }}") ∧
  Sample.models !! py "llm_model" = Some (Sample.kwargs (py "chatglm3-6b")) ∧
  @prompt_and_memory Sample.env (HList [hello]) 3 Sample.prompts
    Sample.models (py "c1")
  = Ok (Some [(hello, true);
              ({| role := py "user"; content := py "{{ input }}" |}, false)],
        None).
Proof.
  assert (H1 : Sample.prompts !! py "llm_model" = Some (py "{{ input }}"))
    by by vm_compute.
  assert (H2 : Sample.models !! py "llm_model"
                 = Some (Sample.kwargs (py "chatglm3-6b"))) by by vm_compute.
  split_and!; [done..|].
  destruct (@history_takes_precedence_over_memory Sample.env [hello] 3
              Sample.prompts Sample.models (py "c1") _ _ H1 H2)
    as (Hhist & _).
  by apply Hhist.
Defined.

Lemma events_reemitted_with_message_id_witness :
  yielded Sample.outcome !! 1%nat
  = Some (Sample.dumps
            (JObj (<[py "message_id" := JStr (py "m0")]>
                     {[ py "status" := JInt 3;
                        py "message_id" := JStr (py "stale") ]}))).
Proof.
  eassert (Hbuilt : snd (@build_full_chain Sample.env JNull (py "c1") (-1)
                           (HList []) true Sample.model_config ∅ container0)
                    = Ok _) by (vm_compute; reflexivity).
  pose proof (@events_reemitted_with_message_id Sample.env (py "hi") JNull
                (py "c1") (-1) (HList []) true Sample.model_config ∅
                ([] : @DB Sample.env) container0 _ Hbuilt) as H.
  destruct H as (_ & Hchunk & _).
  assert (Hbefore : ∀ j c, (j < 1)%nat →
            Sample.chunks !! j = Some c →
            ∃ o, Sample.loads c = Ok (JObj o)).
  { intros [|j] c Hj Hc; [|lia]. injection Hc as <-. by eexists. }
  assert (Hloads : Sample.loads (Sample.dumps Sample.end_event)
                   = Ok (JObj {[ py "status" := JInt 3;
                                 py "message_id" := JStr (py "stale") ]}))
    by by vm_compute.
  pose proof (Hchunk 1%nat (Sample.dumps Sample.end_event) _ Hbefore eq_refl
                Hloads) as H.
  destruct H as (d' & Hyielded & -> & _).
  exact Hyielded.
Defined.

(** C3, as stated: the yielded texts are not newline-delimited.  Two
    events are re-emitted as two JSON texts, none ends with a line feed
    and the body has no line feed at all. *)
Lemma response_is_not_newline_delimited :
  yielded Sample.outcome
    = [py "{" ++ Sample.quoted (py "status") ++ py ": 2, " ++
       Sample.quoted (py "text") ++ py ": " ++ Sample.quoted (py "Hello") ++
       py ", " ++ Sample.quoted (py "message_id") ++ py ": " ++
       Sample.quoted (py "m0") ++ py "}";
       py "{" ++ Sample.quoted (py "status") ++ py ": 3, " ++
       Sample.quoted (py "message_id") ++ py ": " ++
       Sample.quoted (py "m0") ++ py "}"] ∧
  ¬ newline_delimited (yielded Sample.outcome) ∧
  10%N ∉ body_text Sample.outcome.
Proof.
  assert (Hout : yielded Sample.outcome
    = [py "{" ++ Sample.quoted (py "status") ++ py ": 2, " ++
       Sample.quoted (py "text") ++ py ": " ++ Sample.quoted (py "Hello") ++
       py ", " ++ Sample.quoted (py "message_id") ++ py ": " ++
       Sample.quoted (py "m0") ++ py "}";
       py "{" ++ Sample.quoted (py "status") ++ py ": 3, " ++
       Sample.quoted (py "message_id") ++ py ": " ++
       Sample.quoted (py "m0") ++ py "}"]) by by vm_compute.
  split_and!; [done| |].
  - intros Hnl. rewrite Hout in Hnl.
    specialize (Hnl _ (list_elem_of_here _ _)). by vm_compute in Hnl.
  - unfold body_text. rewrite Hout.
    apply (bool_decide_eq_false_1 (10%N ∈ _)). by vm_compute.
Qed.

Lemma callbacks_stay_None_after_first_falsy_witness :
  truthy (dict_get (∅ : Params) (py "callbacks") (JBool false)) = false ∧
  ∀ i kw, (0 ≤ i)%nat →
    ls_calls (@run_loops Sample.env (Some Sample.model_config) (Some []) true)
      !! i = Some kw →
    kw_callbacks kw = None.
Proof.
  split; [done|].
  apply (@callbacks_stay_None_after_first_falsy Sample.env
           Sample.model_config (Some []) true []
           (py "preprocess_model", (py "chatglm3-6b", ∅))
           [(py "llm_model",
             (py "chatglm3-6b", {[ py "callbacks" := JBool true ]}));
            (py "action_model",
             (py "Qwen-14B-Chat", {[ py "callbacks" := JBool true ]}))]).
  - done.
  - done.
Defined.



Lemma error_event_is_shown_and_skipped_witness :
  py_eq_int (JInt 8) (error Sample.agent_status) = true ∧
  handle_event Sample.agent_status Sample.error_event
    {| text := py "so far"; message_id := JStr []; tool_called := true |}
  = ({| text := py "so far"; message_id := JStr []; tool_called := true |},
     [st_error (JStr (py "model not found"))], None).
Proof.
  split; [done|].
  destruct (error_event_is_shown_and_skipped Sample.agent_status
              Sample.error_event (JInt 8) (JStr (py "model not found")))
    as (Hstep & _); [by vm_compute..|].
  by rewrite Hstep.
Defined.

End Instances.

(** * Further properties of the chat endpoint *)

Section ChatMore.
Import Chat ChatAux.
Context {env : ServerEnv}.

Lemma visit_body_unfold stream st role name params :
  visit_body stream st (role, (name, params))
  = let callbacks :=
      if wants_callbacks params then ls_callbacks st else None in
    {| ls_callbacks := callbacks;
       ls_models :=
         <[role := get_ChatOpenAI (kwargs_of name params callbacks stream)]>
           (ls_models st);
       ls_prompts :=
         <[role := get_prompt_template role
                     (dict_get params (py "prompt_name")
                        (JStr (py "default")))]>
           (ls_prompts st);
       ls_calls := ls_calls st ++ [kwargs_of name params callbacks stream] |}.
Proof. done. Qed.

(** The loop variable [callbacks] after a run of the loop. *)
Lemma visit_callbacks stream visited st :
  ls_callbacks (foldl (visit_body stream) st visited)
  = if forallb (fun e => wants_callbacks (snd (snd e))) visited
    then ls_callbacks st else None.
Proof.
  revert st. induction visited as [|[role [name params]] visited IH];
    intros st; [done|].
  cbn [foldl forallb snd]. rewrite IH, visit_body_unfold. cbn [ls_callbacks].
  destruct (wants_callbacks params); cbn [andb]; [done|].
  by destruct (forallb _ visited).
Qed.

(** The roles a run of the loop leaves in [models] and [prompts]. *)
Lemma visit_roles stream visited st k :
  (is_Some (ls_models (foldl (visit_body stream) st visited) !! k)
   ↔ is_Some (ls_models st !! k) ∨ k ∈ (fst <$> visited)) ∧
  (is_Some (ls_prompts (foldl (visit_body stream) st visited) !! k)
   ↔ is_Some (ls_prompts st !! k) ∨ k ∈ (fst <$> visited)).
Proof.
  revert st. induction visited as [|[role [name params]] visited IH];
    intros st.
  - cbn. split; (split; [by left | intros [?|?%elem_of_nil]; done]).
  - cbn [foldl fmap list_fmap fst].
    destruct (IH (visit_body stream st (role, (name, params)))) as [-> ->].
    rewrite visit_body_unfold. cbn [ls_models ls_prompts].
    rewrite !lookup_insert_is_Some, !elem_of_cons.
    destruct (decide (role = k)) as [->|Hne]; [by intuition|].
    assert (k ≠ role) by done. by intuition.
Qed.

Lemma models_roles (configs : Configs) callbacks stream (role : pystr) :
  is_Some (fst (create_models_from_config (Some configs) callbacks stream)
             !! role)
  ↔ role ∈ (fst <$> visit_order configs).
Proof.
  unfold create_models_from_config. cbn [fst].
  rewrite run_loops_visit_order.
  rewrite (proj1 (visit_roles _ _ _ _)). cbn [ls_models].
  rewrite lookup_empty. split; [|by right].
  intros [H|H]; [by destruct H | done].
Qed.

(** X1.  The roles of [models] and of [prompts] are the same: those under
    which [configs] lists at least one model.  With [configs=None] both
    are empty. *)
Theorem models_and_prompts_have_the_configured_roles
    (configs : option Configs) callbacks stream (role : pystr) :
  let models := fst (create_models_from_config configs callbacks stream) in
  let prompts := snd (create_models_from_config configs callbacks stream) in
  (is_Some (models !! role)
   ↔ role ∈ (fst <$> visit_order (default [] configs))) ∧
  (is_Some (prompts !! role) ↔ is_Some (models !! role)) ∧
  (configs = None → models = ∅ ∧ prompts = ∅).
Proof.
  cbn zeta. unfold create_models_from_config. cbn [fst snd].
  assert (Hrun : run_loops configs callbacks stream
                 = run_loops (Some (default [] configs)) callbacks stream)
    by by destruct configs.
  split_and!.
  - rewrite Hrun, run_loops_visit_order.
    rewrite (proj1 (visit_roles _ _ _ _)). cbn [ls_models].
    rewrite lookup_empty. split; [|by right].
    intros [H|H]; [by destruct H | done].
  - rewrite Hrun, run_loops_visit_order.
    rewrite (proj1 (visit_roles _ _ _ _)), (proj2 (visit_roles _ _ _ _)).
    cbn [ls_models ls_prompts]. rewrite !lookup_empty.
    split; (intros [H|H]; [by destruct H | by right]).
  - by intros ->.
Qed.

Lemma visit_not_in stream visited st role :
  role ∉ (fst <$> visited) →
  ls_models (foldl (visit_body stream) st visited) !! role
    = ls_models st !! role ∧
  ls_prompts (foldl (visit_body stream) st visited) !! role
    = ls_prompts st !! role.
Proof.
  revert st. induction visited as [|[role' [name params]] visited IH];
    intros st Hnot; [done|].
  cbn [fmap list_fmap fst] in Hnot. apply not_elem_of_cons in Hnot as [Hne Hnot].
  cbn [foldl]. destruct (IH (visit_body stream st (role', (name, params))) Hnot)
    as [-> ->].
  rewrite visit_body_unfold. cbn [ls_models ls_prompts].
  by rewrite !lookup_insert_ne.
Qed.

Lemma kept_model_from stream (st : LoopState) before role name params after :
  role ∉ (fst <$> after) →
  let st' :=
    foldl (visit_body stream) st (before ++ (role, (name, params)) :: after) in
  let passed :=
    if forallb (fun e => wants_callbacks (snd (snd e)))
         (before ++ [(role, (name, params))])
    then ls_callbacks st else None in
  ls_models st' !! role
    = Some (get_ChatOpenAI (kwargs_of name params passed stream)) ∧
  ls_prompts st' !! role
    = Some (get_prompt_template role
              (dict_get params (py "prompt_name") (JStr (py "default")))).
Proof.
  intros Hlast. cbn zeta. rewrite foldl_app. cbn [foldl].
  destruct (visit_not_in stream after
              (visit_body stream (foldl (visit_body stream) st before)
                 (role, (name, params))) role Hlast) as [-> ->].
  rewrite visit_body_unfold. cbn [ls_models ls_prompts].
  rewrite !lookup_insert_eq. split; [|done].
  do 3 f_equal. rewrite visit_callbacks.
  rewrite forallb_app. cbn [forallb snd].
  by destruct (forallb _ before), (wants_callbacks params).
Qed.

(** X2.  Under a role, the model that [models] keeps is the last one the
    loops visit for that role, built from its name and params with the
    defaults of lines 36-37 and 42; its [callbacks] are the given ones if
    every model visited up to it asked for callbacks, else [None]. *)
Theorem last_model_of_a_role_is_kept
    (configs : Configs) callbacks stream before role name params after :
  visit_order configs = before ++ (role, (name, params)) :: after →
  role ∉ (fst <$> after) →
  let passed :=
    if forallb (fun e => wants_callbacks (snd (snd e)))
         (before ++ [(role, (name, params))])
    then callbacks else None in
  fst (create_models_from_config (Some configs) callbacks stream) !! role
    = Some (get_ChatOpenAI (kwargs_of name params passed stream)) ∧
  snd (create_models_from_config (Some configs) callbacks stream) !! role
    = Some (get_prompt_template role
              (dict_get params (py "prompt_name") (JStr (py "default")))).
Proof.
  intros Horder Hlast passed. unfold create_models_from_config.
  cbn [fst snd]. rewrite run_loops_visit_order, Horder.
  exact (kept_model_from stream
           {| ls_callbacks := callbacks; ls_models := ∅; ls_prompts := ∅;
              ls_calls := [] |} before role name params after Hlast).
Qed.

Lemma visit_calls_lookup stream visited st i kw :
  ls_calls (foldl (visit_body stream) st visited)
    !! (length (ls_calls st) + i)%nat = Some kw →
  ∃ role name params,
    visited !! i = Some (role, (name, params)) ∧
    kw = kwargs_of name params
           (if forallb (fun e => wants_callbacks (snd (snd e)))
                 (take (S i) visited)
            then ls_callbacks st else None)
           stream.
Proof.
  revert st i. induction visited as [|[role [name params]] visited IH];
    intros st i Hkw.
  - cbn [foldl] in Hkw. apply lookup_lt_Some in Hkw. lia.
  - cbn [foldl] in Hkw.
    set (st1 := visit_body stream st (role, (name, params))) in *.
    assert (Hst1 : ls_calls st1
      = ls_calls st ++ [kwargs_of name params
                          (if wants_callbacks params then ls_callbacks st
                           else None) stream]) by done.
    assert (Hcb1 : ls_callbacks st1
      = if wants_callbacks params then ls_callbacks st else None) by done.
    destruct i as [|i].
    + destruct (visit_calls stream visited st1) as (new & Hcalls & _).
      rewrite Hcalls, Hst1, <- app_assoc, Nat.add_0_r in Hkw.
      rewrite lookup_app_r, Nat.sub_diag in Hkw by lia.
      injection Hkw as <-. exists role, name, params. split; [done|].
      cbn [take forallb snd]. by rewrite andb_true_r.
    + replace (length (ls_calls st) + S i)%nat
        with (length (ls_calls st1) + i)%nat in Hkw
        by (rewrite Hst1, length_app; cbn [length]; lia).
      destruct (IH st1 i Hkw) as (role' & name' & params' & Hi & ->).
      exists role', name', params'. split; [done|].
      f_equal. rewrite Hcb1. cbn [take forallb snd].
      destruct (wants_callbacks params); cbn [andb]; [done|].
      by destruct (forallb _ _).
Qed.

(** X3.  The i-th [get_ChatOpenAI] call is for the i-th visited model,
    with its name, its params' temperature and max_tokens or their
    defaults, and the given [callbacks] if that model and every model
    visited before it asked for callbacks, [None] otherwise. *)
Theorem each_call_passes_threaded_callbacks
    (configs : Configs) callbacks stream i kw :
  ls_calls (run_loops (Some configs) callbacks stream) !! i = Some kw →
  ∃ role name params,
    visit_order configs !! i = Some (role, (name, params)) ∧
    kw = kwargs_of name params
           (if forallb (fun e => wants_callbacks (snd (snd e)))
                 (take (S i) (visit_order configs))
            then callbacks else None)
           stream.
Proof.
  rewrite run_loops_visit_order. intros Hkw.
  exact (visit_calls_lookup stream (visit_order configs)
           {| ls_callbacks := callbacks; ls_models := ∅; ls_prompts := ∅;
              ls_calls := [] |} i kw Hkw).
Qed.

(** ** Failures of chain construction *)

Lemma is_Ok_Ok {A} (a : A) : is_Ok (Ok a).
Proof. by exists a. Qed.

Lemma is_Ok_Raise {A} (e : exn) : ¬ is_Ok (Raise e : result A).
Proof. by intros [a ?]. Qed.

Lemma dict_item_is_Ok {V} (d : gmap pystr V) k :
  is_Ok (dict_item d k) ↔ is_Some (d !! k).
Proof.
  unfold dict_item. destruct (d !! k) as [v|].
  - split; [eauto | intros _; apply is_Ok_Ok].
  - split; [intros []%is_Ok_Raise | by intros [? ?]].
Qed.

(** Without an [llm_model] entry in [models] nothing is built. *)
Lemma create_models_chains_without_llm
    (history : HistoryArg) (history_len : Z) (prompts : gmap pystr pystr)
    (models : gmap pystr Model) (tools : list Tool)
    (callbacks : list Handler) (conversation_id : pystr) (metadata : json)
    (container : Container) :
  models !! py "llm_model" = None →
  snd (create_models_chains history history_len prompts models tools
         callbacks conversation_id metadata container)
  = Raise (match history with
           | HInt n => if n =? 0 then KeyError (py "llm_model")
                       else TypeError_not_iterable
           | HList _ => KeyError (py "llm_model")
           end).
Proof.
  intros Hllm. unfold create_models_chains, prompt_and_memory, chains_of.
  cbn [snd]. rewrite (dict_item_None _ _ Hllm). unfold dict_item.
  destruct history as [n|hs]; cbn [history_truthy history_iter].
  - destruct (n =? 0); cbn [negb mbind result_bind]; [|done].
    destruct (str_truthy conversation_id && (0 <? history_len)); [done|].
    by destruct (prompts !! py "llm_model").
  - destruct (list_truthy hs); cbn [mbind result_bind].
    + by destruct (prompts !! py "llm_model").
    + destruct (str_truthy conversation_id && (0 <? history_len)); [done|].
      by destruct (prompts !! py "llm_model").
Qed.

(** X4.  A request whose [model_config] lists no model under the role
    [llm_model] (the default [{}] is one) always fails: the generator
    raises [KeyError('llm_model')], or [TypeError] for a non-zero
    integer [history], and yields nothing. *)
Theorem request_without_llm_model_raises
    query metadata conversation_id history_len history stream
    (model_config : Configs) tool_config db container :
  py "llm_model" ∉ (fst <$> visit_order model_config) →
  snd (body (chat query metadata conversation_id history_len history stream
               model_config tool_config) db container)
  = {| yielded := [];
       raised := Some (match history with
                       | HInt n => if n =? 0 then KeyError (py "llm_model")
                                   else TypeError_not_iterable
                       | HList _ => KeyError (py "llm_model")
                       end) |}.
Proof.
  intros Hrole. cbn [body chat]. unfold chat_iterator, build_full_chain.
  destruct (record_message _ _ _) as [message_id db'].
  pose proof (models_roles model_config (Some []) stream (py "llm_model"))
    as Hmodels.
  destruct (create_models_from_config _ _ _) as [models prompts].
  cbn [fst] in Hmodels.
  assert (Hnone : models !! py "llm_model" = None).
  { apply eq_None_not_Some. by rewrite Hmodels. }
  pose proof (create_models_chains_without_llm history history_len prompts
                models (select_tools tool_config)
                [AgentExecutorAsyncIteratorCallbackHandler] conversation_id
                metadata container Hnone) as Hraise.
  destruct (create_models_chains _ _ _ _ _ _ _ _ _) as [container' r].
  cbn [snd] in *. by rewrite Hraise.
Qed.

(** X5.  The query is written to the database before the chain is built:
    whatever happens afterwards, the database holds the message exactly
    when [conversation_id] is not empty, and the container's metadata is
    the request's. *)
Theorem message_is_recorded_whatever_follows
    query metadata conversation_id history_len history stream model_config
    tool_config db container :
  let run :=
    body (chat query metadata conversation_id history_len history stream
            model_config tool_config) db container in
  fst (fst run)
    = (if decide (conversation_id = []) then db
       else snd (add_message_to_db (py "llm_chat") query conversation_id db)) ∧
  snd (fst run) = {| container_metadata := metadata |}.
Proof.
  cbn [body chat]. unfold chat_iterator, build_full_chain, record_message,
    create_models_chains, str_truthy.
  destruct (create_models_from_config _ _ _) as [models prompts].
  destruct (decide (conversation_id = [])) as [->|Hne].
  - cbn [bool_decide negb]. rewrite bool_decide_eq_true_2 by done.
    cbn [negb]. by destruct (_ ≫= _).
  - rewrite bool_decide_eq_false_2 by done. cbn [negb].
    destruct (add_message_to_db _ _ _ _) as [id db'].
    by destruct (_ ≫= _).
Qed.

(** Whether [chains_of] succeeds, and what it returns in agent mode, does
    not depend on which chat prompt it is given. *)
Lemma chains_of_agent_ignores_prompt
    (chat_prompt1 chat_prompt2 : list MsgTemplate)
    (memory : option (ConversationBufferDBMemory Model))
    (prompts : gmap pystr pystr) (models : gmap pystr Model)
    (tools : list Tool) (callbacks : list Handler) :
  dict_mem (py "action_model") models = true → tools ≠ [] →
  chains_of (Some chat_prompt1) memory prompts models tools callbacks
  = chains_of (Some chat_prompt2) memory prompts models tools callbacks.
Proof.
  intros Hmem Htools. unfold chains_of.
  destruct (dict_item models (py "llm_model")); [|done].
  cbn [mbind result_bind new_LLMChain].
  destruct (dict_item prompts (py "preprocess_model")); [|done].
  cbn [mbind result_bind].
  destruct (dict_item models (py "preprocess_model")); [|done].
  cbn [mbind result_bind].
  apply list_truthy_true in Htools. by rewrite Hmem, Htools.
Qed.

(** X6.  With an action model and at least one tool, a history given in
    the request has no effect on what is built: any two non-empty
    history lists, with any [history_len] and [conversation_id], give the
    same agent executor or the same exception. *)
Theorem agent_ignores_the_given_history
    (hs1 hs2 : list History) (history_len1 history_len2 : Z)
    (prompts : gmap pystr pystr) (models : gmap pystr Model)
    (tools : list Tool) (callbacks : list Handler)
    (conversation_id1 conversation_id2 : pystr) (metadata : json)
    (container : Container) :
  is_Some (models !! py "action_model") → tools ≠ [] →
  hs1 ≠ [] → hs2 ≠ [] →
  snd (create_models_chains (HList hs1) history_len1 prompts models tools
         callbacks conversation_id1 metadata container)
  = snd (create_models_chains (HList hs2) history_len2 prompts models tools
           callbacks conversation_id2 metadata container).
Proof.
  intros Hmem%dict_mem_true Htools H1%list_truthy_true H2%list_truthy_true.
  unfold create_models_chains, prompt_and_memory. cbn [snd].
  cbn [history_truthy history_iter]. rewrite H1, H2.
  cbn [mbind result_bind].
  destruct (dict_item prompts (py "llm_model")); [|done].
  cbn [mbind result_bind]. by apply chains_of_agent_ignores_prompt.
Qed.

(** ** When chain construction succeeds *)

Lemma prompt_and_memory_is_Ok
    (hs : list History) (history_len : Z) (prompts : gmap pystr pystr)
    (models : gmap pystr Model) (conversation_id : pystr) :
  is_Ok (prompt_and_memory (HList hs) history_len prompts models
           conversation_id)
  ↔ (hs = [] ∧ conversation_id ≠ [] ∧ 0 < history_len ∧
     is_Some (models !! py "llm_model")) ∨
    (¬ (hs = [] ∧ conversation_id ≠ [] ∧ 0 < history_len) ∧
     is_Some (prompts !! py "llm_model")).
Proof.
  unfold prompt_and_memory. cbn [history_truthy history_iter].
  destruct hs as [|h hs]; cbn [list_truthy mbind result_bind].
  - destruct (str_truthy conversation_id && (0 <? history_len)) eqn:Hc.
    + apply memory_condition in Hc.
      destruct (dict_item models (py "llm_model")) as [llm|e] eqn:Hllm.
      * assert (is_Some (models !! py "llm_model"))
          by (apply dict_item_is_Ok; rewrite Hllm; apply is_Ok_Ok).
        cbn [mbind result_bind]. split; [intros _; left; tauto|].
        intros _. apply is_Ok_Ok.
      * assert (¬ is_Some (models !! py "llm_model")).
        { rewrite <- dict_item_is_Ok, Hllm. apply is_Ok_Raise. }
        cbn [mbind result_bind]. split; [intros []%is_Ok_Raise|]. tauto.
    + assert (¬ (conversation_id ≠ [] ∧ 0 < history_len)).
      { rewrite <- memory_condition, Hc. done. }
      destruct (dict_item prompts (py "llm_model")) as [t|e] eqn:Ht.
      * assert (is_Some (prompts !! py "llm_model"))
          by (apply dict_item_is_Ok; rewrite Ht; apply is_Ok_Ok).
        cbn [mbind result_bind]. split; [intros _; right; tauto|].
        intros _. apply is_Ok_Ok.
      * assert (¬ is_Some (prompts !! py "llm_model")).
        { rewrite <- dict_item_is_Ok, Ht. apply is_Ok_Raise. }
        cbn [mbind result_bind]. split; [intros []%is_Ok_Raise|]. tauto.
  - destruct (dict_item prompts (py "llm_model")) as [t|e] eqn:Ht.
    + assert (is_Some (prompts !! py "llm_model"))
        by (apply dict_item_is_Ok; rewrite Ht; apply is_Ok_Ok).
      cbn [mbind result_bind]. split; [|intros _; apply is_Ok_Ok].
      intros _. right. split; [by intros [? _]|done].
    + assert (¬ is_Some (prompts !! py "llm_model")).
      { rewrite <- dict_item_is_Ok, Ht. apply is_Ok_Raise. }
      cbn [mbind result_bind]. split; [intros []%is_Ok_Raise|].
      intros [[? _]|[_ ?]]; done.
Qed.

Lemma chains_of_is_Ok
    (chat_prompt : option (list MsgTemplate)) (memory : option (ConversationBufferDBMemory Model))
    (prompts : gmap pystr pystr) (models : gmap pystr Model)
    (tools : list Tool) (callbacks : list Handler) :
  is_Ok (chains_of chat_prompt memory prompts models tools callbacks)
  ↔ is_Some (models !! py "llm_model") ∧
    is_Some chat_prompt ∧
    is_Some (prompts !! py "preprocess_model") ∧
    is_Some (models !! py "preprocess_model") ∧
    (∀ action_model,
       models !! py "action_model" = Some action_model → tools ≠ [] →
       substring_of (py "chatglm3") (str_lower (model_name action_model)) ∨
       substring_of (py "qwen") (str_lower (model_name action_model)) →
       is_Some (prompts !! py "action_model")).
Proof.
  unfold chains_of.
  destruct (dict_item models (py "llm_model")) as [llm|e] eqn:H1;
    cbn [mbind result_bind].
  2: { split; [intros []%is_Ok_Raise|]. intros [H _].
       apply dict_item_is_Ok in H. rewrite H1 in H. by apply is_Ok_Raise in H. }
  destruct chat_prompt as [chat_prompt|]; cbn [new_LLMChain mbind result_bind].
  2: { split; [intros []%is_Ok_Raise|]. by intros (_ & [? ?] & _). }
  assert (Hprompt : is_Some (Some chat_prompt)) by eauto.
  destruct (dict_item prompts (py "preprocess_model")) as [cp|e] eqn:H2;
    cbn [mbind result_bind].
  2: { split; [intros []%is_Ok_Raise|]. intros (_ & _ & H & _).
       apply dict_item_is_Ok in H. rewrite H2 in H. by apply is_Ok_Raise in H. }
  destruct (dict_item models (py "preprocess_model")) as [cm|e] eqn:H3;
    cbn [mbind result_bind].
  2: { split; [intros []%is_Ok_Raise|]. intros (_ & _ & _ & H & _).
       apply dict_item_is_Ok in H. rewrite H3 in H. by apply is_Ok_Raise in H. }
  assert (is_Some (models !! py "llm_model"))
    by (apply dict_item_is_Ok; rewrite H1; apply is_Ok_Ok).
  assert (is_Some (prompts !! py "preprocess_model"))
    by (apply dict_item_is_Ok; rewrite H2; apply is_Ok_Ok).
  assert (is_Some (models !! py "preprocess_model"))
    by (apply dict_item_is_Ok; rewrite H3; apply is_Ok_Ok).
  destruct (dict_mem (py "action_model") models) eqn:Hmem; cbn [andb].
  2: { apply dict_mem_false in Hmem. split; [|intros _; apply is_Ok_Ok].
       intros _. split_and!; [done..|]. intros am Ham. congruence. }
  apply dict_mem_true in Hmem as [am Ham].
  destruct tools as [|tool tools]; cbn [list_truthy].
  { split; [|intros _; apply is_Ok_Ok]. intros _. by split_and!. }
  rewrite (dict_item_Some _ _ _ Ham). cbn [mbind result_bind].
  destruct (str_contains (py "chatglm3") (str_lower (model_name am)))
    eqn:Hglm.
  - apply str_contains_spec in Hglm.
    destruct (dict_item prompts (py "action_model")) as [p|e] eqn:Hp;
      cbn [mbind result_bind].
    + split; [|intros _; apply is_Ok_Ok]. intros _.
      split_and!; [done..|]. intros ? _ _ _.
      apply dict_item_is_Ok. rewrite Hp. apply is_Ok_Ok.
    + split; [intros []%is_Ok_Raise|]. intros (_ & _ & _ & _ & Hact).
      specialize (Hact am Ham ltac:(done) ltac:(by left)).
      apply dict_item_is_Ok in Hact. rewrite Hp in Hact.
      by apply is_Ok_Raise in Hact.
  - apply str_contains_false in Hglm.
    destruct (str_contains (py "qwen") (str_lower (model_name am)))
      eqn:Hqwen.
    + apply str_contains_spec in Hqwen.
      destruct (dict_item prompts (py "action_model")) as [p|e] eqn:Hp;
        cbn [mbind result_bind].
      * split; [|intros _; apply is_Ok_Ok]. intros _.
        split_and!; [done..|]. intros ? _ _ _.
        apply dict_item_is_Ok. rewrite Hp. apply is_Ok_Ok.
      * split; [intros []%is_Ok_Raise|]. intros (_ & _ & _ & _ & Hact).
        specialize (Hact am Ham ltac:(done) ltac:(by right)).
        apply dict_item_is_Ok in Hact. rewrite Hp in Hact.
        by apply is_Ok_Raise in Hact.
    + apply str_contains_false in Hqwen.
      split; [|intros _; apply is_Ok_Ok]. intros _.
      split_and!; [done..|]. intros am' Ham' _ [?|?].
      * rewrite Ham in Ham'. by injection Ham' as <-.
      * rewrite Ham in Ham'. by injection Ham' as <-.
Qed.

(** The memory branch is the one that gives no chat prompt, and the only
    one that gives a memory. *)
Lemma prompt_and_memory_branches
    (hs : list History) (history_len : Z) (prompts : gmap pystr pystr)
    (models : gmap pystr Model) (conversation_id : pystr)
    (chat_prompt : option (list MsgTemplate))
    (memory : option (ConversationBufferDBMemory Model)) :
  prompt_and_memory (HList hs) history_len prompts models conversation_id
    = Ok (chat_prompt, memory) →
  (chat_prompt = None ↔ hs = [] ∧ conversation_id ≠ [] ∧ 0 < history_len) ∧
  (is_Some chat_prompt ↔ memory = None) ∧
  (is_Some chat_prompt → is_Some (prompts !! py "llm_model")).
Proof.
  unfold prompt_and_memory. cbn [history_truthy history_iter].
  destruct hs as [|h hs]; cbn [list_truthy mbind result_bind].
  - destruct (str_truthy conversation_id && (0 <? history_len)) eqn:Hc.
    + apply memory_condition in Hc.
      destruct (dict_item models (py "llm_model")); [|done].
      cbn [mbind result_bind]. intros [= <- <-]. split_and!.
      * done.
      * split; [by intros [? ?] | done].
      * by intros [? ?].
    + assert (Hno : ¬ (conversation_id ≠ [] ∧ 0 < history_len)).
      { rewrite <- memory_condition, Hc. done. }
      destruct (dict_item prompts (py "llm_model")) as [t|e] eqn:Ht; [|done].
      cbn [mbind result_bind]. intros [= <- <-]. split_and!.
      * split; [done|]. intros (_ & ? & ?). exfalso. by apply Hno.
      * split; eauto.
      * intros _. apply dict_item_is_Ok. rewrite Ht. apply is_Ok_Ok.
  - destruct (dict_item prompts (py "llm_model")) as [t|e] eqn:Ht; [|done].
    cbn [mbind result_bind]. intros [= <- <-]. split_and!.
    + split; [done | by intros (? & _)].
    + split; eauto.
    + intros _. apply dict_item_is_Ok. rewrite Ht. apply is_Ok_Ok.
Qed.

(** X7.  For a list as [history], [create_models_chains] returns a chain
    exactly when the memory branch is not taken, [models] has
    [llm_model], [prompts] and [models] have [preprocess_model] (although
    the classifier chain is not used), [prompts] has [llm_model], and
    [prompts] has [action_model] when a GLM3 or Qwen agent is to be built;
    in every other case it raises.  On the memory branch it always
    raises: [KeyError] if [models] has no [llm_model], and otherwise the
    [ValidationError] of the chain of line 69, which is built without a
    prompt there. *)
Theorem create_models_chains_succeeds_iff
    (hs : list History) (history_len : Z) (prompts : gmap pystr pystr)
    (models : gmap pystr Model) (tools : list Tool)
    (callbacks : list Handler) (conversation_id : pystr) (metadata : json)
    (container : Container) :
  let built :=
    snd (create_models_chains (HList hs) history_len prompts models tools
           callbacks conversation_id metadata container) in
  (is_Ok built
   ↔ ¬ (hs = [] ∧ conversation_id ≠ [] ∧ 0 < history_len) ∧
     is_Some (models !! py "llm_model") ∧
     is_Some (prompts !! py "llm_model") ∧
     is_Some (prompts !! py "preprocess_model") ∧
     is_Some (models !! py "preprocess_model") ∧
     (∀ action_model,
        models !! py "action_model" = Some action_model → tools ≠ [] →
        substring_of (py "chatglm3") (str_lower (model_name action_model)) ∨
        substring_of (py "qwen") (str_lower (model_name action_model)) →
        is_Some (prompts !! py "action_model"))) ∧
  (hs = [] ∧ conversation_id ≠ [] ∧ 0 < history_len →
   built = Raise (if decide (is_Some (models !! py "llm_model"))
                  then ValidationError else KeyError (py "llm_model"))).
Proof.
  intros built. subst built. unfold create_models_chains. cbn [snd]. split.
  - pose proof (prompt_and_memory_is_Ok hs history_len prompts models
                  conversation_id) as Hpm.
    pose proof (prompt_and_memory_branches hs history_len prompts models
                  conversation_id) as Hbr.
    destruct (prompt_and_memory _ _ _ _ _) as [[chat_prompt memory]|e].
    + cbn [mbind result_bind]. rewrite chains_of_is_Ok.
      destruct (Hbr _ _ eq_refl) as (Hnone & _ & Hllm). split.
      * intros (? & Hsome & ? & ? & ?).
        split_and!; [|done|by apply Hllm|done..].
        intros Hmem. apply Hnone in Hmem. subst chat_prompt.
        by destruct Hsome.
      * intros (Hno & ? & ? & ? & ? & ?). split_and!; [done| |done..].
        destruct chat_prompt; [eauto|]. exfalso. by apply Hno, Hnone.
    + cbn [mbind result_bind]. split; [intros []%is_Ok_Raise|].
      intros (Hno & _ & Hllm & _). exfalso.
      apply (is_Ok_Raise (A := option (list MsgTemplate)
                               * option (ConversationBufferDBMemory Model)) e).
      apply Hpm. right. by split.
  - intros (-> & Hc & Hl). unfold prompt_and_memory.
    cbn [history_truthy list_truthy].
    assert (str_truthy conversation_id && (0 <? history_len) = true) as ->
      by by apply memory_condition.
    unfold chains_of, dict_item.
    destruct (models !! py "llm_model") as [llm|] eqn:Hllm.
    + by rewrite decide_True by eauto.
    + rewrite decide_False; [done|]. by intros [? ?].
Qed.

(** ** The response generator *)

(** X8.  The generator stops at the first chunk that is not the text of
    a JSON object: it has yielded one text per chunk before it, raises,
    and the chunks after it are never read. *)
Theorem generator_stops_at_first_bad_chunk
    (message_id : json) (good : list pystr) (bad : pystr)
    (rest : list pystr) :
  (∀ c, c ∈ good → ∃ o, json_loads c = Ok (JObj o)) →
  (∀ o, json_loads bad ≠ Ok (JObj o)) →
  let out := forward message_id (good ++ bad :: rest) in
  yielded out = yielded (forward message_id good) ∧
  length (yielded out) = length good ∧
  (raised out = Some TypeError_item_assignment ∨
   ∃ e, json_loads bad = Raise e ∧ raised out = Some e).
Proof.
  intros Hgood Hbad. cbn zeta.
  induction good as [|c good IH]; cbn [app].
  - cbn [forward]. destruct (json_loads bad) as [data|e] eqn:Hload.
    + cbn [mbind result_bind].
      destruct data; try (split_and!; [done..|by left]).
      by destruct (Hbad o).
    + cbn [mbind result_bind]. split_and!; [done..|]. right. by exists e.
  - destruct (Hgood c) as [o Ho]; [by left|].
    cbn [forward]. rewrite Ho.
    cbn [mbind result_bind json_setitem yielded raised length].
    destruct IH as (-> & -> & Hraised).
    { intros c' Hc'. apply Hgood. by right. }
    done.
Qed.

(** Without tools the chain is the plain LLM chain, and it has a
    prompt. *)
Lemma chains_of_no_tools
    (chat_prompt : option (list MsgTemplate))
    (memory : option (ConversationBufferDBMemory Model))
    (prompts : gmap pystr pystr) (models : gmap pystr Model)
    (callbacks : list Handler)
    (full_chain : FullChain Model Tool MsgTemplate Handler) :
  chains_of chat_prompt memory prompts models [] callbacks = Ok full_chain →
  ∃ prompt llm,
    chat_prompt = Some prompt ∧
    full_chain
    = input_to_chain {| chain_prompt := Some prompt; chain_llm := llm;
                        chain_memory := memory |}.
Proof.
  unfold chains_of.
  destruct (dict_item models (py "llm_model")) as [llm|]; [|done].
  cbn [mbind result_bind].
  destruct chat_prompt as [prompt|]; [|done].
  cbn [new_LLMChain mbind result_bind].
  destruct (dict_item prompts (py "preprocess_model")); [|done].
  cbn [mbind result_bind].
  destruct (dict_item models (py "preprocess_model")); [|done].
  cbn [mbind result_bind list_truthy]. rewrite andb_false_r.
  intros [= <-]. by exists prompt, llm.
Qed.

(** A prompt was built by a branch that builds no memory. *)
Lemma prompt_and_memory_Some_prompt
    (history : HistoryArg) (history_len : Z) (prompts : gmap pystr pystr)
    (models : gmap pystr Model) (conversation_id : pystr)
    (chat_prompt : list MsgTemplate)
    (memory : option (ConversationBufferDBMemory Model)) :
  prompt_and_memory history history_len prompts models conversation_id
    = Ok (Some chat_prompt, memory) →
  memory = None.
Proof.
  unfold prompt_and_memory.
  destruct (history_truthy history).
  - destruct (history_iter history); [|done]. cbn [mbind result_bind].
    destruct (dict_item prompts (py "llm_model")); [|done].
    cbn [mbind result_bind]. by intros [= _ <-].
  - destruct (str_truthy conversation_id && (0 <? history_len)).
    + destruct (dict_item models (py "llm_model")); [|done]. done.
    + destruct (dict_item prompts (py "llm_model")); [|done].
      cbn [mbind result_bind]. by intros [= _ <-].
Qed.

Lemma no_tool_selected_plain_chain
    (metadata : json) (conversation_id : pystr) (history_len : Z)
    (history : HistoryArg) (stream : bool) (model_config : Configs)
    (tool_config : gmap pystr json) (container : Container)
    (full_chain : FullChain Model Tool MsgTemplate Handler) :
  select_tools tool_config = [] →
  snd (build_full_chain metadata conversation_id history_len history stream
         model_config tool_config container) = Ok full_chain →
  ∃ chat_prompt llm,
    prompt_and_memory history history_len
      (snd (create_models_from_config (Some model_config) (Some []) stream))
      (fst (create_models_from_config (Some model_config) (Some []) stream))
      conversation_id = Ok (Some chat_prompt, None) ∧
    full_chain
    = input_to_chain {| chain_prompt := Some chat_prompt; chain_llm := llm;
                        chain_memory := None |}.
Proof.
  intros Htools. unfold build_full_chain. rewrite Htools.
  destruct (create_models_from_config _ _ _) as [models prompts].
  unfold create_models_chains. cbn [fst snd].
  destruct (prompt_and_memory _ _ _ _ _) as [[chat_prompt memory]|e] eqn:Hpm;
    [|done].
  cbn [mbind result_bind]. intros Hok.
  apply chains_of_no_tools in Hok as (prompt & llm & -> & ->).
  pose proof (prompt_and_memory_Some_prompt _ _ _ _ _ _ _ Hpm) as ->.
  by exists prompt, llm.
Qed.

Lemma select_tools_none (tool_config : gmap pystr json) :
  (∀ tool, tool ∈ all_tools → tool_config !! tool_name tool = None) →
  select_tools tool_config = [].
Proof.
  intros Hnone. unfold select_tools.
  induction all_tools as [|t ts IH]; [done|]. cbn [List.filter].
  assert (dict_mem (tool_name t) tool_config = false) as ->
    by (apply dict_mem_false, Hnone; by left).
  apply IH. intros tool Hin. apply Hnone. by right.
Qed.

(** X9.  If no registered tool has its name among the keys of
    [tool_config] (an empty [tool_config], or one that names unknown
    tools only), no tool is selected and the endpoint never builds an
    agent: whatever it builds is the plain LLM chain, with the prompt of
    lines 50-67 and no memory. *)
Theorem no_configured_tool_no_agent
    (metadata : json) (conversation_id : pystr) (history_len : Z)
    (history : HistoryArg) (stream : bool) (model_config : Configs)
    (tool_config : gmap pystr json) (container : Container) :
  (∀ tool, tool ∈ all_tools → tool_config !! tool_name tool = None) →
  select_tools tool_config = [] ∧
  ∀ full_chain : FullChain Model Tool MsgTemplate Handler,
    snd (build_full_chain metadata conversation_id history_len history stream
           model_config tool_config container) = Ok full_chain →
    ∃ chat_prompt llm,
      prompt_and_memory history history_len
        (snd (create_models_from_config (Some model_config) (Some []) stream))
        (fst (create_models_from_config (Some model_config) (Some []) stream))
        conversation_id = Ok (Some chat_prompt, None) ∧
      full_chain
      = input_to_chain {| chain_prompt := Some chat_prompt; chain_llm := llm;
                          chain_memory := None |}.
Proof.
  intros Hnone. pose proof (select_tools_none tool_config Hnone) as Htools.
  split; [done|]. intros full_chain Hok.
  by eapply no_tool_selected_plain_chain.
Qed.

End ChatMore.

(** * Further properties of the dialogue page *)

Section DialogueMore.
Import Dialogue.
Context {cbapi : ChatBoxApi}.

(** ** What the pattern of line 65 matches *)

Lemma span_spec (p : N → bool) s :
  s = fst (span p s) ++ snd (span p s) ∧
  forallb p (fst (span p s)) = true ∧
  match snd (span p s) with [] => True | c :: _ => p c = false end.
Proof.
  induction s as [|c s IH]; [done|].
  cbn [span]. destruct (p c) eqn:Hc.
  - destruct (span p s) as [taken rest]. cbn [fst snd] in *.
    destruct IH as (Hs & Hf & Hr). cbn [app forallb].
    by rewrite Hc, Hf, <- Hs.
  - done.
Qed.

Lemma re_match_is_Some text :
  is_Some (re_match text)
  ↔ ∃ c rest, text = 47%N :: c :: rest ∧ is_space c = false.
Proof.
  unfold re_match. split.
  - intros [[cmd name] Hm].
    destruct text as [|c0 text]; [done|].
    destruct (decide (c0 = 47%N)) as [->|Hne].
    + destruct text as [|c text]; [done|]. cbn [span] in Hm.
      destruct (is_space c) eqn:Hc; [done|]. by exists c, text.
    + destruct c0 as [|p]; [done|].
      repeat (destruct p as [p|p|]; try done).
  - intros (c & rest & -> & Hc). cbn [span]. rewrite Hc. cbn [negb].
    destruct (span _ rest) as [taken rest'].
    destruct (span _ (lstrip rest')) as [name ?]. eauto.
Qed.

(** Where [/del] raises: the target is no chat name, its key has been
    popped and nothing else has changed. *)
Lemma cmd_del_raises name conv_names ui e ui' :
  cmd_del name conv_names ui = (Some e, ui') →
  ∃ n, del_target name ui = Some n ∧
       (n ∉ get_chat_names (chat_box ui)) ∧
       e = del_chat_name_error n ∧
       ui' = {| chat_box := chat_box ui;
                conversation_ids := delete n (conversation_ids ui);
                cur_conv_name := cur_conv_name ui;
                trace := trace ui |}.
Proof.
  unfold cmd_del.
  destruct (bool_decide (length conv_names = 1%nat)); [done|].
  destruct (invalid_target (del_target name ui) ui); [done|].
  destruct (del_target name ui) as [n|]; [|done].
  destruct (del_chat_name n (chat_box ui)) as [cb|] eqn:Hdel; [done|].
  intros [= <- <-]. exists n. split_and!; [done| |done..].
  by apply del_chat_name_raises.
Qed.

(** How the call ends for each command. *)
Lemma parse_command_call_ending text cmd name uuid4_hex ui ending ui' :
  re_match text = Some (cmd, name) →
  parse_command_call text uuid4_hex ui = Some (ending, ui') →
  (cmd = py "help" →
     ending = Raised RerunException ∧ ui' = emit modal_open ui) ∧
  (cmd ≠ py "help" → cmd ≠ py "del" → ending = Returned true) ∧
  (cmd = py "del" →
     ending = Returned true ∨
     ∃ n, (n ∉ get_chat_names (chat_box ui)) ∧
          ending = Raised (del_chat_name_error n)).
Proof.
  intros Hm. unfold parse_command_call. rewrite Hm.
  case_bool_decide as Hhelp.
  { intros [= <- <-]. subst cmd. split_and!; [done|done|]. by intros ?. }
  case_bool_decide as Hnew.
  { destruct (cmd_new _ _ _ _) as [ui1|]; [|done].
    cbn [mbind option_bind]. intros [= <- <-]. subst cmd.
    split_and!; [done|done|]. by intros ?. }
  case_bool_decide as Hdel.
  { destruct (cmd_del _ _ _) as [[e|] ui1] eqn:Hcmd; intros [= <- <-].
    - apply cmd_del_raises in Hcmd as (n & _ & Hn & -> & _).
      split_and!; [done|done|]. intros _. right. by exists n.
    - split_and!; [done|done|]. intros _. by left. }
  case_bool_decide as Hclear; intros [= <- <-]; by split_and!.
Qed.

(** X10.  [parse_command] treats a text as a command exactly when it
    starts with a slash followed by a character that is not a space.  Any
    other text (empty, no leading slash, a lone slash, a slash and a
    space) returns [False] and changes nothing, and [False] is returned
    for no command.  For a command the call ends: [help] opens the modal
    and is left by the exception that reruns the script; [del] returns
    [True] or is left by the exception of [del_chat_name], at a name that
    is no chat name; every other command returns [True]. *)
Theorem command_iff_slash_then_non_space text uuid4_hex ui :
  (is_Some (re_match text)
   ↔ ∃ c rest, text = 47%N :: c :: rest ∧ is_space c = false) ∧
  (fst <$> parse_command text uuid4_hex ui = Some false
   ↔ ¬ ∃ c rest, text = 47%N :: c :: rest ∧ is_space c = false) ∧
  ((¬ ∃ c rest, text = 47%N :: c :: rest ∧ is_space c = false) →
   parse_command text uuid4_hex ui = Some (false, ui)) ∧
  (∀ cmd name, re_match text = Some (cmd, name) →
     ∃ ending ui',
       parse_command_call text uuid4_hex ui = Some (ending, ui') ∧
       (cmd = py "help" →
          ending = Raised RerunException ∧ ui' = emit modal_open ui) ∧
       (cmd ≠ py "help" → cmd ≠ py "del" → ending = Returned true) ∧
       (cmd = py "del" →
          ending = Returned true ∨
          ∃ n, (n ∉ get_chat_names (chat_box ui)) ∧
               ending = Raised (del_chat_name_error n))).
Proof.
  split; [apply re_match_is_Some|].
  rewrite <- re_match_is_Some.
  destruct (parse_command_call_ends text uuid4_hex ui) as [[ending ui'] Hrun].
  unfold parse_command. rewrite Hrun.
  destruct (re_match text) as [[cmd name]|] eqn:Hm.
  - destruct (parse_command_call_ending _ _ _ _ _ _ _ Hm Hrun)
      as (Hhelp & Hother & Hdel).
    assert (Hcommand : ending ≠ Returned false).
    { destruct (decide (cmd = py "help")) as [Hc|Hc].
      { by destruct (Hhelp Hc) as [-> _]. }
      destruct (decide (cmd = py "del")) as [Hd|Hd].
      { by destruct (Hdel Hd) as [->|(n & _ & ->)]. }
      by rewrite (Hother Hc Hd). }
    split_and!.
    + split; [|intros []; eauto]. intros Hfalse. exfalso.
      destruct ending as [[|]|e]; done.
    + intros []. eauto.
    + intros cmd' name' [= <- <-]. by exists ending, ui'.
  - revert Hrun. unfold parse_command_call. rewrite Hm. intros [= <- <-].
    split_and!.
    + split; [by intros _ [? ?] | done].
    + done.
    + by intros cmd name.
Qed.

(** X11.  When the pattern matches, the text is the slash, the command,
    a run of spaces, the name and a tail: the command is not empty and
    has no space in it, the name has no line feed and does not start with
    a space, and the tail is empty or starts with a line feed. *)
Theorem matched_text_decomposes text cmd name :
  re_match text = Some (cmd, name) →
  ∃ spaces tail,
    text = 47%N :: (cmd ++ spaces ++ name ++ tail) ∧
    cmd ≠ [] ∧
    forallb (fun c => negb (is_space c)) cmd = true ∧
    forallb is_space spaces = true ∧
    (10%N ∉ name) ∧
    (match name with [] => True | c :: _ => is_space c = false end) ∧
    (match tail with [] => True | c :: _ => c = 10%N end).
Proof.
  unfold re_match. destruct text as [|c0 text]; [done|].
  destruct (decide (c0 = 47%N)) as [->|Hne].
  2: { destruct c0 as [|p]; [done|].
       repeat (destruct p as [p|p|]; try done). }
  pose proof (span_spec (fun c => negb (is_space c)) text)
    as (Htext & Hcmd & Hrest).
  destruct (span _ text) as [cmd' rest]. cbn [fst snd] in *.
  destruct cmd' as [|c cmd']; [done|].
  unfold lstrip.
  pose proof (span_spec is_space rest) as (Hrest' & Hspaces & Hname0).
  destruct (span is_space rest) as [spaces rest']. cbn [fst snd] in *.
  pose proof (span_spec (fun c => negb (c =? 10)%N) rest')
    as (Hrest'' & Hname & Htail).
  destruct (span _ rest') as [name' tail]. cbn [fst snd] in *.
  intros [= <- <-]. exists spaces, tail. split_and!.
  - by rewrite Htext, Hrest', Hrest''.
  - done.
  - done.
  - done.
  - intros Hin. rewrite forallb_forall in Hname.
    apply list_elem_of_In, Hname in Hin. by rewrite N.eqb_refl in Hin.
  - destruct name' as [|c1 name']; [done|].
    subst rest'. by cbn in Hname0.
  - destruct tail as [|c1 tail]; [done|].
    apply negb_false_iff, N.eqb_eq in Htail. done.
Qed.

(** ** /new *)

Lemma forallb_impl {A} (p q : A → bool) l :
  (∀ x, p x = true → q x = true) → forallb p l = true → forallb q l = true.
Proof.
  intros Hpq. induction l as [|x l IH]; [done|]. cbn [forallb].
  rewrite !andb_true_iff. intros [? ?]. split; [by apply Hpq | by apply IH].
Qed.

Lemma lstrip_no_leading_space s :
  match s with [] => True | c :: _ => is_space c = false end →
  lstrip s = s.
Proof.
  unfold lstrip. destruct s as [|c s]; [done|]. intros Hc.
  cbn [span]. by rewrite Hc.
Qed.

Lemma strip_no_space name :
  forallb (fun c => negb (is_space c)) name = true → strip name = name.
Proof.
  intros Hname. unfold strip, rstrip.
  assert (Hhead : ∀ s, forallb (fun c => negb (is_space c)) s = true →
                       lstrip s = s).
  { intros s Hs. apply lstrip_no_leading_space. destruct s as [|c s]; [done|].
    cbn [forallb] in Hs. apply andb_true_iff in Hs as [Hc _].
    by apply negb_true_iff in Hc. }
  rewrite (Hhead name Hname). rewrite Hhead; [by rewrite reverse_involutive|].
  rewrite forallb_forall in *. intros c Hc. apply Hname.
  by rewrite <- list_elem_of_In, <- elem_of_reverse, list_elem_of_In.
Qed.

(** A slash, a command, one blank and a name without spaces match with
    these two groups. *)
Lemma re_match_command_name cmd name :
  cmd ≠ [] → forallb (fun c => negb (is_space c)) cmd = true →
  forallb (fun c => negb (is_space c)) name = true →
  re_match (47%N :: cmd ++ 32%N :: name) = Some (cmd, name).
Proof.
  intros Hne Hcmd Hname. cbn [re_match].
  rewrite span_app by done. destruct cmd as [|c cmd]; [done|].
  replace (lstrip (32%N :: name)) with name.
  2: { unfold lstrip. cbn [span]. change (is_space 32) with true. cbn iota.
       pose proof (span_app is_space [] name eq_refl) as Hs. cbn [app] in Hs.
       rewrite Hs; [done|]. destruct name as [|c1 name]; [done|].
       cbn [forallb] in Hname. apply andb_true_iff in Hname as [Hc1 _].
       by apply negb_true_iff in Hc1. }
  pose proof (span_app (fun c => negb (c =? 10)%N) name []) as Hs.
  rewrite app_nil_r in Hs. rewrite Hs; [done| |done].
  revert Hname. apply forallb_impl. intros x Hx.
  destruct (x =? 10)%N eqn:Heq; [|done].
  apply N.eqb_eq in Heq as ->. done.
Qed.

(** X12.  [/new] followed by one blank and a name without spaces: if the
    name is a key of [conversation_ids], the name-exists error is shown
    and nothing else changes; otherwise the name is registered under the
    new uuid and becomes the current conversation, and the chat box is
    not touched. *)
Theorem new_with_a_name (name uuid4_hex : pystr) ui :
  name ≠ [] →
  forallb (fun c => negb (is_space c)) name = true →
  parse_command (py "/new " ++ name) uuid4_hex ui
  = Some (true,
          if decide (is_Some (conversation_ids ui !! name)) then
            emit (time_sleep 1)
              (emit (st_error (JStr (msg_name_exists name))) ui)
          else
            {| chat_box := chat_box ui;
               conversation_ids := <[name := uuid4_hex]> (conversation_ids ui);
               cur_conv_name := Some name;
               trace := trace ui |}).
Proof.
  intros Hne Hname.
  change (py "/new " ++ name) with (47%N :: py "new" ++ 32%N :: name).
  unfold parse_command, parse_command_call.
  rewrite re_match_command_name by done.
  rewrite strip_no_space by done.
  rewrite bool_decide_eq_false_2 by done.
  rewrite bool_decide_eq_true_2 by done.
  unfold cmd_new, str_truthy. rewrite bool_decide_eq_false_2 by done.
  cbn [negb mbind option_bind]. unfold dict_mem.
  destruct (decide (is_Some (conversation_ids ui !! name))) as [H|H].
  - by rewrite bool_decide_eq_true_2.
  - by rewrite bool_decide_eq_false_2.
Qed.

Lemma first_free_name_Some fuel i conv_names name :
  first_free_name fuel i conv_names = Some name →
  ∃ k, (k < fuel)%nat ∧ name = default_name (i + N.of_nat k) ∧
       (name ∉ conv_names) ∧
       ∀ k', (k' < k)%nat → default_name (i + N.of_nat k') ∈ conv_names.
Proof.
  revert i. induction fuel as [|fuel IH]; intros i Hsome; [done|].
  cbn [first_free_name] in Hsome.
  destruct (bool_decide (default_name i ∈ conv_names)) eqn:Hin.
  - apply bool_decide_eq_true in Hin.
    destruct (IH _ Hsome) as (k & Hk & -> & Hnot & Hbelow).
    exists (S k). split_and!; [lia| |done|].
    + f_equal. lia.
    + intros [|k'] Hk'; [by rewrite N.add_0_r|].
      replace (i + N.of_nat (S k'))%N with (i + 1 + N.of_nat k')%N by lia.
      apply Hbelow. lia.
  - apply bool_decide_eq_false in Hin. injection Hsome as <-.
    exists 0%nat. rewrite N.add_0_r. split_and!; [lia|done|done|].
    intros k' ?. lia.
Qed.

(** X13.  [/new] without a name: the loop of lines 74-78 ends, with the
    first of the names 会话1, 会话2, ... that is not a chat name, after at
    most one more round than there are chat names; that name is then
    handled like a given one. *)
Theorem new_without_a_name (uuid4_hex : pystr) ui :
  let conv_names := get_chat_names (chat_box ui) in
  ∃ i,
    (1 ≤ i ≤ N.of_nat (length conv_names) + 1)%N ∧
    (default_name i ∉ conv_names) ∧
    (∀ j, (1 ≤ j < i)%N → default_name j ∈ conv_names) ∧
    parse_command (py "/new") uuid4_hex ui
    = Some (true,
            if decide (is_Some (conversation_ids ui !! default_name i)) then
              emit (time_sleep 1)
                (emit (st_error (JStr (msg_name_exists (default_name i)))) ui)
            else
              {| chat_box := chat_box ui;
                 conversation_ids :=
                   <[default_name i := uuid4_hex]> (conversation_ids ui);
                 cur_conv_name := Some (default_name i);
                 trace := trace ui |}).
Proof.
  intros conv_names.
  destruct (first_free_name_is_Some (S (length conv_names)) 1%N conv_names)
    as [name Hfree]; [lia|].
  destruct (first_free_name_Some _ _ _ _ Hfree)
    as (k & Hk & -> & Hnot & Hbelow).
  exists (1 + N.of_nat k)%N. split_and!; [lia|lia|done| |].
  - intros j Hj.
    replace j with (1 + N.of_nat (N.to_nat (j - 1)))%N by lia.
    apply Hbelow. lia.
  - unfold parse_command, parse_command_call.
    change (re_match (py "/new")) with (Some (py "new", [] : pystr)).
    cbv beta iota. change (strip []) with ([] : pystr).
    rewrite bool_decide_eq_false_2 by done.
    rewrite bool_decide_eq_true_2 by done.
    unfold cmd_new. change (str_truthy []) with false.
    fold conv_names. rewrite Hfree. cbn [mbind option_bind]. unfold dict_mem.
    destruct (decide (is_Some (conversation_ids ui !! _))) as [H|H].
    + by rewrite bool_decide_eq_true_2.
    + by rewrite bool_decide_eq_false_2.
Qed.

(** ** /del and the other commands *)

(** X14.  A [/del] command with a chat-name count other than one and a
    target that is a non-empty key of [conversation_ids] removes that key
    and no other.  If the target is a chat name, the chat box is what
    [del_chat_name] gives for it, the current conversation name is set to
    the empty string, no error is shown and [True] is returned.  If it is
    no chat name, [del_chat_name] raises after the key has been popped:
    nothing is returned, the chat box and the current conversation name
    are as before.  Without a name in the command the target is the
    current conversation. *)
Theorem del_removes_the_target text raw uuid4_hex ui target id :
  re_match text = Some (py "del", raw) →
  length (get_chat_names (chat_box ui)) ≠ 1%nat →
  del_target (strip raw) ui = Some target →
  target ≠ [] →
  conversation_ids ui !! target = Some id →
  (target ∈ get_chat_names (chat_box ui) →
     ∃ cb, del_chat_name target (chat_box ui) = Some cb ∧
           parse_command text uuid4_hex ui
           = Some (true,
                   {| chat_box := cb;
                      conversation_ids := delete target (conversation_ids ui);
                      cur_conv_name := Some [];
                      trace := trace ui |})) ∧
  (target ∉ get_chat_names (chat_box ui) →
     parse_command_call text uuid4_hex ui
     = Some (Raised (del_chat_name_error target),
             {| chat_box := chat_box ui;
                conversation_ids := delete target (conversation_ids ui);
                cur_conv_name := cur_conv_name ui;
                trace := trace ui |}) ∧
     parse_command text uuid4_hex ui = None) ∧
  delete target (conversation_ids ui) !! target = None ∧
  (∀ other, other ≠ target →
     delete target (conversation_ids ui) !! other
     = conversation_ids ui !! other) ∧
  (strip raw = [] → cur_conv_name ui = Some target).
Proof.
  intros Hm Hlen Htarget Hne Hid.
  assert (Hcall : parse_command_call text uuid4_hex ui
    = match del_chat_name target (chat_box ui) with
      | Some cb =>
          Some (Returned true,
                {| chat_box := cb;
                   conversation_ids := delete target (conversation_ids ui);
                   cur_conv_name := Some [];
                   trace := trace ui |})
      | None =>
          Some (Raised (del_chat_name_error target),
                {| chat_box := chat_box ui;
                   conversation_ids := delete target (conversation_ids ui);
                   cur_conv_name := cur_conv_name ui;
                   trace := trace ui |})
      end).
  { unfold parse_command_call. rewrite Hm.
    rewrite !bool_decide_eq_false_2 by done.
    rewrite bool_decide_eq_true_2 by done.
    unfold cmd_del. rewrite Htarget.
    rewrite bool_decide_eq_false_2 by done.
    unfold invalid_target, str_truthy, dict_mem.
    rewrite bool_decide_eq_false_2 by done.
    rewrite bool_decide_eq_true_2 by eauto. cbn [negb orb].
    by destruct (del_chat_name target (chat_box ui)). }
  split_and!.
  - intros Hin.
    destruct (del_chat_name target (chat_box ui)) as [cb|] eqn:Hdel.
    + exists cb. split; [done|]. by apply parse_command_Returned.
    + by apply del_chat_name_raises in Hdel.
  - intros Hnot. apply del_chat_name_raises in Hnot.
    rewrite Hnot in Hcall. split; [done|].
    unfold parse_command. by rewrite Hcall.
  - apply lookup_delete_eq.
  - intros other Hother. by apply lookup_delete_ne.
  - intros Hraw. unfold del_target in Htarget. by rewrite Hraw in Htarget.
Qed.

(** X15.  Whatever the text, the call of [parse_command] ends, by
    returning or by an exception, and up to then it has changed at most
    one key of [conversation_ids], has given no existing conversation
    another id, and has only added to the calls made: nothing, the
    opening of the help modal, or one error followed by a sleep of one
    second. *)
Theorem parse_command_touches_one_conversation text uuid4_hex ui :
  ∃ ending ui',
    parse_command_call text uuid4_hex ui = Some (ending, ui') ∧
    (∃ k, ∀ k', k' ≠ k →
            conversation_ids ui' !! k' = conversation_ids ui !! k') ∧
    (∀ k id, conversation_ids ui !! k = Some id →
             conversation_ids ui' !! k = Some id ∨
             conversation_ids ui' !! k = None) ∧
    (∃ new, trace ui' = trace ui ++ new ∧
            (new = [] ∨ new = [modal_open] ∨
             ∃ msg, new = [st_error (JStr msg); time_sleep 1])).
Proof.
  assert (Hsame : ∀ ui' : UI,
    conversation_ids ui' = conversation_ids ui →
    (∃ k : pystr, ∀ k', k' ≠ k →
       conversation_ids ui' !! k' = conversation_ids ui !! k') ∧
    (∀ k id, conversation_ids ui !! k = Some id →
             conversation_ids ui' !! k = Some id ∨
             conversation_ids ui' !! k = None)).
  { intros ui' ->. split; [by exists []|]. intros k id ->. by left. }
  assert (Herr : ∀ msg,
    ∃ new, trace (emit (time_sleep 1) (emit (st_error (JStr msg)) ui))
           = trace ui ++ new ∧
           (new = [] ∨ new = [modal_open] ∨
            ∃ msg, new = [st_error (JStr msg); time_sleep 1])).
  { intros msg. exists [st_error (JStr msg); time_sleep 1]. split.
    - cbn [emit trace]. by rewrite <- app_assoc.
    - right. right. by exists msg. }
  assert (Hnone : ∀ ui' : UI, trace ui' = trace ui →
    ∃ new, trace ui' = trace ui ++ new ∧
           (new = [] ∨ new = [modal_open] ∨
            ∃ msg, new = [st_error (JStr msg); time_sleep 1])).
  { intros ui' ->. exists []. rewrite app_nil_r. by split; [|left]. }
  destruct (parse_command_call_ends text uuid4_hex ui) as [[ending ui'] Hrun].
  exists ending, ui'. split; [done|]. revert Hrun. unfold parse_command_call.
  destruct (re_match text) as [[cmd raw]|].
  2: { intros [= <- <-]. destruct (Hsame ui eq_refl). split_and!; auto. }
  repeat case_bool_decide.
  - intros [= <- <-]. destruct (Hsame (emit modal_open ui) eq_refl).
    split_and!; [done..|]. exists [modal_open]. split; [done|]. by right; left.
  - unfold cmd_new.
    destruct (if str_truthy (strip raw) then Some (strip raw)
              else first_free_name _ _ _) as [name|]; [|done].
    cbn [mbind option_bind].
    destruct (dict_mem name (conversation_ids ui)) eqn:Hmem;
      cbn [mbind option_bind]; intros [= <- <-].
    + destruct (Hsame (emit (time_sleep 1)
                         (emit (st_error (JStr (msg_name_exists name))) ui))
                  eq_refl).
      split_and!; auto.
    + apply dict_mem_false in Hmem. cbn [conversation_ids trace].
      split_and!; [| |by apply (Hnone
        {| chat_box := chat_box ui;
           conversation_ids := <[name := uuid4_hex]> (conversation_ids ui);
           cur_conv_name := Some name; trace := trace ui |})].
      * exists name. intros k' Hk'. by rewrite lookup_insert_ne.
      * intros k id Hk. left. rewrite lookup_insert_ne; [done|].
        intros ->. congruence.
  - intros Hrun.
    assert (Hui : ui' = snd (cmd_del (strip raw)
                                (get_chat_names (chat_box ui)) ui)).
    { revert Hrun. by destruct (cmd_del _ _ _) as [[e|] ui1]; intros [= _ <-]. }
    clear Hrun. subst ui'. unfold cmd_del.
    destruct (bool_decide (length _ = 1%nat)); cbn [snd].
    { destruct (Hsame (emit (time_sleep 1)
                         (emit (st_error (JStr msg_last_conversation)) ui))
                  eq_refl).
      split_and!; auto. }
    destruct (invalid_target _ ui); cbn [snd].
    { destruct (Hsame (emit (time_sleep 1)
                         (emit (st_error
                                  (JStr (msg_invalid_name
                                           (del_target (strip raw) ui)))) ui))
                  eq_refl).
      split_and!; auto. }
    destruct (del_target (strip raw) ui) as [n|]; cbn [snd].
    2: { destruct (Hsame ui eq_refl). split_and!; auto. }
    assert (Hpop :
      (∃ k : pystr, ∀ k', k' ≠ k →
         delete n (conversation_ids ui) !! k' = conversation_ids ui !! k') ∧
      (∀ k id, conversation_ids ui !! k = Some id →
         delete n (conversation_ids ui) !! k = Some id ∨
         delete n (conversation_ids ui) !! k = None)).
    { split.
      - exists n. intros k' Hk'. by rewrite lookup_delete_ne.
      - intros k id Hk. destruct (decide (n = k)) as [->|Hne].
        + right. apply lookup_delete_eq.
        + left. by rewrite lookup_delete_ne. }
    destruct Hpop as [Hone Hkeep].
    destruct (del_chat_name n (chat_box ui)) as [cb|];
      cbn [snd conversation_ids trace].
    + split_and!; [done|done|]. by apply (Hnone
        {| chat_box := cb;
           conversation_ids := delete n (conversation_ids ui);
           cur_conv_name := Some []; trace := trace ui |}).
    + split_and!; [done|done|]. by apply (Hnone
        {| chat_box := chat_box ui;
           conversation_ids := delete n (conversation_ids ui);
           cur_conv_name := cur_conv_name ui; trace := trace ui |}).
  - intros [= <- <-]. destruct (Hsame (cmd_clear (strip raw) ui) eq_refl).
    split_and!; [done..|]. by apply Hnone.
  - intros [= <- <-]. destruct (Hsame ui eq_refl). split_and!; auto.
Qed.

(** ** The event loop *)

(** X16.  An exception in the body of the loop ends the loop: the calls
    made are those of the events before and of the failing step, and the
    events after it are not handled.  An event without a [status] key is
    such a step: it raises [KeyError('status')] and makes no call. *)
Theorem loop_ends_at_first_exception
    (status_of : AgentStatus) (before after : list (gmap pystr json))
    (d : gmap pystr json) (l l1 l2 : Locals) (calls1 calls2 : list Action)
    (e : exn) :
  handle_events status_of before l = (l1, calls1, None) →
  handle_event status_of d l1 = (l2, calls2, Some e) →
  handle_events status_of (before ++ d :: after) l
    = (l2, calls1 ++ calls2, Some e) ∧
  (∀ d' l', d' !! py "status" = None →
     handle_event status_of d' l'
     = ({| text := text l';
           message_id := dict_get d' (py "message_id") (JStr []);
           tool_called := tool_called l' |},
        [], Some (KeyError (py "status")))).
Proof.
  intros Hbefore Hd. split.
  - rewrite (handle_events_app _ _ _ _ _ _ Hbefore).
    cbn [handle_events]. by rewrite Hd.
  - intros d' l' Hnone. unfold handle_event. by rewrite Hnone.
Qed.

(** One token event: its status equals [llm_new_token], and neither
    [error] nor [agent_action], which are tested first; its text is a
    string. *)
Lemma handle_token_event
    (status_of : AgentStatus) (d : gmap pystr json) (s : json) (t : pystr)
    (l : Locals) :
  d !! py "status" = Some s →
  py_eq_int s (error status_of) = false →
  py_eq_int s (agent_action status_of) = false →
  py_eq_int s (llm_new_token status_of) = true →
  d !! py "text" = Some (JStr t) →
  handle_event status_of d l
  = ({| text := text l ++ t;
        message_id := dict_get d (py "message_id") (JStr []);
        tool_called := tool_called l |},
     [update_msg_text (text l ++ t) true
        (if tool_called l then -1 else 0)
        (dict_get d (py "message_id") (JStr []))],
     None).
Proof.
  intros Hs He Ha Ht Htext. unfold handle_event.
  rewrite Hs, He, Ha, Ht, Htext. cbn [text tool_called].
  by destruct (tool_called l).
Qed.

(** X17.  A run of token events accumulates their texts: after it the
    text is the text before followed by the tokens in order, the tool flag
    is unchanged, nothing is raised, and the i-th event made one
    streaming [update_msg] call with the text accumulated up to it, at
    element 0 before a tool call and at the last element after one. *)
Theorem tokens_accumulate
    (status_of : AgentStatus) (events : list (gmap pystr json))
    (tokens : list pystr) (l : Locals) :
  Forall2 (fun d t =>
             ∃ s, d !! py "status" = Some s ∧
                  py_eq_int s (error status_of) = false ∧
                  py_eq_int s (agent_action status_of) = false ∧
                  py_eq_int s (llm_new_token status_of) = true ∧
                  d !! py "text" = Some (JStr t))
    events tokens →
  ∃ l' calls,
    handle_events status_of events l = (l', calls, None) ∧
    text l' = text l ++ concat tokens ∧
    tool_called l' = tool_called l ∧
    length calls = length events ∧
    ∀ i d, events !! i = Some d →
      calls !! i
      = Some (update_msg_text (text l ++ concat (take (S i) tokens)) true
                (if tool_called l then -1 else 0)
                (dict_get d (py "message_id") (JStr []))).
Proof.
  intros Hall. revert l.
  induction Hall as [|d t events tokens (s & Hs & He & Ha & Ht & Htext) _ IH];
    intros l.
  - exists l, []. cbn [handle_events concat]. by rewrite app_nil_r.
  - cbn [handle_events].
    rewrite (handle_token_event _ _ _ _ _ Hs He Ha Ht Htext).
    destruct (IH {| text := text l ++ t;
                    message_id := dict_get d (py "message_id") (JStr []);
                    tool_called := tool_called l |})
      as (l' & calls & -> & Htxt & Hflag & Hlen & Hcalls).
    cbn [text tool_called] in *.
    eexists _, _. split_and!; [done| | | |].
    + by rewrite Htxt, <- app_assoc.
    + done.
    + cbn [length app]. by rewrite Hlen.
    + intros [|i] d' Hd'.
      * injection Hd' as <-. cbn [take concat]. by rewrite app_nil_r.
      * cbn [app]. rewrite lookup_cons, (Hcalls i d' Hd').
        cbn [take concat]. by rewrite <- app_assoc.
Qed.

Lemma handle_event_tool_flag
    (status_of : AgentStatus) (d : gmap pystr json) (l : Locals) :
  tool_called l = true →
  tool_called (fst (fst (handle_event status_of d l))) = true ∧
  ∀ t s idx mid,
    update_msg_text t s idx mid ∈ snd (fst (handle_event status_of d l)) →
    idx = -1.
Proof.
  intros Hflag. unfold handle_event. rewrite Hflag. cbn [negb].
  repeat (match goal with
          | |- context [match ?x with _ => _ end] => destruct x
          end; cbn [fst snd tool_called]);
    (split; [done|]); intros t0 s0 idx mid Hin;
    repeat (apply elem_of_cons in Hin as [Hin|Hin]; [by simplify_eq|]);
    by apply elem_of_nil in Hin.
Qed.

(** X18.  Once a tool was called the flag stays set, whatever events
    follow, also when the loop ends with an exception, and every later
    text update goes to the last element, not to element 0. *)
Theorem tool_flag_stays_set
    (status_of : AgentStatus) (events : list (gmap pystr json))
    (l : Locals) :
  tool_called l = true →
  tool_called (fst (fst (handle_events status_of events l))) = true ∧
  ∀ t s idx mid,
    update_msg_text t s idx mid
      ∈ snd (fst (handle_events status_of events l)) →
    idx = -1.
Proof.
  revert l. induction events as [|d events IH]; intros l Hflag.
  - cbn. split; [done|]. by intros t s idx mid ?%elem_of_nil.
  - cbn [handle_events].
    destruct (handle_event_tool_flag status_of d l Hflag) as [Hflag1 Hidx1].
    destruct (handle_event status_of d l) as [[l1 calls1] [e|]];
      cbn [fst snd] in *; [done|].
    destruct (IH l1 Hflag1) as [Hflag2 Hidx2].
    destruct (handle_events status_of events l1) as [[l2 calls2] e2].
    cbn [fst snd] in *. split; [done|].
    intros t s idx mid [Hin|Hin]%elem_of_app; eauto.
Qed.

End DialogueMore.

(** * Properties of the rest of the dialogue page *)

Section DialoguePageFacts.
Import Chat ChatAux DialoguePage.

(** ** The history filter *)

Lemma filter_comm {A} (p q : A → bool) l :
  List.filter p (List.filter q l) = List.filter q (List.filter p l).
Proof.
  induction l as [|x l IH]; [done|]. cbn [List.filter].
  destruct (q x) eqn:Hq, (p x) eqn:Hp; cbn [List.filter];
    rewrite ?Hq, ?Hp, IH; done.
Qed.

Lemma filter_drop {A} (p : A → bool) before x after :
  p x = false →
  List.filter p (before ++ x :: after) = List.filter p (before ++ after).
Proof.
  intros Hx. rewrite !List.filter_app. cbn [List.filter]. by rewrite Hx.
Qed.

(** X19.  The entry built from a chat-box message keeps its role, and
    its content is made of the contents of the markdown and text
    elements only: an element of another kind never changes it, and
    unless the contents of expanders are asked for, neither does an
    element inside an expander.  Leaving expanders out is the same as
    removing their elements first. *)
Theorem history_entry_reads_text_elements
    (content_in_expander : bool) (msg : ChatMessage) :
  role (history_filter content_in_expander msg) = msg_role msg ∧
  history_filter false msg
    = history_filter true
        {| msg_role := msg_role msg;
           msg_elements :=
             List.filter (fun x => negb (in_expander x)) (msg_elements msg) |} ∧
  (∀ before x after,
     msg_elements msg = before ++ x :: after →
     is_text_output x = false ∨
     (content_in_expander = false ∧ in_expander x = true) →
     history_filter content_in_expander msg
     = history_filter content_in_expander
         {| msg_role := msg_role msg; msg_elements := before ++ after |}) ∧
  ((∀ x, x ∈ msg_elements msg → is_text_output x = false) →
   content (history_filter content_in_expander msg) = []).
Proof.
  split_and!.
  - done.
  - unfold history_filter. cbn [negb msg_role msg_elements].
    by rewrite filter_comm.
  - intros before x after Hmsg Hx. unfold history_filter.
    cbn [msg_role msg_elements]. rewrite Hmsg. do 3 f_equal.
    destruct Hx as [Hx|[-> Hx]].
    + by rewrite (filter_drop is_text_output) by done.
    + cbn [negb]. rewrite !(filter_comm (fun x => negb (in_expander x))).
      f_equal. apply filter_drop. by rewrite Hx.
  - intros Hnone. unfold history_filter. cbn [content].
    assert (List.filter is_text_output (msg_elements msg) = []) as ->.
    { induction (msg_elements msg) as [|x l IH]; [done|].
      cbn [List.filter]. rewrite (Hnone x) by by left.
      apply IH. intros y Hy. apply Hnone. by right. }
    by destruct (negb content_in_expander).
Qed.

(** ** Preselected entries *)

Lemma list_index_spec x l :
  x ∈ l →
  ∃ i, list_index x l = Some i ∧ l !! i = Some x ∧
       ∀ j, (j < i)%nat → l !! j ≠ Some x.
Proof.
  induction l as [|y l IH]; intros Hin; [by apply elem_of_nil in Hin|].
  cbn [list_index]. case_bool_decide as Hy.
  - subst y. exists 0%nat. split_and!; [done..|]. intros j ?. lia.
  - apply elem_of_cons in Hin as [->|Hin]; [done|].
    destruct (IH Hin) as (i & -> & Hi & Hfirst).
    exists (S i). split_and!; [done..|].
    intros [|j] Hj; [by intros [= ->]|]. cbn. apply Hfirst. lia.
Qed.

Lemma index_or_zero_spec x l :
  (x ∈ l → l !! index_or_zero x l = Some x ∧
           ∀ j, (j < index_or_zero x l)%nat → l !! j ≠ Some x) ∧
  (x ∉ l → index_or_zero x l = 0%nat) ∧
  (l ≠ [] → (index_or_zero x l < length l)%nat).
Proof.
  unfold index_or_zero. split_and!.
  - intros Hin. rewrite bool_decide_eq_true_2 by done.
    destruct (list_index_spec x l Hin) as (i & -> & ? & ?). done.
  - intros Hnot. by rewrite bool_decide_eq_false_2.
  - intros Hne. case_bool_decide as Hin.
    + destruct (list_index_spec x l Hin) as (i & -> & Hi & _).
      cbn [default]. by apply lookup_lt_Some in Hi.
    + destruct l; [done|]. cbn [length]. lia.
Qed.

(** X20.  The entry preselected in a select box is the current one when
    it is among the options, at its first position (no earlier option is
    that entry), and the first option otherwise; the index is a position
    of the list whenever the list is not empty.  This holds for the model box (the session's model, or the
    default model when none is set) and for the conversation box (where
    an unset name selects the first conversation). *)
Theorem preselected_entry_is_current_or_first
    (cur_llm_model cur_conv_name : option pystr) (default_model : pystr)
    (models conv_names : list pystr) :
  let model := default default_model cur_llm_model in
  (model ∈ models →
     models !! llm_index cur_llm_model default_model models = Some model ∧
     ∀ j, (j < llm_index cur_llm_model default_model models)%nat →
          models !! j ≠ Some model) ∧
  (model ∉ models → llm_index cur_llm_model default_model models = 0%nat) ∧
  (models ≠ [] →
   (llm_index cur_llm_model default_model models < length models)%nat) ∧
  (∀ name, cur_conv_name = Some name → name ∈ conv_names →
     conv_names !! conversation_index cur_conv_name conv_names = Some name ∧
     ∀ j, (j < conversation_index cur_conv_name conv_names)%nat →
          conv_names !! j ≠ Some name) ∧
  ((∀ name, cur_conv_name = Some name → name ∉ conv_names) →
     conversation_index cur_conv_name conv_names = 0%nat) ∧
  (conv_names ≠ [] →
   (conversation_index cur_conv_name conv_names < length conv_names)%nat).
Proof.
  intros model. unfold llm_index. fold model.
  destruct (index_or_zero_spec model models) as (Hin & Hnot & Hlt).
  split_and!; [done|done|done| | |].
  - intros name -> Hname. cbn [conversation_index].
    destruct (index_or_zero_spec name conv_names) as (Hn & _).
    by apply Hn.
  - intros Hnone. destruct cur_conv_name as [name|]; [|done].
    cbn [conversation_index].
    destruct (index_or_zero_spec name conv_names) as (_ & H0 & _).
    apply H0. by apply Hnone.
  - intros Hne. destruct cur_conv_name as [name|].
    + cbn [conversation_index].
      destruct (index_or_zero_spec name conv_names) as (_ & _ & H). auto.
    + cbn [conversation_index]. destruct conv_names; [done|]. cbn. lia.
Qed.

(** ** The model list *)

Lemma add_local_foldl running items acc :
  foldl (add_local running) acc items
  = acc ++ (fst <$> List.filter
              (fun item : pystr * gmap pystr json =>
                 truthy (dict_get (snd item) (py "model_path_exists") JNull)
                 && negb (bool_decide (fst item ∈ running)))
              items).
Proof.
  revert acc. induction items as [|[k v] items IH]; intros acc.
  - by rewrite app_nil_r.
  - cbn [foldl List.filter add_local fst snd]. rewrite IH.
    destruct (_ && _); [|done]. by rewrite <- app_assoc.
Qed.

Lemma add_online_foldl running items acc :
  foldl (add_online running) acc items
  = acc ++ (fst <$> List.filter
              (fun item : pystr * gmap pystr json =>
                 negb (truthy (dict_get (snd item) (py "provider") JNull))
                 && negb (bool_decide (fst item ∈ running)))
              items).
Proof.
  revert acc. induction items as [|[k v] items IH]; intros acc.
  - by rewrite app_nil_r.
  - cbn [foldl List.filter add_online fst snd]. rewrite IH.
    destruct (_ && _); [|done]. by rewrite <- app_assoc.
Qed.

Lemma elem_of_fst_filter (p : pystr * gmap pystr json → bool) items m :
  m ∈ (fst <$> List.filter p items)
  ↔ ∃ v, (m, v) ∈ items ∧ p (m, v) = true.
Proof.
  rewrite list_elem_of_fmap. split.
  - intros ([k v] & -> & Hin). exists v.
    by apply list_elem_of_In, filter_In in Hin as [?%list_elem_of_In ?].
  - intros (v & Hin & Hp). exists (m, v). split; [done|].
    apply list_elem_of_In, filter_In. by split; [apply list_elem_of_In|].
Qed.

(** X21.  The model box lists the running models first, then the
    available ones.  A model is available exactly when it is not running
    and is either a local model whose path exists (not in lite mode) or
    an online model without a provider; so no available model is a
    running one, and lite mode offers no local model. *)
Theorem offered_models
    (is_lite : bool) (running : list pystr) (config_models : ConfigModels)
    (m : pystr) :
  let available := available_models is_lite running config_models in
  llm_models is_lite running config_models = running ++ available ∧
  (m ∈ available
   ↔ (m ∉ running) ∧
     ((is_lite = false ∧
       ∃ v, (m, v) ∈ local_models config_models ∧
            truthy (dict_get v (py "model_path_exists") JNull) = true) ∨
      (∃ v, (m, v) ∈ online_models config_models ∧
            truthy (dict_get v (py "provider") JNull) = false))).
Proof.
  split; [done|]. unfold available_models.
  rewrite add_online_foldl, elem_of_app, elem_of_fst_filter.
  cbn [fst snd].
  assert (Honline :
    (∃ v, (m, v) ∈ online_models config_models ∧
          negb (truthy (dict_get v (py "provider") JNull))
          && negb (bool_decide (m ∈ running)) = true)
    ↔ (m ∉ running) ∧
      ∃ v, (m, v) ∈ online_models config_models ∧
           truthy (dict_get v (py "provider") JNull) = false).
  { split.
    - intros (v & Hin & [Hp Hr%negb_true_iff%bool_decide_eq_false]%andb_true_iff).
      apply negb_true_iff in Hp. eauto.
    - intros (Hr & v & Hin & Hp). exists v. split; [done|].
      rewrite Hp. by rewrite bool_decide_eq_false_2. }
  rewrite Honline. destruct is_lite; cbn [negb].
  - rewrite elem_of_nil. split.
    + intros [[]|[? ?]]. split; [done|]. by right.
    + intros [? [[? _]|?]]; [done|]. by right.
  - rewrite add_local_foldl, app_nil_l, elem_of_fst_filter. cbn [fst snd].
    split.
    + intros [(v & Hin & [Hp Hr%negb_true_iff%bool_decide_eq_false]%andb_true_iff)
             |[? ?]].
      * split; [done|]. left. eauto.
      * split; [done|]. by right.
    + intros [Hr [[_ (v & Hin & Hp)]|?]].
      * left. exists v. split; [done|]. rewrite Hp.
        by rewrite bool_decide_eq_false_2.
      * by right.
Qed.

(** ** The request *)

Lemma role_entry_shape support key models entry ok :
  role_entry support key models = Done (entry, ok) →
  entry = [] ∨ ∃ item, item ∈ models ∧ entry = [item].
Proof.
  unfold role_entry. repeat case_bool_decide.
  - intros [= <- <-]. by left.
  - destruct models as [|[first_key params] more]; [done|].
    case_bool_decide; intros [= <- <-]; [|by left].
    right. eexists. split; [by left|done].
  - destruct models as [|first more]; intros [= <- <-]; [by left|].
    right. eexists. split; [by left|done].
Qed.

Lemma copy_first_models_shape support config entries tool_use :
  copy_first_models support config = Done (entries, tool_use) →
  Forall2 entry_from entries config.
Proof.
  revert entries tool_use.
  induction config as [|[key models] config IH]; intros entries tool_use.
  - intros [= <- <-]. constructor.
  - cbn [copy_first_models].
    destruct (role_entry support key models) as [[entry ok]|] eqn:Hrole;
      [|done].
    cbn [mbind page_bind].
    destruct (copy_first_models support config) as [[entries' ok']|];
      [|done].
    cbn [mbind page_bind]. intros [= <- <-].
    constructor; [|by eapply IH].
    split; [done|]. by eapply role_entry_shape.
Qed.

Lemma assoc_item_Done {V} (d : list (pystr * V)) k v :
  assoc_item d k = Done v → (k, v) ∈ d.
Proof.
  induction d as [|[k' v'] d IH]; [done|]. cbn [assoc_item].
  case_bool_decide as Hk.
  - intros [= ->]. subst k'. by left.
  - intros ?%IH. by right.
Qed.

Lemma set_entry_shape name params entries config :
  Forall2 entry_from entries config →
  Forall (fun c : pystr * list (pystr * Params) =>
            fst c = py "llm_model" → (name, params) ∈ snd c) config →
  Forall2 entry_from
    ((fun entry : pystr * list (pystr * Params) =>
        if bool_decide (fst entry = py "llm_model")
        then (fst entry, [(name, params)]) else entry) <$> entries)
    config.
Proof.
  intros Hshape. induction Hshape as [|e c entries config [He Hsnd] _ IH];
    intros Hall; [constructor|].
  apply Forall_cons in Hall as [Hc Hall].
  cbn [fmap list_fmap]. constructor; [|by apply IH].
  case_bool_decide as Hk; [|done]. split; [done|]. cbn [fst snd].
  right. exists (name, params). split; [|done]. apply Hc. by rewrite <- He.
Qed.

Lemma NoDup_fst_unique {A B} (l : list (A * B)) x y1 y2 :
  NoDup (fst <$> l) → (x, y1) ∈ l → (x, y2) ∈ l → y1 = y2.
Proof.
  induction l as [|[k v] l IH]; intros Hdup H1 H2;
    [by apply elem_of_nil in H1|].
  cbn [fmap list_fmap fst] in Hdup. apply NoDup_cons in Hdup as [Hk Hdup].
  apply elem_of_cons in H1 as [H1|H1]; apply elem_of_cons in H2 as [H2|H2].
  - congruence.
  - injection H1 as -> ->. exfalso. apply Hk.
    apply list_elem_of_fmap. by exists (k, y2).
  - injection H2 as -> ->. exfalso. apply Hk.
    apply list_elem_of_fmap. by exists (k, y1).
  - by apply IH.
Qed.

Lemma build_request_shape support config tools checked llm_model req :
  NoDup (fst <$> config) →
  build_request support config tools checked llm_model = Done req →
  Forall2 entry_from (req_model_config req) config.
Proof.
  intros Hdup. unfold build_request.
  destruct (copy_first_models support config) as [[entries tool_use]|]
    eqn:Hcopy; [|done].
  apply copy_first_models_shape in Hcopy. cbn [mbind page_bind].
  destruct (selected_tool_configs tool_use tools checked); [|done].
  cbn [mbind page_bind]. unfold set_llm_model.
  destruct llm_model as [name|]; [|by intros [= <-]].
  destruct (assoc_item config (py "llm_model")) as [models|] eqn:Hmodels;
    [|done].
  cbn [mbind page_bind].
  destruct (assoc_item models name) as [params|] eqn:Hparams; [|done].
  cbn [mbind page_bind]. intros [= <-]. cbn [req_model_config].
  apply set_entry_shape; [done|].
  apply assoc_item_Done in Hmodels, Hparams.
  apply Forall_forall. intros [k models'] Hin Hk. cbn [fst snd] in *.
  subst k. by rewrite (NoDup_fst_unique _ _ _ _ Hdup Hin Hmodels).
Qed.

Lemma elem_of_visit_order (config : Configs) role item :
  (role, item) ∈ visit_order config
  ↔ ∃ models, (role, models) ∈ config ∧ item ∈ models.
Proof.
  unfold visit_order. rewrite list_elem_of_bind. split.
  - intros ([k models] & Hin & Hc). cbn [fst snd] in Hin.
    apply list_elem_of_fmap in Hin as (item' & [= -> ->] & Hitem). eauto.
  - intros (models & Hc & Hitem). exists (role, models). split; [|done].
    cbn [fst snd]. apply list_elem_of_fmap. eauto.
Qed.

Lemma entries_shape (entries config : Configs) :
  Forall2 entry_from entries config →
  NoDup (fst <$> config) →
  fst <$> entries = fst <$> config ∧
  Forall (fun e => (length (snd e) ≤ 1)%nat) entries ∧
  NoDup (fst <$> visit_order entries) ∧
  ∀ role name params,
    (role, (name, params)) ∈ visit_order entries →
    ∃ models, (role, models) ∈ config ∧ (name, params) ∈ models.
Proof.
  intros Hshape Hdup.
  induction Hshape as [|e c entries config [He Hsnd] Hshape IH].
  - split_and!; [done|constructor|constructor|].
    intros role name params Hin. by apply elem_of_nil in Hin.
  - cbn [fmap list_fmap] in Hdup. apply NoDup_cons in Hdup as [Hnew Hdup].
    destruct (IH Hdup) as (Hroles & Hlen & Hnodup & Hfrom).
    split_and!.
    + cbn [fmap list_fmap]. by rewrite He, Hroles.
    + constructor; [|done].
      destruct Hsnd as [->|(item & _ & ->)]; cbn; lia.
    + unfold visit_order. rewrite bind_cons, fmap_app. fold (visit_order entries).
      apply NoDup_app. split_and!; [|intros role Hin1 Hin2|done].
      * destruct Hsnd as [->|(item & _ & ->)]; cbn; [constructor|].
        apply NoDup_singleton.
      * apply Hnew. rewrite <- Hroles.
        apply list_elem_of_fmap in Hin1 as ([r item] & -> & Hin1).
        apply list_elem_of_fmap in Hin1 as (item' & [= -> ->] & _).
        apply list_elem_of_fmap in Hin2 as ([r item2] & Hr & Hin2).
        cbn [fst] in Hr. rewrite He in Hr. subst r.
        apply elem_of_visit_order in Hin2 as (models & Hin2 & _).
        apply list_elem_of_fmap. by exists (fst c, models).
    + intros role name params Hin.
      apply elem_of_visit_order in Hin as (models & Hin & Hitem).
      apply elem_of_cons in Hin as [Heq|Hin].
      * destruct e as [k ms]. injection Heq as <- <-. cbn [fst snd] in *.
        destruct Hsnd as [->|(item & Hitem' & ->)];
          [by apply elem_of_nil in Hitem|].
        apply list_elem_of_singleton in Hitem as ->.
        exists (snd c). split; [|done]. rewrite He.
        destruct c. by left.
      * destruct (Hfrom role name params) as (models' & ? & ?).
        { apply elem_of_visit_order. eauto. }
        exists models'. split; [by right|done].
Qed.

(** X22.  The [model_config] sent to the endpoint has the roles of
    [LLM_MODEL_CONFIG], in the same order, each with at most one model,
    and every model in it is one that [LLM_MODEL_CONFIG] lists under that
    role, with the params it has there. *)
Theorem request_has_one_model_per_role
    (SUPPORT_AGENT_MODELS : list pystr) (LLM_MODEL_CONFIG : Configs)
    (TOOL_CONFIG : list (pystr * gmap pystr json)) (checked : pystr → bool)
    (llm_model : option pystr) (req : Request) :
  NoDup (fst <$> LLM_MODEL_CONFIG) →
  build_request SUPPORT_AGENT_MODELS LLM_MODEL_CONFIG TOOL_CONFIG checked
    llm_model = Done req →
  fst <$> req_model_config req = fst <$> LLM_MODEL_CONFIG ∧
  Forall (fun e => (length (snd e) ≤ 1)%nat) (req_model_config req) ∧
  NoDup (fst <$> visit_order (req_model_config req)) ∧
  ∀ role name params,
    (role, (name, params)) ∈ visit_order (req_model_config req) →
    ∃ models, (role, models) ∈ LLM_MODEL_CONFIG ∧ (name, params) ∈ models.
Proof.
  intros Hdup Hreq. apply entries_shape; [|done].
  by eapply build_request_shape.
Qed.

Lemma role_entry_ok support key models entry ok :
  role_entry support key models = Done (entry, ok) →
  (ok = true
   ↔ ∀ first_key params more,
       key = py "action_model" → models = (first_key, params) :: more →
       first_key ∈ support).
Proof.
  unfold role_entry. case_bool_decide as Hllm.
  { intros [= <- <-]. split; [|done]. intros _ ? ? ? ->. done. }
  case_bool_decide as Hact.
  - destruct models as [|[first_key params] more]; [done|].
    case_bool_decide as Hsup; intros [= <- <-].
    + split; [|done]. by intros _ ? ? ? _ [= <- _ _].
    + split; [done|]. intros H. exfalso. by eapply Hsup, H.
  - destruct models; intros [= <- <-]; (split; [|done]); by intros _ ? ? ? ?.
Qed.

Lemma copy_first_models_tool_use support config entries tool_use :
  copy_first_models support config = Done (entries, tool_use) →
  (tool_use = true ↔ tools_usable support config).
Proof.
  unfold tools_usable. revert entries tool_use.
  induction config as [|[key models] config IH]; intros entries tool_use.
  - intros [= <- <-]. split; [|done]. by intros _ ? ? ? ?%elem_of_nil.
  - cbn [copy_first_models].
    destruct (role_entry support key models) as [[entry ok]|] eqn:Hrole;
      [|done].
    cbn [mbind page_bind].
    destruct (copy_first_models support config) as [[entries' ok']|] eqn:Hc;
      [|done].
    cbn [mbind page_bind]. intros [= <- <-].
    apply role_entry_ok in Hrole. specialize (IH _ _ eq_refl).
    rewrite andb_true_iff, Hrole, IH. split.
    + intros [H1 H2] fk p more Hin.
      apply elem_of_cons in Hin as [Heq|Hin]; [|by eapply H2].
      injection Heq as <- <-. by eapply H1.
    + intros H. split.
      * intros fk p more -> ->. eapply H. by left.
      * intros fk p more Hin. eapply H. by right.
Qed.

Lemma copy_first_models_is_Done support config :
  is_Done (copy_first_models support config)
  ↔ ∀ models, (py "action_model", models) ∈ config → models ≠ [].
Proof.
  induction config as [|[key models] config IH].
  - split; [by intros _ ? ?%elem_of_nil | intros _; by eexists].
  - cbn [copy_first_models].
    assert (Hrole : is_Done (role_entry support key models)
                    ↔ (key = py "action_model" → models ≠ [])).
    { unfold role_entry. case_bool_decide as Hllm.
      - split; [|intros _; by eexists]. intros _ ->. done.
      - case_bool_decide as Hact.
        + destruct models as [|[fk p] more].
          * split; [by intros [? ?] | by intros H; destruct (H Hact)].
          * split; [done|]. intros _. case_bool_decide; by eexists.
        + split; [done|]. intros _. destruct models; by eexists. }
    split.
    + intros [[entries tool_use] Hd] models' Hin.
      destruct (role_entry support key models) as [[entry ok]|] eqn:Hr;
        [|done].
      cbn [mbind page_bind] in Hd.
      destruct (copy_first_models support config) as [[entries' ok']|] eqn:Hc;
        [|done].
      apply elem_of_cons in Hin as [[= <- <-]|Hin].
      * apply Hrole; [by eexists | done].
      * apply IH; [by eexists | done].
    + intros H.
      destruct (proj2 Hrole) as [[entry ok] ->].
      { intros ->. apply H. by left. }
      cbn [mbind page_bind].
      destruct (proj2 IH) as [[entries' ok'] ->].
      { intros models' Hin. apply H. by right. }
      by eexists.
Qed.

Lemma add_tool_foldl_Failed checked items e :
  foldl (add_tool checked) (Failed e) items = Failed e.
Proof.
  induction items as [|[tool config] items IH]; [done|]. cbn [foldl add_tool].
  cbn [mbind page_bind]. apply IH.
Qed.

Lemma add_tool_foldl (checked : pystr → bool)
    (items : list (pystr * gmap pystr json)) (acc sel : gmap pystr json) :
  foldl (add_tool checked) (Done acc) items = Done sel →
  (∀ tool config, (tool, config) ∈ items → is_Some (config !! py "use")) ∧
  (∀ tool v, sel !! tool = Some v →
     acc !! tool = Some v ∨
     (checked tool = true ∧ ∃ config, (tool, config) ∈ items ∧
                                       v = JObj config)) ∧
  (∀ tool, is_Some (acc !! tool) ∨
           (checked tool = true ∧ ∃ config, (tool, config) ∈ items) →
           is_Some (sel !! tool)).
Proof.
  revert acc. induction items as [|[tool config] items IH]; intros acc.
  - intros [= <-]. split_and!.
    + by intros ? ? ?%elem_of_nil.
    + intros ? ? ?. by left.
    + intros ? [?|[_ [? ?%elem_of_nil]]]; done.
  - cbn [foldl add_tool]. cbn [mbind page_bind].
    destruct (config !! py "use") as [use|] eqn:Huse;
      cbn [mbind page_bind]; [|by rewrite add_tool_foldl_Failed].
    destruct (checked tool) eqn:Hchecked; intros Hfold;
      destruct (IH _ Hfold) as (Huses & Hfrom & Hall); split_and!.
    + intros t c [[= -> ->]|Hin]%elem_of_cons; [by rewrite Huse|eauto].
    + intros t v Hv. destruct (Hfrom t v Hv) as [Hacc|(? & c & ? & ?)].
      * destruct (decide (tool = t)) as [->|Hne].
        -- rewrite lookup_insert_eq in Hacc. injection Hacc as <-.
           right. split; [done|]. exists config. split; [by left|done].
        -- rewrite lookup_insert_ne in Hacc by done. by left.
      * right. split; [done|]. exists c. split; [by right|done].
    + intros t [Hacc|[Hc (c & [[= -> ->]|Hin]%elem_of_cons)]]; apply Hall.
      * left. destruct (decide (tool = t)) as [->|Hne].
        -- rewrite lookup_insert_eq. eauto.
        -- by rewrite lookup_insert_ne.
      * left. rewrite lookup_insert_eq. eauto.
      * right. eauto.
    + intros t c [[= -> ->]|Hin]%elem_of_cons; [by rewrite Huse|eauto].
    + intros t v Hv. destruct (Hfrom t v Hv) as [Hacc|(? & c & ? & ?)].
      * by left.
      * right. split; [done|]. exists c. split; [by right|done].
    + intros t [Hacc|[Hc (c & [[= -> ->]|Hin]%elem_of_cons)]]; apply Hall.
      * by left.
      * congruence.
      * right. eauto.
Qed.

(** X24.  The [tool_config] sent to the endpoint holds exactly the tools
    of [TOOL_CONFIG] whose box is checked, each with its configuration,
    and only when the tools were not disabled; building it reads the
    [use] entry of every tool. *)
Theorem tool_config_holds_the_checked_tools
    (SUPPORT_AGENT_MODELS : list pystr) (LLM_MODEL_CONFIG : Configs)
    (TOOL_CONFIG : list (pystr * gmap pystr json)) (checked : pystr → bool)
    (llm_model : option pystr) (req : Request) :
  build_request SUPPORT_AGENT_MODELS LLM_MODEL_CONFIG TOOL_CONFIG checked
    llm_model = Done req →
  (∀ tool v, req_tool_config req !! tool = Some v →
     req_warned req = false ∧ checked tool = true ∧
     ∃ config, (tool, config) ∈ TOOL_CONFIG ∧ v = JObj config) ∧
  (req_warned req = false →
   ∀ tool config, (tool, config) ∈ TOOL_CONFIG →
     is_Some (config !! py "use") ∧
     (checked tool = true → is_Some (req_tool_config req !! tool))) ∧
  (req_warned req = true → req_tool_config req = ∅).
Proof.
  unfold build_request.
  destruct (copy_first_models _ _) as [[entries tool_use]|]; [|done].
  cbn [mbind page_bind].
  destruct (selected_tool_configs tool_use TOOL_CONFIG checked)
    as [selected|] eqn:Hsel; [|done].
  cbn [mbind page_bind].
  destruct (set_llm_model _ _ _) as [entries'|]; [|done].
  cbn [mbind page_bind]. intros [= <-]. cbn [req_tool_config req_warned].
  unfold selected_tool_configs in Hsel. destruct tool_use; cbn [negb].
  - destruct (add_tool_foldl _ _ _ _ Hsel) as (Huses & Hfrom & Hall).
    split_and!; [| |done].
    + intros tool v Hv. destruct (Hfrom tool v Hv) as [Hacc|[? ?]]; [done|].
      by split_and!.
    + intros _ tool config Hin. split; [eauto|]. intros Hc. apply Hall.
      right. eauto.
  - injection Hsel as <-. split_and!; [|done|done].
    intros tool v Hv. by rewrite lookup_empty in Hv.
Qed.

Lemma assoc_item_is_Done {V} (d : list (pystr * V)) k :
  is_Done (assoc_item d k) ↔ k ∈ (fst <$> d).
Proof.
  induction d as [|[k' v] d IH].
  - split; [by intros [? ?] | by intros ?%elem_of_nil].
  - cbn [assoc_item fmap list_fmap fst]. rewrite elem_of_cons.
    case_bool_decide as Hk.
    + split; [by left | intros _; by eexists].
    + rewrite IH. split; [by right | by intros [?|?]].
Qed.

Lemma selected_tool_configs_is_Done (tool_use : bool)
    (tools : list (pystr * gmap pystr json)) (checked : pystr → bool) :
  is_Done (selected_tool_configs tool_use tools checked)
  ↔ (tool_use = true →
     ∀ tool config, (tool, config) ∈ tools → is_Some (config !! py "use")).
Proof.
  unfold selected_tool_configs. destruct tool_use.
  2: { split; [done | intros _; by eexists]. }
  generalize (∅ : gmap pystr json) as acc.
  induction tools as [|[tool config] tools IH]; intros acc.
  - split; [by intros _ _ ? ? ?%elem_of_nil | intros _; by eexists].
  - cbn [foldl add_tool]. cbn [mbind page_bind].
    destruct (config !! py "use") as [use|] eqn:Huse; cbn [mbind page_bind].
    + assert (Hstep : ∀ acc', is_Done (foldl (add_tool checked) (Done acc')
                                         tools)
                → true = true → ∀ t c, (t, c) ∈ (tool, config) :: tools →
                  is_Some (c !! py "use")).
      { intros acc' Hd _ t c Hin.
        apply elem_of_cons in Hin as [Heq|Hin].
        - injection Heq as -> ->. by rewrite Huse.
        - by eapply (proj1 (IH acc')). }
      split.
      * destruct (checked tool); apply Hstep.
      * intros H. destruct (checked tool); apply IH; intros _ t c Hin;
          apply (H eq_refl t c); by right.
    + rewrite add_tool_foldl_Failed. split; [by intros [? ?]|].
      intros H. destruct (H eq_refl tool config) as [? Hsome]; [by left|].
      congruence.
Qed.

(** X25.  Building the request fails in three ways only:
    [StopIteration] when the role [action_model] lists no model,
    [KeyError] when the tools are in use and a tool has no [use] entry,
    and [KeyError] when a model is selected that [LLM_MODEL_CONFIG] does
    not list under [llm_model].  In every other case a request is
    built. *)
Theorem build_request_succeeds_iff
    (SUPPORT_AGENT_MODELS : list pystr) (LLM_MODEL_CONFIG : Configs)
    (TOOL_CONFIG : list (pystr * gmap pystr json)) (checked : pystr → bool)
    (llm_model : option pystr) :
  NoDup (fst <$> LLM_MODEL_CONFIG) →
  is_Done (build_request SUPPORT_AGENT_MODELS LLM_MODEL_CONFIG TOOL_CONFIG
             checked llm_model)
  ↔ (∀ models, (py "action_model", models) ∈ LLM_MODEL_CONFIG →
               models ≠ []) ∧
    (tools_usable SUPPORT_AGENT_MODELS LLM_MODEL_CONFIG →
     ∀ tool config, (tool, config) ∈ TOOL_CONFIG →
       is_Some (config !! py "use")) ∧
    (∀ name, llm_model = Some name →
       ∃ models, (py "llm_model", models) ∈ LLM_MODEL_CONFIG ∧
                 name ∈ (fst <$> models)).
Proof.
  intros Hdup. unfold build_request.
  rewrite <- (copy_first_models_is_Done SUPPORT_AGENT_MODELS).
  destruct (copy_first_models _ _) as [[entries tool_use]|] eqn:Hcopy.
  2: { split; [by intros [? ?] | by intros [[? ?] _]]. }
  apply copy_first_models_tool_use in Hcopy. rewrite <- Hcopy.
  cbn [mbind page_bind].
  rewrite <- (selected_tool_configs_is_Done tool_use TOOL_CONFIG checked).
  destruct (selected_tool_configs tool_use TOOL_CONFIG checked) as [sel|].
  2: { split; [by intros [? ?] | by intros (_ & [? ?] & _)]. }
  cbn [mbind page_bind]. unfold set_llm_model.
  destruct llm_model as [name|].
  2: { split; [|intros _; by eexists]. intros _.
       split_and!; [by eexists..|done]. }
  destruct (assoc_item LLM_MODEL_CONFIG (py "llm_model")) as [models|]
    eqn:Hmodels; cbn [mbind page_bind].
  - pose proof (assoc_item_Done _ _ _ Hmodels) as Hin.
    destruct (assoc_item models name) as [params|] eqn:Hparams;
      cbn [mbind page_bind].
    + split; [|intros _; by eexists]. intros _.
      split_and!; [by eexists..|]. intros ? [= <-]. exists models.
      split; [done|]. apply assoc_item_is_Done. rewrite Hparams. by eexists.
    + split; [by intros [? ?]|]. intros (_ & _ & H).
      destruct (H name eq_refl) as (models' & Hin' & Hname).
      rewrite (NoDup_fst_unique _ _ _ _ Hdup Hin' Hin) in Hname.
      apply assoc_item_is_Done in Hname as [? ?]. congruence.
  - split; [by intros [? ?]|]. intros (_ & _ & H).
    destruct (H name eq_refl) as (models' & Hin' & _).
    assert (is_Done (assoc_item LLM_MODEL_CONFIG (py "llm_model")))
      as [? ?]; [|congruence].
    apply assoc_item_is_Done, list_elem_of_fmap. by exists (py "llm_model", models').
Qed.

(** ** The page and the endpoint together *)

Section WithServer.
Context {env : ServerEnv}.

(** X23.  If the first model under [action_model] is not one of
    [SUPPORT_AGENT_MODELS], the page shows the warning and sends an empty
    [tool_config]; for such a request the endpoint selects no tool and
    builds the plain LLM chain, never an agent, whatever boxes are
    checked. *)
Theorem unsupported_action_model_means_no_agent
    (SUPPORT_AGENT_MODELS : list pystr) (LLM_MODEL_CONFIG : Configs)
    (TOOL_CONFIG : list (pystr * gmap pystr json)) (checked : pystr → bool)
    (llm_model : option pystr) (req : Request)
    (first_key : pystr) (params : Params) (more : list (pystr * Params)) :
  (py "action_model", (first_key, params) :: more) ∈ LLM_MODEL_CONFIG →
  first_key ∉ SUPPORT_AGENT_MODELS →
  build_request SUPPORT_AGENT_MODELS LLM_MODEL_CONFIG TOOL_CONFIG checked
    llm_model = Done req →
  req_warned req = true ∧
  req_tool_config req = ∅ ∧
  ∀ (metadata : json) (conversation_id : pystr) (history_len : Z)
    (history : HistoryArg) (stream : bool) (container : Container)
    (full_chain : FullChain Model Tool MsgTemplate Handler),
    snd (build_full_chain metadata conversation_id history_len history
           stream (req_model_config req) (req_tool_config req) container)
      = Ok full_chain →
    ∃ chain, full_chain = input_to_chain chain.
Proof.
  intros Hin Hnot Hreq.
  assert (Hwarned : req_warned req = true).
  { revert Hreq. unfold build_request.
    destruct (copy_first_models _ _) as [[entries tool_use]|] eqn:Hcopy;
      [|done].
    apply copy_first_models_tool_use in Hcopy. cbn [mbind page_bind].
    destruct (selected_tool_configs _ _ _); [|done]. cbn [mbind page_bind].
    destruct (set_llm_model _ _ _); [|done]. cbn [mbind page_bind].
    intros [= <-]. cbn [req_warned]. destruct tool_use; [|done].
    exfalso. apply Hnot. by eapply (proj1 Hcopy eq_refl). }
  assert (Hempty : req_tool_config req = ∅).
  { revert Hreq Hwarned. unfold build_request.
    destruct (copy_first_models _ _) as [[entries tool_use]|]; [|done].
    cbn [mbind page_bind]. unfold selected_tool_configs.
    destruct tool_use; cbn [mbind page_bind].
    - destruct (foldl _ _ _); [|done]. cbn [mbind page_bind].
      destruct (set_llm_model _ _ _); [|done]. cbn [mbind page_bind].
      by intros [= <-].
    - destruct (set_llm_model _ _ _); [|done]. cbn [mbind page_bind].
      by intros [= <-]. }
  split_and!; [done..|].
  intros metadata conversation_id history_len history stream container
    full_chain Hok.
  rewrite Hempty in Hok.
  apply no_tool_selected_plain_chain in Hok as (cp & llm & _ & ->).
  - eauto.
  - apply select_tools_none. intros tool _. apply lookup_empty.
Qed.

(** X26.  For a request the page built, the endpoint keeps under each
    role the one model the page put there, built from the name and the
    params that [LLM_MODEL_CONFIG] has for it; its [callbacks] are the
    empty list [chat] passes, or [None]. *)
Theorem endpoint_builds_the_models_of_the_page
    (SUPPORT_AGENT_MODELS : list pystr) (LLM_MODEL_CONFIG : Configs)
    (TOOL_CONFIG : list (pystr * gmap pystr json)) (checked : pystr → bool)
    (llm_model : option pystr) (req : Request) (stream : bool)
    (role name : pystr) (params : Params) :
  NoDup (fst <$> LLM_MODEL_CONFIG) →
  build_request SUPPORT_AGENT_MODELS LLM_MODEL_CONFIG TOOL_CONFIG checked
    llm_model = Done req →
  (role, (name, params)) ∈ visit_order (req_model_config req) →
  (∃ models, (role, models) ∈ LLM_MODEL_CONFIG ∧ (name, params) ∈ models) ∧
  ∃ callbacks,
    (callbacks = Some [] ∨ callbacks = None) ∧
    fst (create_models_from_config (Some (req_model_config req)) (Some [])
           stream) !! role
    = Some (get_ChatOpenAI (kwargs_of name params callbacks stream)) ∧
    snd (create_models_from_config (Some (req_model_config req)) (Some [])
           stream) !! role
    = Some (get_prompt_template role
              (dict_get params (py "prompt_name") (JStr (py "default")))).
Proof.
  intros Hdup Hreq Hin.
  pose proof (build_request_shape _ _ _ _ _ _ Hdup Hreq) as Hshape.
  destruct (entries_shape _ _ Hshape Hdup) as (_ & _ & Hnodup & Hfrom).
  split; [by apply Hfrom|].
  apply list_elem_of_split in Hin as (before & after & Horder).
  assert (Hlast : role ∉ (fst <$> after)).
  { rewrite Horder, fmap_app in Hnodup. cbn [fmap list_fmap fst] in Hnodup.
    apply NoDup_app in Hnodup as (_ & _ & Hnodup).
    by apply NoDup_cons in Hnodup as [? _]. }
  unfold create_models_from_config. cbn [fst snd].
  rewrite run_loops_visit_order, Horder.
  destruct (kept_model_from stream
              {| ls_callbacks := Some []; ls_models := ∅; ls_prompts := ∅;
                 ls_calls := [] |} before role name params after Hlast)
    as [Hmodel Hprompt].
  eexists. split; [|split; [exact Hmodel | exact Hprompt]].
  cbn [ls_callbacks]. destruct (forallb _ _); [by left | by right].
Qed.

End WithServer.

End DialoguePageFacts.

(** * The further theorems at concrete inputs *)

Section MoreInstances.
Import Chat ChatAux Dialogue DialoguePage.

Lemma last_model_of_a_role_is_kept_witness :
  fst (@create_models_from_config Sample.env (Some Sample.model_config)
         (Some []) true) !! py "llm_model"
  = Some (kwargs_of (py "chatglm3-6b") {[ py "callbacks" := JBool true ]}
            None true).
Proof.
  pose proof (@last_model_of_a_role_is_kept Sample.env Sample.model_config
                (Some []) true
                [(py "preprocess_model", (py "chatglm3-6b", ∅))]
                (py "llm_model") (py "chatglm3-6b")
                {[ py "callbacks" := JBool true ]}
                [(py "action_model",
                  (py "Qwen-14B-Chat", {[ py "callbacks" := JBool true ]}))]
                eq_refl) as H.
  destruct H as [Hmodel _].
  - apply (bool_decide_eq_false_1 (_ ∈ _)). by vm_compute.
  - exact Hmodel.
Defined.

Lemma each_call_passes_threaded_callbacks_witness :
  ∃ role name params,
    visit_order Sample.model_config !! 2%nat = Some (role, (name, params)) ∧
    kwargs_of (py "Qwen-14B-Chat") {[ py "callbacks" := JBool true ]}
      (None : option (list (@Handler Sample.env))) true
    = kwargs_of name params
        (if forallb (fun e => wants_callbacks (snd (snd e)))
              (take 3 (visit_order Sample.model_config))
         then Some [] else None) true.
Proof.
  apply (@each_call_passes_threaded_callbacks Sample.env Sample.model_config
           (Some []) true 2%nat).
  by vm_compute.
Defined.

Lemma request_without_llm_model_raises_witness :
  snd (body (@chat Sample.env (py "hi") JNull (py "c1") 3 (HList []) true
               [] ∅) ([] : @DB Sample.env) Sample.container0)
  = {| yielded := []; raised := Some (KeyError (py "llm_model")) |}.
Proof.
  apply (@request_without_llm_model_raises Sample.env (py "hi") JNull
           (py "c1") 3 (HList []) true [] ∅ [] Sample.container0).
  by intros ?%elem_of_nil.
Defined.

Lemma agent_ignores_the_given_history_witness :
  snd (@create_models_chains Sample.env
         (HList [{| role := py "user"; content := py "one" |}]) 3
         Sample.prompts Sample.models [py "calculate"] [tt] (py "c1") JNull
         Sample.container0)
  = snd (@create_models_chains Sample.env
           (HList [{| role := py "user"; content := py "two" |};
                   {| role := py "assistant"; content := py "three" |}]) (-1)
           Sample.prompts Sample.models [py "calculate"] [tt] [] JNull
           Sample.container0).
Proof.
  apply (@agent_ignores_the_given_history Sample.env); [|done..].
  eexists. by vm_compute.
Defined.

Lemma generator_stops_at_first_bad_chunk_witness :
  length (yielded (@forward Sample.env JNull
                     [Sample.dumps Sample.token_event; py "not json";
                      Sample.dumps Sample.end_event])) = 1%nat.
Proof.
  pose proof (@generator_stops_at_first_bad_chunk Sample.env JNull
                [Sample.dumps Sample.token_event] (py "not json")
                [Sample.dumps Sample.end_event]) as H.
  destruct H as (_ & Hlen & _).
  - intros c ->%list_elem_of_singleton. eexists. by vm_compute.
  - intros o. by vm_compute.
  - exact Hlen.
Defined.

Lemma no_configured_tool_no_agent_witness :
  @select_tools Sample.env {[ py "weather" := JNull ]} = [] ∧
  ∃ chat_prompt llm,
    snd (@build_full_chain Sample.env JNull (py "c1") (-1) (HList []) true
           Sample.model_config {[ py "weather" := JNull ]} Sample.container0)
    = Ok (input_to_chain {| chain_prompt := Some chat_prompt;
                            chain_llm := llm; chain_memory := None |}).
Proof.
  eassert (Hbuilt : snd (@build_full_chain Sample.env JNull (py "c1") (-1)
                           (HList []) true Sample.model_config
                           {[ py "weather" := JNull ]} Sample.container0)
                    = Ok _) by (vm_compute; reflexivity).
  assert (Hnone : ∀ tool, tool ∈ @all_tools Sample.env →
            ({[ py "weather" := JNull ]} : gmap pystr json)
              !! @tool_name Sample.env tool = None).
  { intros tool Hin. cbn in Hin.
    repeat (apply elem_of_cons in Hin as [->|Hin]; [by vm_compute|]).
    by apply elem_of_nil in Hin. }
  pose proof (@no_configured_tool_no_agent Sample.env JNull (py "c1") (-1)
                (HList []) true Sample.model_config
                {[ py "weather" := JNull ]} Sample.container0 Hnone)
    as [Htools Hchain].
  split; [exact Htools|].
  destruct (Hchain _ Hbuilt) as (chat_prompt & llm & _ & Heq).
  exists chat_prompt, llm. exact (eq_trans Hbuilt (f_equal Ok Heq)).
Defined.

Lemma matched_text_decomposes_witness :
  re_match (py "/del  my chat") = Some (py "del", py "my chat") ∧
  ∃ spaces tail,
    py "/del  my chat"
      = 47%N :: (py "del" ++ spaces ++ py "my chat" ++ tail) ∧
    forallb is_space spaces = true.
Proof.
  assert (Hm : re_match (py "/del  my chat") = Some (py "del", py "my chat"))
    by by vm_compute.
  split; [done|].
  pose proof (matched_text_decomposes _ _ _ Hm) as H.
  destruct H as (spaces & tail & Htext & _ & _ & Hspaces & _).
  by exists spaces, tail.
Defined.

Lemma new_with_a_name_witness :
  @parse_command Sample.cbapi (py "/new " ++ py "work") (py "u1") Sample.ui
  = Some (true,
          {| chat_box := chat_box Sample.ui;
             conversation_ids :=
               <[py "work" := py "u1"]> (conversation_ids Sample.ui);
             cur_conv_name := Some (py "work");
             trace := [] |}).
Proof.
  pose proof (@new_with_a_name Sample.cbapi (py "work") (py "u1") Sample.ui)
    as H.
  rewrite H; [|done|by vm_compute].
  destruct (decide (is_Some (conversation_ids Sample.ui !! py "work")))
    as [[id Hid]|_]; [|done].
  by vm_compute in Hid.
Defined.

Lemma del_removes_the_target_witness :
  ∃ cb,
    @del_chat_name Sample.cbapi (py "b") (chat_box Sample.ui) = Some cb ∧
    @parse_command Sample.cbapi (py "/del") (py "u1") Sample.ui
    = Some (true,
            {| chat_box := cb;
               conversation_ids :=
                 delete (py "b") (conversation_ids Sample.ui);
               cur_conv_name := Some [];
               trace := [] |}).
Proof.
  assert (Hchat : py "b" ∈ @get_chat_names Sample.cbapi (chat_box Sample.ui)).
  { apply (bool_decide_unpack _). by vm_compute. }
  pose proof (@del_removes_the_target Sample.cbapi (py "/del") [] (py "u1")
                Sample.ui (py "b") (py "id1")) as H.
  destruct H as [Hrun _].
  - by vm_compute.
  - by vm_compute.
  - by vm_compute.
  - done.
  - by vm_compute.
  - exact (Hrun Hchat).
Defined.

Lemma loop_ends_at_first_exception_witness :
  handle_events Sample.agent_status
    ([SamplePage.token (py "Hel")] ++ SamplePage.no_status
                                   :: [SamplePage.token (py "lo")])
    SamplePage.locals0
  = ({| text := py "Hel"; message_id := JStr [];
        tool_called := false |},
     [update_msg_text (py "Hel") true 0 (JStr (py "m0"))] ++ [],
     Some (KeyError (py "status"))).
Proof.
  eapply (loop_ends_at_first_exception Sample.agent_status
            [SamplePage.token (py "Hel")] [SamplePage.token (py "lo")]
            SamplePage.no_status SamplePage.locals0).
  - by vm_compute.
  - by vm_compute.
Defined.

Lemma tokens_accumulate_witness :
  ∃ l' calls,
    handle_events Sample.agent_status
      [SamplePage.token (py "Hel"); SamplePage.token (py "lo")]
      SamplePage.locals0 = (l', calls, None) ∧
    text l' = [] ++ concat [py "Hel"; py "lo"].
Proof.
  pose proof (tokens_accumulate Sample.agent_status
                [SamplePage.token (py "Hel"); SamplePage.token (py "lo")]
                [py "Hel"; py "lo"] SamplePage.locals0) as H.
  destruct H as (l' & calls & Hrun & Htext & _).
  - repeat constructor; exists (JInt 2); by vm_compute.
  - by exists l', calls.
Defined.

Lemma tool_flag_stays_set_witness :
  tool_called
    (fst (fst (handle_events Sample.agent_status
                 [SamplePage.token (py "Hel"); SamplePage.no_status]
                 {| text := []; message_id := JStr [];
                    tool_called := true |}))) = true.
Proof.
  by apply (tool_flag_stays_set Sample.agent_status).
Defined.

Lemma request_has_one_model_per_role_witness :
  build_request SamplePage.SUPPORT_AGENT_MODELS SamplePage.LLM_MODEL_CONFIG
    SamplePage.TOOL_CONFIG SamplePage.checked (Some (py "Qwen-14B-Chat"))
    = Done SamplePage.request ∧
  fst <$> req_model_config SamplePage.request
    = fst <$> SamplePage.LLM_MODEL_CONFIG.
Proof.
  assert (Hreq : build_request SamplePage.SUPPORT_AGENT_MODELS
                   SamplePage.LLM_MODEL_CONFIG SamplePage.TOOL_CONFIG
                   SamplePage.checked (Some (py "Qwen-14B-Chat"))
                 = Done SamplePage.request) by by vm_compute.
  split; [done|].
  assert (Hdup : NoDup (fst <$> SamplePage.LLM_MODEL_CONFIG)).
  { apply (bool_decide_unpack _). by vm_compute. }
  exact (proj1 (request_has_one_model_per_role _ _ _ _ _ _ Hdup Hreq)).
Defined.

Lemma unsupported_action_model_means_no_agent_witness :
  build_request SamplePage.SUPPORT_AGENT_MODELS
    SamplePage.LLM_MODEL_CONFIG_no_agent SamplePage.TOOL_CONFIG
    SamplePage.checked (Some (py "chatglm3-6b"))
    = Done SamplePage.request_no_agent ∧
  req_warned SamplePage.request_no_agent = true.
Proof.
  assert (Hreq : build_request SamplePage.SUPPORT_AGENT_MODELS
                   SamplePage.LLM_MODEL_CONFIG_no_agent
                   SamplePage.TOOL_CONFIG SamplePage.checked
                   (Some (py "chatglm3-6b"))
                 = Done SamplePage.request_no_agent) by by vm_compute.
  split; [done|].
  refine (proj1 (@unsupported_action_model_means_no_agent Sample.env
                   _ _ _ _ _ _ (py "Llama-2-7b")
                   (SamplePage.params (1 # 100)) [] _ _ Hreq)).
  - unfold SamplePage.LLM_MODEL_CONFIG_no_agent.
    do 2 apply list_elem_of_further. apply list_elem_of_here.
  - apply (bool_decide_eq_false_1 (_ ∈ _)). by vm_compute.
Defined.

Lemma tool_config_holds_the_checked_tools_witness :
  build_request SamplePage.SUPPORT_AGENT_MODELS SamplePage.LLM_MODEL_CONFIG
    SamplePage.TOOL_CONFIG SamplePage.checked (Some (py "Qwen-14B-Chat"))
    = Done SamplePage.request ∧
  is_Some (req_tool_config SamplePage.request !! py "arxiv").
Proof.
  assert (Hreq : build_request SamplePage.SUPPORT_AGENT_MODELS
                   SamplePage.LLM_MODEL_CONFIG SamplePage.TOOL_CONFIG
                   SamplePage.checked (Some (py "Qwen-14B-Chat"))
                 = Done SamplePage.request) by by vm_compute.
  split; [done|].
  pose proof (proj1 (proj2 (tool_config_holds_the_checked_tools
                              _ _ _ _ _ _ Hreq))) as H.
  apply (H eq_refl (py "arxiv") {[ py "use" := JBool true ]}).
  - unfold SamplePage.TOOL_CONFIG.
    apply list_elem_of_further, list_elem_of_here.
  - by vm_compute.
Defined.

Lemma build_request_succeeds_iff_witness :
  NoDup (fst <$> SamplePage.LLM_MODEL_CONFIG) ∧
  ¬ is_Done (build_request SamplePage.SUPPORT_AGENT_MODELS
               SamplePage.LLM_MODEL_CONFIG SamplePage.TOOL_CONFIG
               SamplePage.checked (Some (py "Llama-2-7b"))).
Proof.
  assert (Hdup : NoDup (fst <$> SamplePage.LLM_MODEL_CONFIG)).
  { apply (bool_decide_unpack _). by vm_compute. }
  split; [done|]. intros Hdone.
  pose proof (proj1 (build_request_succeeds_iff
                       SamplePage.SUPPORT_AGENT_MODELS
                       SamplePage.LLM_MODEL_CONFIG SamplePage.TOOL_CONFIG
                       SamplePage.checked (Some (py "Llama-2-7b")) Hdup)
                Hdone) as (_ & _ & H).
  destruct (H _ eq_refl) as (models & Hin & Hname).
  assert (Hllm : (py "llm_model",
                  [(py "chatglm3-6b", SamplePage.params (9 # 10));
                   (py "Qwen-14B-Chat", SamplePage.params (9 # 10))])
                 ∈ SamplePage.LLM_MODEL_CONFIG).
  { unfold SamplePage.LLM_MODEL_CONFIG.
    apply list_elem_of_further, list_elem_of_here. }
  rewrite (NoDup_fst_unique _ _ _ _ Hdup Hin Hllm) in Hname.
  revert Hname. apply (bool_decide_eq_false_1 (_ ∈ _)). by vm_compute.
Defined.

Lemma endpoint_builds_the_models_of_the_page_witness :
  ∃ callbacks,
    fst (@create_models_from_config Sample.env
           (Some (req_model_config SamplePage.request)) (Some []) true)
      !! py "llm_model"
    = Some (kwargs_of (py "Qwen-14B-Chat") (SamplePage.params (9 # 10))
              callbacks true).
Proof.
  assert (Hreq : build_request SamplePage.SUPPORT_AGENT_MODELS
                   SamplePage.LLM_MODEL_CONFIG SamplePage.TOOL_CONFIG
                   SamplePage.checked (Some (py "Qwen-14B-Chat"))
                 = Done SamplePage.request) by by vm_compute.
  assert (Hdup : NoDup (fst <$> SamplePage.LLM_MODEL_CONFIG)).
  { apply (bool_decide_unpack _). by vm_compute. }
  assert (Hin : (py "llm_model",
                 (py "Qwen-14B-Chat", SamplePage.params (9 # 10)))
                ∈ visit_order (req_model_config SamplePage.request)).
  { apply list_elem_of_further, list_elem_of_here. }
  pose proof (@endpoint_builds_the_models_of_the_page Sample.env _ _ _ _ _ _
                true _ _ _ Hdup Hreq Hin) as H.
  destruct H as (_ & callbacks & _ & Hmodel & _).
  by exists callbacks.
Defined.

End MoreInstances.
